(** * OCEL 2.0 importer: a shallow embedding of the Python sources

    Sources embedded here:
    - [src/utils/ocel2_uc_importer.py]        (class [OCEL2UCImporter])
    - [src/utils/write_ocel_to_uc_schema.py]  (class [OCELUCSchema])
    - [src/utils/download_ocel_to_uc_volume.py] (class [OCEL2JSONUCImporter])
    - [src/ingest/download_ocel_to_uc_volume.py] (function [download_file])

    Python values are an inductive type, exceptions are the error side of
    a result type, the Spark catalog and the file system are explicit
    states threaded through the methods.  What belongs to Python's
    runtime, to PySpark or to the network and is not code of this
    repository is a field of an interface class. *)

From Stdlib Require Import Ascii String ZArith Floats.SpecFloat.
From stdpp Require Import base option list strings pretty gmap.

#[local] Set Warnings "-register-all".

Local Open Scope string_scope.
Local Open Scope list_scope.

(** ** Exceptions and results *)

Inductive exn : Type :=
| KeyError (key : string)
| TypeError
| AttributeError (attr : string)
| NameError (name : string)
| ValueError
| RequestException
| OSError.

Inductive result (A : Type) : Type :=
| Ok (a : A)
| Raise (e : exn).
Arguments Ok {A} a.
Arguments Raise {A} e.

#[global] Instance result_ret : MRet result := fun _ a => Ok a.
#[global] Instance result_bind : MBind result := fun _ _ f m =>
  match m with
  | Ok a => f a
  | Raise e => Raise e
  end.

(** ** Python values, as [json.load] builds them

    JSON objects become dicts, arrays lists, strings [str], numbers [int]
    or [float], [true]/[false] the booleans and [null] is [None].  A dict
    is kept as its items; [dict_lookup] returns the binding of a key.  A
    [str] is kept as its UTF-8 bytes. *)

Inductive pyval : Type :=
| PNone
| PBool (b : bool)
| PInt (z : Z)
| PFloat (f : spec_float)
| PStr (s : string)
| PList (l : list pyval)
| PDict (items : list (string * pyval)).

Fixpoint dict_lookup {V} (k : string) (items : list (string * V)) : option V :=
  match items with
  | [] => None
  | (k', v) :: rest => if String.eqb k k' then Some v else dict_lookup k rest
  end.

(** [d[k]]: a dict gives the value or raises [KeyError]; a [str] or a list
    indexed with a [str] key raises [TypeError], and so do the values that
    are not subscriptable. *)
Definition py_getitem (d : pyval) (k : string) : result pyval :=
  match d with
  | PDict items =>
      match dict_lookup k items with
      | Some v => Ok v
      | None => Raise (KeyError k)
      end
  | _ => Raise TypeError
  end.

(** [d.get(k, default)]: only dicts have the method. *)
Definition py_get (d : pyval) (k : string) (default : pyval) : result pyval :=
  match d with
  | PDict items =>
      match dict_lookup k items with
      | Some v => Ok v
      | None => Ok default
      end
  | _ => Raise (AttributeError "get")
  end.

(** The characters of a [str]: a byte [10xxxxxx] continues the character
    of the byte before it. *)
Definition is_continuation (c : ascii) : bool :=
  match c with
  | Ascii _ _ _ _ _ _ false true => true
  | _ => false
  end.

Fixpoint str_chars (s : string) : list string :=
  match s with
  | EmptyString => []
  | String c rest =>
      match str_chars rest with
      | String c' g :: gs =>
          if is_continuation c' then String c (String c' g) :: gs
          else String c EmptyString :: String c' g :: gs
      | gs => String c EmptyString :: gs
      end
  end.

(** [for x in v]: the elements of a list, the characters of a [str], the
    keys of a dict; the other values are not iterable. *)
Definition py_iter (v : pyval) : result (list pyval) :=
  match v with
  | PList l => Ok l
  | PStr s => Ok (PStr <$> str_chars s)
  | PDict items => Ok ((fun kv => PStr kv.1) <$> items)
  | _ => Raise TypeError
  end.

(** The objects a module-level or built-in name is bound to. *)
Inductive pyobject : Type :=
| PyModule (name : string)
| PyClass (name : string)
| PyFunction (name : string)
| PyTyping (name : string)
| PyInstance (cls : string).

(** What the interpreter provides and the sources only call. *)
Class PyRuntime : Type := {
  (** [repr] of a float, a list or a dict *)
  py_repr : pyval -> string;
  (** [int(s)] for a [str] *)
  py_int : string -> result Z;
  (** calling an imported or built-in object on one [str] argument, for
      a caller that subscripts the value it gets with [str] keys *)
  py_call : pyobject -> string -> result (list (string * string))
}.

(** [str(v)] *)
Definition py_str {RT : PyRuntime} (v : pyval) : string :=
  match v with
  | PNone => "None"
  | PBool true => "True"
  | PBool false => "False"
  | PInt z => pretty z
  | PStr s => s
  | PFloat _ | PList _ | PDict _ => py_repr v
  end.

(** [s.split(sep)] for a one-character separator: one more component than
    there are separators in [s]. *)
Fixpoint str_split (sep : ascii) (s : string) : list string :=
  match s with
  | EmptyString => [EmptyString]
  | String c rest =>
      if Ascii.eqb c sep then EmptyString :: str_split sep rest
      else match str_split sep rest with
           | w :: ws => String c w :: ws
           | [] => [String c EmptyString]
           end
  end.

(** [os.path.join(a, b)] on POSIX. *)
Definition os_path_join (a b : string) : string :=
  match b with
  | String "/" _ => b
  | _ =>
      if decide (a = "") then b
      else if String.eqb (substring (String.length a - 1) 1 a) "/" then a +:+ b
      else a +:+ "/" +:+ b
  end.

(** ** Network and file system, as the download functions use them *)

Abbreviation bytes := (list Byte.byte).

(** A file system: the content of every regular file, by path. *)
Abbreviation filesystem := (gmap string bytes).

(** The answer to [requests.get(url, stream=True)]: [iter_content] yields
    the chunks in order; an item [Raise e] is a failure of the transfer at
    that point. *)
Record Response : Type := {
  status_code : Z;
  content_length : option string;
  iter_content : list (result bytes)
}.

Class Host : Type := {
  (** [requests.get(url, stream=True)] *)
  requests_get : string -> result Response;
  (** [Path(p).mkdir(parents=True, exist_ok=True)]; directories are not
      part of [filesystem], the field says whether the call raises *)
  path_mkdir : string -> filesystem -> result unit;
  (** whether [open(p, 'wb')] raises *)
  open_wb : string -> filesystem -> result unit
}.

(** [response.raise_for_status()] *)
Definition raise_for_status (r : Response) : result unit :=
  if decide (400 <= status_code r < 600)%Z then Raise RequestException else Ok ().

(** [int(response.headers.get('content-length', 0))] *)
Definition total_size_of {RT : PyRuntime} (r : Response) : result Z :=
  match content_length r with
  | Some s => py_int s
  | None => Ok 0%Z
  end.

(** What a call returns to its caller. *)
Inductive retval : Type :=
| RetNone
| RetStr (s : string)
| RetInt (n : Z)
| RetTuple (items : list retval).

(** The body of [with open(file_path, 'wb') as f: for chunk in ...]:
    [f.write(chunk)] appends to the file, [downloaded] counts the bytes.
    A write to the open file is taken to succeed.  The progress line is
    printed only and is left out, as are the other [print] calls. *)
Fixpoint write_chunks (file_path : string) (chunks : list (result bytes))
    (downloaded : Z) (fs : filesystem) : filesystem * result Z :=
  match chunks with
  | [] => (fs, Ok downloaded)
  | Raise e :: _ => (fs, Raise e)
  | Ok chunk :: rest =>
      match chunk with
      | [] => write_chunks file_path rest downloaded fs
      | _ :: _ =>
          write_chunks file_path rest (downloaded + Z.of_nat (length chunk))%Z
            (<[file_path := default [] (fs !! file_path) ++ chunk]> fs)
      end
  end.

(** The [try] block shared by the three [download_file]: it yields the
    byte count [downloaded] of the loop.  Both [except] clauses print and
    re-raise, so an exception leaves the block unchanged. *)
Definition download_to {RT : PyRuntime} {HS : Host} (url file_path : string)
    (fs : filesystem) : filesystem * result Z :=
  match requests_get url with
  | Raise e => (fs, Raise e)
  | Ok response =>
      match raise_for_status response with
      | Raise e => (fs, Raise e)
      | Ok _ =>
          match total_size_of response with
          | Raise e => (fs, Raise e)
          | Ok total_size =>
              let chunk_size := 8192%Z in
              let downloaded := 0%Z in
              match open_wb file_path fs with
              | Raise e => (fs, Raise e)
              | Ok _ =>
                  write_chunks file_path (iter_content response) downloaded
                    (<[file_path := []]> fs)
              end
          end
      end
  end.

(** ** [src/ingest/download_ocel_to_uc_volume.py] *)

Module Ingest.

Definition download_file {RT : PyRuntime} {HS : Host} (url folder_path file_name : string)
    (fs : filesystem) : filesystem * result retval :=
  let destination := os_path_join folder_path file_name in
  match path_mkdir folder_path fs with
  | Raise e => (fs, Raise e)
  | Ok _ =>
      match download_to url destination fs with
      | (fs', Raise e) => (fs', Raise e)
      | (fs', Ok downloaded) => (fs', Ok (RetStr destination))
      end
  end.

End Ingest.

(** ** [src/utils/download_ocel_to_uc_volume.py] *)

Module Download.

Record OCEL2JSONUCImporter : Type := {
  url : option string;
  catalog : option string;
  schema : option string;
  volume : option string;
  file_path : option string
}.

Definition __init__ (url catalog schema volume : option string) : OCEL2JSONUCImporter :=
  {| url := url; catalog := catalog; schema := schema; volume := volume;
     file_path := None |}.

Definition download_file {RT : PyRuntime} {HS : Host} (self : OCEL2JSONUCImporter)
    (file_name : string) (fs : filesystem) : filesystem * result retval :=
  match url self, catalog self, schema self, volume self with
  | None, _, _, _ => (fs, Raise ValueError)
  | Some _, None, _, _ => (fs, Raise ValueError)
  | Some _, Some _, None, _ => (fs, Raise ValueError)
  | Some _, Some _, Some _, None => (fs, Raise ValueError)
  | Some self_url, Some self_catalog, Some self_schema, Some self_volume =>
      let volume_path :=
        "/Volumes/" +:+ self_catalog +:+ "/" +:+ self_schema +:+ "/" +:+ self_volume in
      match path_mkdir volume_path fs with
      | Raise e => (fs, Raise e)
      | Ok _ =>
          let file_path := os_path_join volume_path file_name in
          match download_to self_url file_path fs with
          | (fs', Raise e) => (fs', Raise e)
          | (fs', Ok downloaded) => (fs', Ok (RetStr file_path))
          end
      end
  end.

End Download.

(** ** [src/utils/ocel2_uc_importer.py]: paths and download *)

Module Importer.

Record OCEL2UCImporter : Type := {
  catalog : option string;
  schema : option string;
  volume : option string;
  file_name : option string;
  file_path : option string
}.

Definition __init__ : OCEL2UCImporter :=
  {| catalog := None; schema := None; volume := None; file_name := None;
     file_path := None |}.

(** The names bound at module level when a method runs: the imports, the
    class and the attributes every module has.  [parser] and [args] are
    bound too when the file runs as a script. *)
Definition module_globals : list (string * pyobject) :=
  [ ("argparse", PyModule "argparse"); ("requests", PyModule "requests");
    ("os", PyModule "os"); ("json", PyModule "json");
    ("Path", PyClass "pathlib.Path");
    ("Dict", PyTyping "Dict"); ("List", PyTyping "List"); ("Any", PyTyping "Any");
    ("SparkSession", PyClass "SparkSession");
    ("StructType", PyClass "StructType"); ("StructField", PyClass "StructField");
    ("StringType", PyClass "StringType"); ("IntegerType", PyClass "IntegerType");
    ("FloatType", PyClass "FloatType"); ("TimestampType", PyClass "TimestampType");
    ("ArrayType", PyClass "ArrayType");
    ("col", PyFunction "col"); ("explode", PyFunction "explode");
    ("lit", PyFunction "lit");
    ("OCEL2UCImporter", PyClass "OCEL2UCImporter");
    ("parser", PyInstance "ArgumentParser"); ("args", PyInstance "Namespace");
    ("__name__", PyInstance "str"); ("__doc__", PyInstance "NoneType");
    ("__package__", PyInstance "str"); ("__loader__", PyInstance "SourceFileLoader");
    ("__spec__", PyInstance "ModuleSpec"); ("__file__", PyInstance "str");
    ("__cached__", PyInstance "str"); ("__builtins__", PyModule "builtins") ].

(** The built-in functions and classes, and the exceptions the module
    names. *)
Definition builtins : list (string * pyobject) :=
  (fun n => (n, PyFunction n)) <$>
    [ "abs"; "aiter"; "all"; "anext"; "any"; "ascii"; "bin"; "bool";
      "breakpoint"; "bytearray"; "bytes"; "callable"; "chr"; "classmethod";
      "compile"; "complex"; "delattr"; "dict"; "dir"; "divmod"; "enumerate";
      "eval"; "exec"; "filter"; "float"; "format"; "frozenset"; "getattr";
      "globals"; "hasattr"; "hash"; "help"; "hex"; "id"; "input"; "int";
      "isinstance"; "issubclass"; "iter"; "len"; "list"; "locals"; "map";
      "max"; "memoryview"; "min"; "next"; "object"; "oct"; "open"; "ord";
      "pow"; "print"; "property"; "range"; "repr"; "reversed"; "round";
      "set"; "setattr"; "slice"; "sorted"; "staticmethod"; "str"; "sum";
      "super"; "tuple"; "type"; "vars"; "zip"; "__import__";
      "Exception"; "ValueError"; "KeyError"; "TypeError"; "NameError";
      "AttributeError"; "OSError" ].

(** A name that is not local to the function: the module's globals, then
    the built-ins.  The body of a class is not a scope of its methods. *)
Definition load_global (name : string) : result pyobject :=
  match dict_lookup name module_globals with
  | Some o => Ok o
  | None =>
      match dict_lookup name builtins with
      | Some o => Ok o
      | None => Raise (NameError name)
      end
  end.

(** [catalog, schema, volume, file_name = file_path.split('/')[2:]]: the
    unpacking raises [ValueError] unless there are exactly four values,
    and the handler raises a [ValueError] again. *)
Definition parse_uc_file_path (file_path : string) : result (list (string * string)) :=
  match drop 2 (str_split "/" file_path) with
  | [catalog; schema; volume; file_name] =>
      Ok [ ("catalog", catalog); ("schema", schema); ("volume", volume);
           ("file_name", file_name) ]
  | _ => Raise ValueError
  end.

(** [d[k]] on the dict a call returned. *)
Definition getitem (d : list (string * string)) (k : string) : result string :=
  match dict_lookup k d with
  | Some v => Ok v
  | None => Raise (KeyError k)
  end.

Definition is_not_None {A} (x : option A) : bool :=
  match x with Some _ => true | None => false end.

(** A method returns the instance as it is when the method ends, and its
    result. *)
Definition set_uc_file_path {RT : PyRuntime} (self : OCEL2UCImporter)
    (file_path catalog schema volume file_name : option string)
    : OCEL2UCImporter * result unit :=
  let has_file_path := is_not_None file_path in
  let has_components :=
    existsb is_not_None [catalog; schema; volume; file_name] in
  if has_file_path && has_components then (self, Raise ValueError)
  else if negb has_file_path && negb has_components then (self, Raise ValueError)
  else
    match file_path with
    | Some path =>
        (* file_path_elements = parse_uc_file_path(file_path) *)
        match load_global "parse_uc_file_path" ≫= (fun callee => py_call callee path) with
        | Raise e => (self, Raise e)
        | Ok file_path_elements =>
            match getitem file_path_elements "catalog" with
            | Raise e => (self, Raise e)
            | Ok c =>
                let self1 := {| catalog := Some c; schema := Importer.schema self;
                                volume := Importer.volume self;
                                file_name := Importer.file_name self;
                                file_path := Importer.file_path self |} in
                match getitem file_path_elements "schema" with
                | Raise e => (self1, Raise e)
                | Ok s =>
                    let self2 := {| catalog := Some c; schema := Some s;
                                    volume := Importer.volume self;
                                    file_name := Importer.file_name self;
                                    file_path := Importer.file_path self |} in
                    match getitem file_path_elements "volume" with
                    | Raise e => (self2, Raise e)
                    | Ok v =>
                        let self3 := {| catalog := Some c; schema := Some s;
                                        volume := Some v;
                                        file_name := Importer.file_name self;
                                        file_path := Importer.file_path self |} in
                        match getitem file_path_elements "file_name" with
                        | Raise e => (self3, Raise e)
                        | Ok f =>
                            ({| catalog := Some c; schema := Some s;
                                volume := Some v; file_name := Some f;
                                file_path := Some path |}, Ok ())
                        end
                    end
                end
            end
        end
    | None =>
        match catalog, schema, volume, file_name with
        | Some c, Some s, Some v, Some f =>
            ({| catalog := Some c; schema := Some s; volume := Some v;
                file_name := Some f;
                file_path := Some ("/Volumes/" +:+ c +:+ "/" +:+ s +:+ "/" +:+ v +:+ "/" +:+ f) |},
             Ok ())
        | _, _, _, _ => (self, Raise ValueError)
        end
    end.

(** [download_file(self, url, file_path=None)]: the function ends without
    a [return] statement, so a call that succeeds returns [None]. *)
Definition download_file {RT : PyRuntime} {HS : Host} (self : OCEL2UCImporter)
    (url file_path : option string) (fs : filesystem)
    : filesystem * result retval :=
  match url with
  | None => (fs, Raise ValueError)
  | Some url =>
      let chosen :=
        match file_path with
        | Some p => Ok p
        | None =>
            match Importer.file_path self with
            | Some p => Ok p
            | None => Raise ValueError
            end
        end in
      match chosen with
      | Raise e => (fs, Raise e)
      | Ok file_path =>
          match download_to url file_path fs with
          | (fs', Raise e) => (fs', Raise e)
          | (fs', Ok downloaded) => (fs', Ok RetNone)
          end
      end
  end.

End Importer.

(** ** Spark, as the flattener uses it *)

Inductive DataType : Type :=
| StringType
| LongType
| DoubleType
| BooleanType
| ArrayType (elementType : DataType)
| MapType (keyType valueType : DataType).

Record StructField : Type := {
  field_name : string;
  dataType : DataType;
  nullable : bool
}.

Abbreviation StructType := (list StructField).

(** A row handed to [createDataFrame] is a Python dict. *)
Abbreviation row := (list (string * pyval)).

Record DataFrame : Type := {
  df_schema : StructType;
  df_rows : list row
}.

(** The tables of the metastore, by their full name. *)
Abbreviation metastore := (gmap string DataFrame).

Class Workspace : Type := {
  (** [with open(json_path, 'r') as f: json.load(f)] *)
  read_json : string -> result pyval;
  (** the schema PySpark infers from a list of dicts that is not empty *)
  infer_schema : list row -> result StructType;
  (** whether [df.write.mode("overwrite").saveAsTable(name)] raises *)
  save_allowed : string -> DataFrame -> metastore -> result unit
}.

(** [spark.createDataFrame(data)]: without rows there is nothing to infer
    a schema from and PySpark raises a [ValueError]. *)
Definition createDataFrame {WS : Workspace} (data : list row) : result DataFrame :=
  match data with
  | [] => Raise ValueError
  | _ :: _ =>
      schema ← infer_schema data;
      Ok {| df_schema := schema; df_rows := data |}
  end.

(** [spark.createDataFrame([], schema)] *)
Definition createDataFrame_schema (schema : StructType) : DataFrame :=
  {| df_schema := schema; df_rows := [] |}.

(** Code that runs against the metastore: the state it leaves and its
    result.  An exception leaves the state as it is at that point. *)
Definition spark_action (A : Type) : Type := metastore -> metastore * result A.

Definition and_then {A B} (m : spark_action A) (k : spark_action B) : spark_action B :=
  fun st =>
    match m st with
    | (st', Ok _) => k st'
    | (st', Raise e) => (st', Raise e)
    end.
Infix ">>" := and_then (at level 90, right associativity).

(** [df.write.mode("overwrite").saveAsTable(table_name)] *)
Definition saveAsTable {WS : Workspace} (table_name : string) (df : DataFrame)
    : spark_action unit :=
  fun st =>
    match save_allowed table_name df st with
    | Raise e => (st, Raise e)
    | Ok _ => (<[table_name := df]> st, Ok ())
    end.

(** A [for] loop whose body updates the variable [rows] and may raise. *)
Fixpoint for_each {A S} (xs : list A) (body : A -> S -> result S) (s : S) : result S :=
  match xs with
  | [] => Ok s
  | x :: rest => s' ← body x s; for_each rest body s'
  end.

Definition string_field (n : string) : StructField :=
  {| field_name := n; dataType := StringType; nullable := true |}.

(** ** [src/utils/write_ocel_to_uc_schema.py] *)

Module Schema.

Record OCELUCSchema : Type := {
  catalog : string;
  schema : string;
  full_schema : string
}.

(** [self.spark] is the session: its metastore is the state of a
    [spark_action]. *)
Definition __init__ (catalog schema : string) : OCELUCSchema :=
  {| catalog := catalog; schema := schema;
     full_schema := catalog +:+ "." +:+ schema |}.

Section Methods.
Context {RT : PyRuntime} {WS : Workspace}.

Definition _load_ocel_json (json_path : string) : result pyval :=
  read_json json_path.

(** The dict literals appended to [rows]: the values are evaluated from
    left to right, and the first that raises ends the loop. *)

Definition object_type_row (type_name attr : pyval) : result row :=
  attribute_name ← py_getitem attr "name";
  attribute_type ← py_getitem attr "type";
  Ok [ ("object_type_name", type_name);
       ("attribute_name", attribute_name);
       ("attribute_type", attribute_type) ].

Definition event_type_row (type_name attr : pyval) : result row :=
  attribute_name ← py_getitem attr "name";
  attribute_type ← py_getitem attr "type";
  Ok [ ("event_type_name", type_name);
       ("attribute_name", attribute_name);
       ("attribute_type", attribute_type) ].

Definition object_row (obj : pyval) : result row :=
  object_id ← py_getitem obj "id";
  object_type ← py_getitem obj "type";
  Ok [ ("object_id", object_id); ("object_type", object_type) ].

Definition object_attribute_row (obj_id attr : pyval) : result row :=
  attribute_name ← py_getitem attr "name";
  value ← py_getitem attr "value";
  attribute_time ← py_get attr "time" PNone;
  Ok [ ("object_id", obj_id);
       ("attribute_name", attribute_name);
       ("attribute_value", PStr (py_str value));
       ("attribute_time", attribute_time) ].

Definition object_relationship_row (source_id rel : pyval) : result row :=
  target_object_id ← py_getitem rel "objectId";
  qualifier ← py_get rel "qualifier" (PStr "");
  Ok [ ("source_object_id", source_id);
       ("target_object_id", target_object_id);
       ("qualifier", qualifier) ].

Definition event_row (event : pyval) : result row :=
  event_id ← py_getitem event "id";
  event_type ← py_getitem event "type";
  event_time ← py_getitem event "time";
  Ok [ ("event_id", event_id); ("event_type", event_type);
       ("event_time", event_time) ].

Definition event_attribute_row (event_id attr : pyval) : result row :=
  attribute_name ← py_getitem attr "name";
  value ← py_getitem attr "value";
  Ok [ ("event_id", event_id);
       ("attribute_name", attribute_name);
       ("attribute_value", PStr (py_str value)) ].

Definition event_object_relationship_row (event_id rel : pyval) : result row :=
  object_id ← py_getitem rel "objectId";
  qualifier ← py_get rel "qualifier" (PStr "");
  Ok [ ("event_id", event_id); ("object_id", object_id);
       ("qualifier", qualifier) ].

(** [rows.append(<dict literal>)] *)
Definition append (r : result row) (rows : list row) : result (list row) :=
  new_row ← r; Ok (rows ++ [new_row]).

(** The loops that fill [rows], one per table. *)

Definition object_types_rows (ocel_data : pyval) : result (list row) :=
  obj_types ← py_getitem ocel_data "objectTypes" ≫= py_iter;
  for_each obj_types (fun obj_type rows =>
    type_name ← py_getitem obj_type "name";
    attrs ← py_getitem obj_type "attributes" ≫= py_iter;
    for_each attrs (fun attr => append (object_type_row type_name attr)) rows) [].

Definition event_types_rows (ocel_data : pyval) : result (list row) :=
  event_types ← py_getitem ocel_data "eventTypes" ≫= py_iter;
  for_each event_types (fun event_type rows =>
    type_name ← py_getitem event_type "name";
    attrs ← py_getitem event_type "attributes" ≫= py_iter;
    for_each attrs (fun attr => append (event_type_row type_name attr)) rows) [].

Definition objects_rows (ocel_data : pyval) : result (list row) :=
  objs ← py_getitem ocel_data "objects" ≫= py_iter;
  for_each objs (fun obj => append (object_row obj)) [].

Definition object_attributes_rows (ocel_data : pyval) : result (list row) :=
  objs ← py_getitem ocel_data "objects" ≫= py_iter;
  for_each objs (fun obj rows =>
    obj_id ← py_getitem obj "id";
    attrs ← py_get obj "attributes" (PList []) ≫= py_iter;
    for_each attrs (fun attr => append (object_attribute_row obj_id attr)) rows) [].

Definition object_relationships_rows (ocel_data : pyval) : result (list row) :=
  objs ← py_getitem ocel_data "objects" ≫= py_iter;
  for_each objs (fun obj rows =>
    source_id ← py_getitem obj "id";
    rels ← py_get obj "relationships" (PList []) ≫= py_iter;
    for_each rels (fun rel => append (object_relationship_row source_id rel)) rows) [].

Definition events_rows (ocel_data : pyval) : result (list row) :=
  events ← py_getitem ocel_data "events" ≫= py_iter;
  for_each events (fun event => append (event_row event)) [].

Definition event_attributes_rows (ocel_data : pyval) : result (list row) :=
  events ← py_getitem ocel_data "events" ≫= py_iter;
  for_each events (fun event rows =>
    event_id ← py_getitem event "id";
    attrs ← py_get event "attributes" (PList []) ≫= py_iter;
    for_each attrs (fun attr => append (event_attribute_row event_id attr)) rows) [].

Definition event_object_relationships_rows (ocel_data : pyval) : result (list row) :=
  events ← py_getitem ocel_data "events" ≫= py_iter;
  for_each events (fun event rows =>
    event_id ← py_getitem event "id";
    rels ← py_get event "relationships" (PList []) ≫= py_iter;
    for_each rels (fun rel => append (event_object_relationship_row event_id rel)) rows) [].

(** [if rows: df = createDataFrame(rows) else: df = createDataFrame([], schema)] *)
Definition dataframe_or_empty (rows : list row) (columns : list string)
    : result DataFrame :=
  match rows with
  | _ :: _ => createDataFrame rows
  | [] => Ok (createDataFrame_schema (string_field <$> columns))
  end.

(** The end of every method: build [df], then save it under
    [f"{self.full_schema}.<table>"].  [df.count()] is printed only. *)
Definition build_and_save (self : OCELUCSchema) (table : string)
    (rows : result (list row)) (build : list row -> result DataFrame)
    : spark_action unit :=
  fun st =>
    match rows ≫= build with
    | Raise e => (st, Raise e)
    | Ok df => saveAsTable (full_schema self +:+ "." +:+ table) df st
    end.

Definition _create_and_load_object_types_table (self : OCELUCSchema)
    (ocel_data : pyval) : spark_action unit :=
  build_and_save self "object_types" (object_types_rows ocel_data)
    (fun rows => dataframe_or_empty rows
       ["object_type_name"; "attribute_name"; "attribute_type"]).

Definition _create_and_load_event_types_table (self : OCELUCSchema)
    (ocel_data : pyval) : spark_action unit :=
  build_and_save self "event_types" (event_types_rows ocel_data)
    (fun rows => dataframe_or_empty rows
       ["event_type_name"; "attribute_name"; "attribute_type"]).

Definition create_and_load_objects_table (self : OCELUCSchema)
    (ocel_data : pyval) : spark_action unit :=
  build_and_save self "objects" (objects_rows ocel_data) createDataFrame.

Definition _create_and_load_attributes_table (self : OCELUCSchema)
    (ocel_data : pyval) : spark_action unit :=
  build_and_save self "object_attributes" (object_attributes_rows ocel_data)
    (fun rows => dataframe_or_empty rows
       ["object_id"; "attribute_name"; "attribute_value"; "attribute_time"]).

Definition _create_and_load_object_relationships_table (self : OCELUCSchema)
    (ocel_data : pyval) : spark_action unit :=
  build_and_save self "object_relationships" (object_relationships_rows ocel_data)
    (fun rows => dataframe_or_empty rows
       ["source_object_id"; "target_object_id"; "qualifier"]).

Definition _create_and_load_events_table (self : OCELUCSchema)
    (ocel_data : pyval) : spark_action unit :=
  build_and_save self "events" (events_rows ocel_data) createDataFrame.

Definition _create_and_load_event_attributes_table (self : OCELUCSchema)
    (ocel_data : pyval) : spark_action unit :=
  build_and_save self "event_attributes" (event_attributes_rows ocel_data)
    (fun rows => dataframe_or_empty rows
       ["event_id"; "attribute_name"; "attribute_value"]).

Definition _create_and_load_event_object_relationships_table (self : OCELUCSchema)
    (ocel_data : pyval) : spark_action unit :=
  build_and_save self "event_object_relationships"
    (event_object_relationships_rows ocel_data) createDataFrame.

(** The methods the class body defines, under the names it gives them. *)
Definition class_methods
    : list (string * (OCELUCSchema -> pyval -> spark_action unit)) :=
  [ ("_create_and_load_object_types_table", _create_and_load_object_types_table);
    ("_create_and_load_event_types_table", _create_and_load_event_types_table);
    ("create_and_load_objects_table", create_and_load_objects_table);
    ("_create_and_load_attributes_table", _create_and_load_attributes_table);
    ("_create_and_load_object_relationships_table",
       _create_and_load_object_relationships_table);
    ("_create_and_load_events_table", _create_and_load_events_table);
    ("_create_and_load_event_attributes_table",
       _create_and_load_event_attributes_table);
    ("_create_and_load_event_object_relationships_table",
       _create_and_load_event_object_relationships_table) ].

(** The attributes [__init__] sets on the instance: a session and three
    [str], none of them callable. *)
Definition instance_attributes : list string :=
  [ "spark"; "catalog"; "schema"; "full_schema" ].

(** [self.<name>(ocel_data)]: a method of the class runs; an attribute of
    the instance is not callable; a name that is neither raises
    [AttributeError].  The names every object inherits from [object] are
    left out. *)
Definition call_method (self : OCELUCSchema) (name : string) (ocel_data : pyval)
    : spark_action unit :=
  match dict_lookup name class_methods with
  | Some method => method self ocel_data
  | None =>
      if existsb (String.eqb name) instance_attributes
      then fun st => (st, Raise TypeError)
      else fun st => (st, Raise (AttributeError name))
  end.

Definition write_ocel_json_to_schema (self : OCELUCSchema) (json_path : string)
    : spark_action unit :=
  fun st =>
    match _load_ocel_json json_path with
    | Raise e => (st, Raise e)
    | Ok ocel_data =>
        (call_method self "_create_and_load_object_types_table" ocel_data >>
         call_method self "_create_and_load_event_types_table" ocel_data >>
         call_method self "_create_and_load_objects_table" ocel_data >>
         call_method self "_create_and_load_object_attributes_table" ocel_data >>
         call_method self "_create_and_load_object_relationships_table" ocel_data >>
         call_method self "_create_and_load_events_table" ocel_data >>
         call_method self "_create_and_load_event_attributes_table" ocel_data >>
         call_method self "_create_and_load_event_object_relationships_table" ocel_data)
          st
    end.

End Methods.

End Schema.

(** ** Vocabulary of the properties *)

(** The path segments [parse_uc_file_path] unpacks: the components of the
    ['/']-split from index 2 on, after the empty component in front of the
    leading slash and the root ["Volumes"]. *)
Definition segments_after_root (file_path : string) : list string :=
  drop 2 (str_split "/" file_path).

(** The four tables that have one row per element of a list nested in an
    object or in an event. *)
Inductive parent : Type := Object | Event.
Inductive nested : Type := Attributes | Relationships.

Definition parent_key (p : parent) : string :=
  match p with Object => "objects" | Event => "events" end.

Definition nested_key (n : nested) : string :=
  match n with Attributes => "attributes" | Relationships => "relationships" end.

Definition nested_table (p : parent) (n : nested) : string :=
  match p, n with
  | Object, Attributes => "object_attributes"
  | Object, Relationships => "object_relationships"
  | Event, Attributes => "event_attributes"
  | Event, Relationships => "event_object_relationships"
  end.

Definition nested_rows {RT : PyRuntime} (p : parent) (n : nested)
    : pyval -> result (list row) :=
  match p, n with
  | Object, Attributes => Schema.object_attributes_rows
  | Object, Relationships => Schema.object_relationships_rows
  | Event, Attributes => Schema.event_attributes_rows
  | Event, Relationships => Schema.event_object_relationships_rows
  end.

Definition nested_method {RT : PyRuntime} {WS : Workspace} (p : parent) (n : nested)
    : Schema.OCELUCSchema -> pyval -> spark_action unit :=
  match p, n with
  | Object, Attributes => Schema._create_and_load_attributes_table
  | Object, Relationships => Schema._create_and_load_object_relationships_table
  | Event, Attributes => Schema._create_and_load_event_attributes_table
  | Event, Relationships => Schema._create_and_load_event_object_relationships_table
  end.

Definition nested_row {RT : PyRuntime} (p : parent) (n : nested)
    : pyval -> pyval -> result row :=
  match p, n with
  | Object, Attributes => Schema.object_attribute_row
  | Object, Relationships => Schema.object_relationship_row
  | Event, Attributes => Schema.event_attribute_row
  | Event, Relationships => Schema.event_object_relationship_row
  end.

(** The column that carries the identifier of the parent. *)
Definition parent_column (p : parent) (n : nested) : string :=
  match p, n with
  | Object, Attributes => "object_id"
  | Object, Relationships => "source_object_id"
  | Event, _ => "event_id"
  end.

(** The two tables of type declarations. *)
Definition types_key (p : parent) : string :=
  match p with Object => "objectTypes" | Event => "eventTypes" end.

Definition types_rows (p : parent) : pyval -> result (list row) :=
  match p with
  | Object => Schema.object_types_rows
  | Event => Schema.event_types_rows
  end.

(** The elements of the top-level array [doc[key]], as the loops see
    them. *)
Definition elements (doc : pyval) (key : string) : result (list pyval) :=
  py_getitem doc key ≫= py_iter.

(** The elements of the list nested in [x] under [key], none when the key
    is absent. *)
Definition nested_elements (x : pyval) (key : string) : result (list pyval) :=
  py_get x key (PList []) ≫= py_iter.

Definition or_nil {A} (r : result (list A)) : list A :=
  match r with Ok l => l | Raise _ => [] end.

(** [k_i]: how many attributes the object [obj] has. *)
Definition n_attributes (obj : pyval) : nat :=
  length (or_nil (nested_elements obj "attributes")).

(** All the relationship elements of the objects or events [xs], in the
    order of the document. *)
Definition all_nested (n : nested) (xs : list pyval) : list pyval :=
  xs ≫= (fun x => or_nil (nested_elements x (nested_key n))).

Definition has_key (k : string) (v : pyval) : bool :=
  match v with
  | PDict items => bool_decide (is_Some (dict_lookup k items))
  | _ => false
  end.

(** The rows one object or event [x] contributes to a nested table: one
    per element of its nested list. *)
Definition rows_of_parent {RT : PyRuntime} (p : parent) (n : nested) (x : pyval)
    : result (list row) :=
  id ← py_getitem x "id";
  ys ← nested_elements x (nested_key n);
  mapM (nested_row p n id) ys.

Definition type_row (p : parent) : pyval -> pyval -> result row :=
  match p with
  | Object => Schema.object_type_row
  | Event => Schema.event_type_row
  end.

(** The rows one type declaration [x] contributes. *)
Definition rows_of_type (p : parent) (x : pyval) : result (list row) :=
  type_name ← py_getitem x "name";
  ys ← py_getitem x "attributes" ≫= py_iter;
  mapM (type_row p type_name) ys.

(** The names [write_ocel_json_to_schema] calls, in its order. *)
Definition conversion_calls : list string :=
  [ "_create_and_load_object_types_table";
    "_create_and_load_event_types_table";
    "_create_and_load_objects_table";
    "_create_and_load_object_attributes_table";
    "_create_and_load_object_relationships_table";
    "_create_and_load_events_table";
    "_create_and_load_event_attributes_table";
    "_create_and_load_event_object_relationships_table" ].

(** [self.<name>(ocel_data)] for each of [names], one after the other. *)
Fixpoint call_in_order {RT : PyRuntime} {WS : Workspace} (self : Schema.OCELUCSchema)
    (names : list string) (ocel_data : pyval) : spark_action unit :=
  match names with
  | [] => fun st => (st, Ok ())
  | name :: rest =>
      Schema.call_method self name ocel_data >> call_in_order self rest ocel_data
  end.

(** The methods the class defines, under their own names and in the order
    of the conversion. *)
Definition defined_calls : list string :=
  [ "_create_and_load_object_types_table";
    "_create_and_load_event_types_table";
    "create_and_load_objects_table";
    "_create_and_load_attributes_table";
    "_create_and_load_object_relationships_table";
    "_create_and_load_events_table";
    "_create_and_load_event_attributes_table";
    "_create_and_load_event_object_relationships_table" ].

(** The table each method of the class saves. *)
Definition written_table (method : string) : option string :=
  dict_lookup method
    [ ("_create_and_load_object_types_table", "object_types");
      ("_create_and_load_event_types_table", "event_types");
      ("create_and_load_objects_table", "objects");
      ("_create_and_load_attributes_table", "object_attributes");
      ("_create_and_load_object_relationships_table", "object_relationships");
      ("_create_and_load_events_table", "events");
      ("_create_and_load_event_attributes_table", "event_attributes");
      ("_create_and_load_event_object_relationships_table",
         "event_object_relationships") ].

Definition table_name (self : Schema.OCELUCSchema) (table : string) : string :=
  Schema.full_schema self +:+ "." +:+ table.

(** ** Concrete documents and environments, for the examples *)

Definition minimal_document : pyval :=
  PDict [ ("objectTypes", PList []);
          ("eventTypes", PList []);
          ("objects", PList [ PDict [ ("id", PStr "o1"); ("type", PStr "order") ] ]);
          ("events", PList [ PDict [ ("id", PStr "e1"); ("type", PStr "place");
                                     ("time", PStr "2024-01-01T00:00:00Z") ] ]) ].

(** An [objectTypes] entry and an [eventTypes] entry without the key
    ['attributes']. *)
Definition untyped_attributes_document : pyval :=
  PDict [ ("objectTypes", PList [ PDict [ ("name", PStr "order") ] ]);
          ("eventTypes", PList [ PDict [ ("name", PStr "place") ] ]);
          ("objects", PList [ PDict [ ("id", PStr "o1"); ("type", PStr "order") ] ]);
          ("events", PList [ PDict [ ("id", PStr "e1"); ("type", PStr "place");
                                     ("time", PStr "2024-01-01T00:00:00Z") ] ]) ].

(** Two objects with one and two attributes, the second without the key
    ['relationships'], and an event related to both, once without a
    qualifier. *)
Definition object_o1 : pyval :=
  PDict [ ("id", PStr "o1"); ("type", PStr "order");
          ("attributes",
            PList [ PDict [ ("name", PStr "price");
                            ("time", PStr "2024-01-01T00:00:00Z");
                            ("value", PInt 12) ] ]);
          ("relationships", PList [ PDict [ ("objectId", PStr "o2") ] ]) ].

Definition o2_items : list (string * pyval) :=
  [ ("id", PStr "o2"); ("type", PStr "order");
    ("attributes",
      PList [ PDict [ ("name", PStr "price");
                      ("time", PStr "2024-01-01T00:00:00Z");
                      ("value", PInt 7) ];
              PDict [ ("name", PStr "paid");
                      ("time", PStr "2024-01-02T00:00:00Z");
                      ("value", PBool true) ] ]) ].

Definition event_e1 : pyval :=
  PDict [ ("id", PStr "e1"); ("type", PStr "place");
          ("time", PStr "2024-01-01T00:00:00Z");
          ("relationships",
            PList [ PDict [ ("objectId", PStr "o1") ];
                    PDict [ ("objectId", PStr "o2");
                            ("qualifier", PStr "with") ] ]) ].

Definition order_document : pyval :=
  PDict [ ("objectTypes",
            PList [ PDict [ ("name", PStr "order");
                            ("attributes",
                              PList [ PDict [ ("name", PStr "price");
                                              ("type", PStr "float") ] ]) ] ]);
          ("eventTypes",
            PList [ PDict [ ("name", PStr "place"); ("attributes", PList []) ] ]);
          ("objects", PList [ object_o1; PDict o2_items ]);
          ("events", PList [ event_e1 ]) ].

(** A document whose object types are well formed and whose event type
    has no key ['attributes']. *)
Definition late_failure_document : pyval :=
  PDict [ ("objectTypes",
            PList [ PDict [ ("name", PStr "order"); ("attributes", PList []) ] ]);
          ("eventTypes", PList [ PDict [ ("name", PStr "place") ] ]);
          ("objects", PList [ PDict [ ("id", PStr "o1"); ("type", PStr "order") ] ]);
          ("events", PList [ PDict [ ("id", PStr "e1"); ("type", PStr "place") ] ]) ].

(** The same document without the second object. *)
Definition order_document_o1 : pyval :=
  PDict [ ("objects", PList [ object_o1 ]) ].

(** A document without type declarations. *)
Definition no_types_document : pyval :=
  PDict [ ("objectTypes", PList []); ("eventTypes", PList []) ].

(** [int] on a string of decimal digits. *)
Fixpoint digits_value (s : string) (acc : Z) : result Z :=
  match s with
  | EmptyString => Ok acc
  | String c rest =>
      let d := (Z.of_N (N_of_ascii c) - 48)%Z in
      if decide (0 <= d <= 9)%Z then digits_value rest (10 * acc + d)%Z
      else Raise ValueError
  end.

(** A runtime for documents whose values are strings, integers and
    booleans and for digit strings. *)
Definition plain_runtime : PyRuntime :=
  {| py_repr := fun _ => "";
     py_int := fun s => match s with
                        | EmptyString => Raise ValueError
                        | _ => digits_value s 0
                        end;
     py_call := fun _ _ => Raise TypeError |}.

(** The converter of the examples. *)
Definition main_logistics : Schema.OCELUCSchema := Schema.__init__ "main" "logistics".

(** Schema inference in the way of PySpark, for rows whose values are
    [str], [int], [float], [bool] or [None]: a value has the type of its
    Python type, [None] has none; the types of a column are merged over
    all rows and two different types do not merge; a column whose values
    are all [None] has no type, which is an error; the fields are in the
    order of the sorted keys.  Lists and dicts as values are left to no
    rule here and rejected. *)
Definition inferred_type (v : pyval) : result (option DataType) :=
  match v with
  | PNone => Ok None
  | PBool _ => Ok (Some BooleanType)
  | PInt _ => Ok (Some LongType)
  | PFloat _ => Ok (Some DoubleType)
  | PStr _ => Ok (Some StringType)
  | PList _ | PDict _ => Raise TypeError
  end.

Fixpoint same_type (a b : DataType) : bool :=
  match a, b with
  | StringType, StringType | LongType, LongType
  | DoubleType, DoubleType | BooleanType, BooleanType => true
  | ArrayType x, ArrayType y => same_type x y
  | MapType k v, MapType k' v' => same_type k k' && same_type v v'
  | _, _ => false
  end.

Definition merge_type (a b : option DataType) : result (option DataType) :=
  match a, b with
  | None, t | t, None => Ok t
  | Some x, Some y => if same_type x y then Ok (Some x) else Raise TypeError
  end.

Fixpoint column_type (key : string) (rows : list row) (acc : option DataType)
    : result (option DataType) :=
  match rows with
  | [] => Ok acc
  | r :: rest =>
      t ← inferred_type (default PNone (dict_lookup key r));
      merged ← merge_type acc t;
      column_type key rest merged
  end.

Fixpoint insert_key (k : string) (keys : list string) : list string :=
  match keys with
  | [] => [k]
  | k' :: rest => if String.leb k k' then k :: keys else k' :: insert_key k rest
  end.

Definition sorted_keys (r : row) : list string :=
  foldr insert_key [] (r.*1).

Fixpoint typed_fields (keys : list string) (types : list (option DataType))
    : result StructType :=
  match keys, types with
  | k :: keys', Some t :: types' =>
      fields ← typed_fields keys' types';
      Ok ({| field_name := k; dataType := t; nullable := true |} :: fields)
  | _ :: _, None :: _ => Raise ValueError
  | _, _ => Ok []
  end.

Definition infer_like_pyspark (rows : list row) : result StructType :=
  let keys := sorted_keys (default [] (head rows)) in
  types ← mapM (fun k => column_type k rows None) keys;
  typed_fields keys types.

(** A workspace where every path holds the document [doc], schemas are
    inferred in the way of PySpark, and every table can be saved. *)
Definition workspace_holding (doc : pyval) : Workspace :=
  {| read_json := fun _ => Ok doc;
     infer_schema := infer_like_pyspark;
     save_allowed := fun _ _ _ => Ok () |}.

(** A host where every URL answers 200 with the chunks [body], and every
    directory and file can be written. *)
Definition host_serving (body : list bytes) : Host :=
  {| requests_get := fun _ =>
       Ok {| status_code := 200; content_length := None;
             iter_content := Ok <$> body |};
     path_mkdir := fun _ _ => Ok ();
     open_wb := fun _ _ => Ok () |}.

(** The bytes of [{}], sent in two chunks. *)
Definition two_chunks : list bytes := [ [Byte.x7b]; [Byte.x7d] ].

(** The methods of the nested tables and of the objects table, run on the
    order document from an empty metastore. *)
Definition order_run (p : parent) (n : nested) : metastore * result unit :=
  @nested_method plain_runtime (workspace_holding order_document) p n
    main_logistics order_document ∅.

Definition order_run_objects : metastore * result unit :=
  @Schema.create_and_load_objects_table (workspace_holding order_document)
    main_logistics order_document ∅.

(** The tables without rows, with the schema their method falls back
    on. *)
Definition empty_table (columns : list string) : DataFrame :=
  createDataFrame_schema (string_field <$> columns).

Definition ocel_path : string := "/Volumes/main/logistics/raw/ocel.json".

(** The methods the class defines, called in order on the minimal
    document from an empty metastore. *)
Definition minimal_run : metastore * result unit :=
  @call_in_order plain_runtime (workspace_holding minimal_document)
    main_logistics defined_calls minimal_document ∅.

(** A returned value that holds both a path and a byte count. *)
Definition is_path_and_count (v : retval) : Prop :=
  exists (path : string) (count : Z), v = RetTuple [RetStr path; RetInt count].

Definition example_url : string := "https://example.org/ocel.json".

(** ** Further vocabulary: strings and paths *)

(** [s.count(c)] for a one-character [c]. *)
Fixpoint str_count (c : ascii) (s : string) : nat :=
  match s with
  | EmptyString => 0
  | String c' rest => (if Ascii.eqb c' c then 1 else 0) + str_count c rest
  end.

(** [sep.join(parts)] for a one-character separator. *)
Fixpoint str_join (sep : ascii) (parts : list string) : string :=
  match parts with
  | [] => EmptyString
  | [w] => w
  | w :: rest => w +:+ String sep (str_join sep rest)
  end.

(** The path [set_uc_file_path] builds from the components:
    [f"/Volumes/{catalog}/{schema}/{volume}/{file_name}"]. *)
Definition volume_file_path (c s v f : string) : string :=
  "/Volumes/" +:+ c +:+ "/" +:+ s +:+ "/" +:+ v +:+ "/" +:+ f.

(** The dict [parse_uc_file_path] returns for four components. *)
Definition path_elements (c s v f : string) : list (string * string) :=
  [ ("catalog", c); ("schema", s); ("volume", v); ("file_name", f) ].

(** ** Further vocabulary: downloads *)

(** The file system after the chunks of the answer to [url] have been
    written to [dest]: the file holds them in order, whatever it held
    before. *)
Definition holds_download {HS : Host} (url dest : string)
    (fs fs' : filesystem) : Prop :=
  exists response chunks,
    requests_get url = Ok response
    /\ iter_content response = Ok <$> chunks
    /\ fs' = <[dest := concat chunks]> fs.

(** An answer that can be streamed: no error status, a content length
    [int] accepts when there is one. *)
Definition streamable {RT : PyRuntime} (response : Response) : Prop :=
  ~ (400 <= status_code response < 600)%Z
  /\ exists total_size, total_size_of response = Ok total_size.

(** A host where every URL answers [status] with the stream [items], and
    every directory and file can be written. *)
Definition host_answering (status : Z) (items : list (result bytes)) : Host :=
  {| requests_get := fun _ =>
       Ok {| status_code := status; content_length := None;
             iter_content := items |};
     path_mkdir := fun _ _ => Ok ();
     open_wb := fun _ _ => Ok () |}.

(** A stream that breaks after its first chunk. *)
Definition broken_stream : list (result bytes) :=
  [ Ok [Byte.x7b]; Raise RequestException; Ok [Byte.x7d] ].

(** A file system where the destination holds an older file. *)
Definition stale_filesystem : filesystem :=
  {[ ocel_path := [Byte.x30; Byte.x31; Byte.x32] ]}.

(** The request for [url] is refused with [e]: it raises [e], or it is
    answered with an error status, which [raise_for_status] turns into a
    [RequestException]. *)
Definition refused {HS : Host} (url : string) (e : exn) : Prop :=
  requests_get url = Raise e
  \/ exists response,
       requests_get url = Ok response
       /\ (400 <= status_code response < 600)%Z
       /\ e = RequestException.

Definition raw_folder : string := "/Volumes/main/logistics/raw".

(** ** Further vocabulary: the tables *)

(** The objects table and the events table: one row per object or
    event. *)
Definition parent_table (p : parent) : string :=
  match p with Object => "objects" | Event => "events" end.

Definition parent_row (p : parent) : pyval -> result row :=
  match p with Object => Schema.object_row | Event => Schema.event_row end.

Definition parent_rows (p : parent) : pyval -> result (list row) :=
  match p with Object => Schema.objects_rows | Event => Schema.events_rows end.

Definition parent_method {WS : Workspace} (p : parent)
    : Schema.OCELUCSchema -> pyval -> spark_action unit :=
  match p with
  | Object => Schema.create_and_load_objects_table
  | Event => Schema._create_and_load_events_table
  end.

Definition id_column (p : parent) : string :=
  match p with Object => "object_id" | Event => "event_id" end.

(** The column of a relationship table that names the related object. *)
Definition target_column (p : parent) : string :=
  match p with Object => "target_object_id" | Event => "object_id" end.

(** The two type tables. *)
Definition type_table (p : parent) : string :=
  match p with Object => "object_types" | Event => "event_types" end.


Definition type_name_column (p : parent) : string :=
  match p with Object => "object_type_name" | Event => "event_type_name" end.

(** The attribute declarations of the type declaration [x]. *)
Definition type_attributes (x : pyval) : result (list pyval) :=
  py_getitem x "attributes" ≫= py_iter.

Definition all_type_attributes (xs : list pyval) : list pyval :=
  xs ≫= (fun x => or_nil (type_attributes x)).

(** The columns of each table, in the order of the dict literal of its
    rows. *)
Definition table_columns (table : string) : list string :=
  default []
    (dict_lookup table
       [ ("object_types", ["object_type_name"; "attribute_name"; "attribute_type"]);
         ("event_types", ["event_type_name"; "attribute_name"; "attribute_type"]);
         ("objects", ["object_id"; "object_type"]);
         ("object_attributes",
            ["object_id"; "attribute_name"; "attribute_value"; "attribute_time"]);
         ("object_relationships",
            ["source_object_id"; "target_object_id"; "qualifier"]);
         ("events", ["event_id"; "event_type"; "event_time"]);
         ("event_attributes", ["event_id"; "attribute_name"; "attribute_value"]);
         ("event_object_relationships", ["event_id"; "object_id"; "qualifier"]) ]).

(** The eight tables. *)
Definition all_tables : list string :=
  [ "object_types"; "event_types"; "objects"; "object_attributes";
    "object_relationships"; "events"; "event_attributes";
    "event_object_relationships" ].

(** An object related to two others, once with a qualifier that is
    [null] and once with one that is a string. *)
Definition null_qualifier_document : pyval :=
  PDict [ ("objects",
            PList [ PDict [ ("id", PStr "o1"); ("type", PStr "order");
                            ("relationships",
                              PList [ PDict [ ("objectId", PStr "o2");
                                              ("qualifier", PNone) ];
                                      PDict [ ("objectId", PStr "o3");
                                              ("qualifier", PStr "with") ] ]) ] ]) ].

(** An object whose only relationship has a qualifier that is [null]. *)
Definition null_qualifiers_only_document : pyval :=
  PDict [ ("objects",
            PList [ PDict [ ("id", PStr "o1"); ("type", PStr "order");
                            ("relationships",
                              PList [ PDict [ ("objectId", PStr "o2");
                                              ("qualifier", PNone) ] ]) ] ]) ].

Definition null_qualifier_rows : list row :=
  [ [ ("source_object_id", PStr "o1"); ("target_object_id", PStr "o2");
      ("qualifier", PNone) ];
    [ ("source_object_id", PStr "o1"); ("target_object_id", PStr "o3");
      ("qualifier", PStr "with") ] ].

(** The columns Spark gives a table whose rows are dicts with the keys
    [columns]: the keys in their sorted order. *)
Definition inferred_columns (columns : list string) : list string :=
  foldr insert_key [] columns.

(** The bytes of [[]], sent in one chunk. *)
Definition one_chunk : list bytes := [ [Byte.x5b; Byte.x5d] ].

(** A document without objects and without events. *)
Definition empty_log_document : pyval :=
  PDict [ ("objectTypes", PList []); ("eventTypes", PList []);
          ("objects", PList []); ("events", PList []) ].

(** An event with its time, and one without. *)
Definition timeless_items : list (string * pyval) :=
  [ ("id", PStr "e2"); ("type", PStr "place") ].

Definition timeless_document : pyval :=
  PDict [ ("events", PList [ event_e1; PDict timeless_items ]) ].

(** The element has the key ['id']. *)
Definition is_ok_id (x : pyval) : Prop :=
  exists id, py_getitem x "id" = Ok id.

(** More methods run on the example documents, from an empty
    metastore. *)
Definition order_parent_run (p : parent) : metastore * result unit :=
  @parent_method (workspace_holding order_document) p
    main_logistics order_document ∅.


Definition null_qualifier_run : metastore * result unit :=
  @nested_method plain_runtime (workspace_holding null_qualifier_document)
    Object Relationships main_logistics null_qualifier_document ∅.

(** The methods the class defines, called in order on the order
    document. *)
Definition order_full_run : metastore * result unit :=
  @call_in_order plain_runtime (workspace_holding order_document)
    main_logistics defined_calls order_document ∅.

(** One call on the order document, from a metastore. *)
Definition order_call (name : string) (st : metastore) : metastore * result unit :=
  @Schema.call_method plain_runtime (workspace_holding order_document)
    main_logistics name order_document st.

(** Calls on the order document, in order, from an empty metastore. *)
Definition order_calls (names : list string) : metastore * result unit :=
  @call_in_order plain_runtime (workspace_holding order_document)
    main_logistics names order_document ∅.

(** A metastore that holds an older objects table and a table of another
    schema. *)
Definition stale_tables : metastore :=
  <[ "main.logistics.objects" := empty_table ["object_id"; "object_type"] ]>
  {[ "main.other.orders" := empty_table ["order_id"] ]}.

(** An object and an event whose attributes have a value of each kind:
    strings, integers of both signs, booleans. *)
Definition values_document : pyval :=
  PDict [ ("objects",
            PList [ PDict [ ("id", PStr "o1"); ("type", PStr "order");
                            ("attributes",
                              PList [ PDict [ ("name", PStr "colour");
                                              ("time", PStr "2024-01-01T00:00:00Z");
                                              ("value", PStr "blue") ];
                                      PDict [ ("name", PStr "price");
                                              ("time", PStr "2024-01-01T00:00:00Z");
                                              ("value", PInt 12) ];
                                      PDict [ ("name", PStr "delta");
                                              ("time", PStr "2024-01-01T00:00:00Z");
                                              ("value", PInt (-7)) ];
                                      PDict [ ("name", PStr "paid");
                                              ("time", PStr "2024-01-01T00:00:00Z");
                                              ("value", PBool true) ];
                                      PDict [ ("name", PStr "open");
                                              ("time", PStr "2024-01-01T00:00:00Z");
                                              ("value", PBool false) ] ]) ] ]);
          ("events",
            PList [ PDict [ ("id", PStr "e1"); ("type", PStr "place");
                            ("time", PStr "2024-01-01T00:00:00Z");
                            ("attributes",
                              PList [ PDict [ ("name", PStr "channel");
                                              ("value", PStr "web") ];
                                      PDict [ ("name", PStr "items");
                                              ("value", PInt 3) ];
                                      PDict [ ("name", PStr "express");
                                              ("value", PBool false) ] ]) ] ]) ].

Definition values_run (p : parent) : metastore * result unit :=
  @nested_method plain_runtime (workspace_holding values_document) p Attributes
    main_logistics values_document ∅.

(** The rows of the tables of the examples. *)
Definition order_object_relationship_rows : list row :=
  [ [ ("source_object_id", PStr "o1"); ("target_object_id", PStr "o2");
      ("qualifier", PStr "") ] ].

Definition order_event_relationship_rows : list row :=
  [ [ ("event_id", PStr "e1"); ("object_id", PStr "o1"); ("qualifier", PStr "") ];
    [ ("event_id", PStr "e1"); ("object_id", PStr "o2");
      ("qualifier", PStr "with") ] ].

Definition order_attribute_rows : list row :=
  [ [ ("object_id", PStr "o1"); ("attribute_name", PStr "price");
      ("attribute_value", PStr "12");
      ("attribute_time", PStr "2024-01-01T00:00:00Z") ];
    [ ("object_id", PStr "o2"); ("attribute_name", PStr "price");
      ("attribute_value", PStr "7");
      ("attribute_time", PStr "2024-01-01T00:00:00Z") ];
    [ ("object_id", PStr "o2"); ("attribute_name", PStr "paid");
      ("attribute_value", PStr "True");
      ("attribute_time", PStr "2024-01-02T00:00:00Z") ] ].

Definition order_object_rows : list row :=
  [ [ ("object_id", PStr "o1"); ("object_type", PStr "order") ];
    [ ("object_id", PStr "o2"); ("object_type", PStr "order") ] ].

Definition values_object_rows : list row :=
  [ [ ("object_id", PStr "o1"); ("attribute_name", PStr "colour");
      ("attribute_value", PStr "blue");
      ("attribute_time", PStr "2024-01-01T00:00:00Z") ];
    [ ("object_id", PStr "o1"); ("attribute_name", PStr "price");
      ("attribute_value", PStr "12");
      ("attribute_time", PStr "2024-01-01T00:00:00Z") ];
    [ ("object_id", PStr "o1"); ("attribute_name", PStr "delta");
      ("attribute_value", PStr "-7");
      ("attribute_time", PStr "2024-01-01T00:00:00Z") ];
    [ ("object_id", PStr "o1"); ("attribute_name", PStr "paid");
      ("attribute_value", PStr "True");
      ("attribute_time", PStr "2024-01-01T00:00:00Z") ];
    [ ("object_id", PStr "o1"); ("attribute_name", PStr "open");
      ("attribute_value", PStr "False");
      ("attribute_time", PStr "2024-01-01T00:00:00Z") ] ].

Definition values_event_rows : list row :=
  [ [ ("event_id", PStr "e1"); ("attribute_name", PStr "channel");
      ("attribute_value", PStr "web") ];
    [ ("event_id", PStr "e1"); ("attribute_name", PStr "items");
      ("attribute_value", PStr "3") ];
    [ ("event_id", PStr "e1"); ("attribute_name", PStr "express");
      ("attribute_value", PStr "False") ] ].

(** * Properties *)

(** ** Path parsing *)

Section PathProperties.

Lemma parse_uc_file_path_Ok (file_path c s v f : string) :
  segments_after_root file_path = [c; s; v; f] ->
  Importer.parse_uc_file_path file_path
  = Ok [("catalog", c); ("schema", s); ("volume", v); ("file_name", f)].
Proof.
  unfold segments_after_root, Importer.parse_uc_file_path.
  intros ->. reflexivity.
Qed.

Lemma parse_uc_file_path_Raise (file_path : string) :
  length (segments_after_root file_path) ≠ 4 ->
  Importer.parse_uc_file_path file_path = Raise ValueError.
Proof.
  unfold segments_after_root, Importer.parse_uc_file_path.
  destruct (drop 2 (str_split "/" file_path)) as [|c [|s [|v [|f [|x rest]]]]];
    simpl; intros Hlen; try reflexivity.
  contradiction Hlen; reflexivity.
Qed.

(** C5. [parse_uc_file_path] applied to
    ['/Volumes/main/logistics/raw/ocel.json'] returns the dict with
    catalog ["main"], schema ["logistics"], volume ["raw"] and file_name
    ["ocel.json"]; and for every path whose number of segments after the
    root is not four it raises [ValueError]. *)
Theorem parse_uc_file_path_four_segments :
  Importer.parse_uc_file_path "/Volumes/main/logistics/raw/ocel.json"
  = Ok [ ("catalog", "main"); ("schema", "logistics"); ("volume", "raw");
         ("file_name", "ocel.json") ]
  /\ forall file_path : string,
       length (segments_after_root file_path) ≠ 4 ->
       Importer.parse_uc_file_path file_path = Raise ValueError.
Proof.
  split.
  - apply parse_uc_file_path_Ok. reflexivity.
  - exact parse_uc_file_path_Raise.
Qed.

Lemma parse_uc_file_path_four_segments_witness :
  length (segments_after_root "/Volumes/main/logistics/ocel.json") ≠ 4
  /\ Importer.parse_uc_file_path "/Volumes/main/logistics/ocel.json"
     = Raise ValueError.
Proof.
  assert (Hlen : length (segments_after_root "/Volumes/main/logistics/ocel.json") ≠ 4)
    by (vm_compute; lia).
  split; [exact Hlen|].
  exact (proj2 parse_uc_file_path_four_segments _ Hlen).
Defined.

(** C9. The root is not checked: whenever the ['/']-split of the path has
    exactly six components, parsing succeeds and returns the last four as
    catalog, schema, volume and file_name, whatever the first two are. *)
Theorem parse_uc_file_path_ignores_root (file_path a b c s v f : string) :
  str_split "/" file_path = [a; b; c; s; v; f] ->
  Importer.parse_uc_file_path file_path
  = Ok [("catalog", c); ("schema", s); ("volume", v); ("file_name", f)].
Proof.
  intros Hsplit. apply parse_uc_file_path_Ok.
  unfold segments_after_root. rewrite Hsplit. reflexivity.
Qed.

Lemma parse_uc_file_path_ignores_root_witness :
  str_split "/" "s3:/bucket/main/logistics/raw/ocel.json"
  = ["s3:"; "bucket"; "main"; "logistics"; "raw"; "ocel.json"]
  /\ Importer.parse_uc_file_path "s3:/bucket/main/logistics/raw/ocel.json"
     = Ok [ ("catalog", "main"); ("schema", "logistics"); ("volume", "raw");
            ("file_name", "ocel.json") ].
Proof.
  split; [reflexivity|].
  apply (parse_uc_file_path_ignores_root _ "s3:" "bucket"). reflexivity.
Defined.

(** The components of a split are one more than the separators. *)
Lemma str_split_length (sep : ascii) (s : string) :
  length (str_split sep s)
  = S (length (filter (fun c => c = sep) (list_ascii_of_string s))).
Proof.
  induction s as [|c rest IH]; [reflexivity|].
  cbn [str_split list_ascii_of_string]. rewrite filter_cons.
  destruct (Ascii.eqb_spec c sep) as [->|Hne].
  - rewrite decide_True by reflexivity. cbn. rewrite IH. reflexivity.
  - rewrite decide_False by assumption.
    destruct (str_split sep rest) as [|w ws] eqn:E; cbn in *; congruence.
Qed.

(** C10. [set_uc_file_path] called with a [file_path] and no component
    raises [NameError] for the name [parse_uc_file_path], and the instance
    is as it was before the call. *)
Theorem set_uc_file_path_NameError {RT : PyRuntime}
    (self : Importer.OCEL2UCImporter) (path : string) :
  Importer.set_uc_file_path self (Some path) None None None None
  = (self, Raise (NameError "parse_uc_file_path")).
Proof. reflexivity. Qed.

(** With the components instead, the method sets the five attributes. *)
Lemma set_uc_file_path_components {RT : PyRuntime}
    (self : Importer.OCEL2UCImporter) (c s v f : string) :
  Importer.set_uc_file_path self None (Some c) (Some s) (Some v) (Some f)
  = ({| Importer.catalog := Some c; Importer.schema := Some s;
        Importer.volume := Some v; Importer.file_name := Some f;
        Importer.file_path :=
          Some ("/Volumes/" +:+ c +:+ "/" +:+ s +:+ "/" +:+ v +:+ "/" +:+ f) |},
     Ok ()).
Proof. reflexivity. Qed.

End PathProperties.

(** ** Loops that append rows *)

Section LoopProperties.
Context {A R : Type}.
Implicit Types (xs ys : list A) (rows acc : list R).

Lemma for_each_app (body : A -> list R -> result (list R)) xs ys acc :
  for_each (xs ++ ys) body acc = for_each xs body acc ≫= for_each ys body.
Proof.
  revert acc. induction xs as [|x xs IH]; intros acc; simpl; [reflexivity|].
  destruct (body x acc); simpl; [apply IH | reflexivity].
Qed.

Lemma mapM_Ok (f : A -> result R) xs (out : list R) :
  mapM f xs = Ok out <-> Forall2 (fun x y => f x = Ok y) xs out.
Proof.
  revert out. induction xs as [|x xs IH]; intros out; simpl.
  - split.
    + intros [= <-]. constructor.
    + intros Hall. inversion Hall. reflexivity.
  - split.
    + destruct (f x) as [y|] eqn:Hx; simpl; [|discriminate].
      destruct (mapM f xs) as [k|] eqn:Hxs; simpl; [|discriminate].
      intros [= <-]. constructor; [assumption|]. apply IH. reflexivity.
    + intros Hall. inversion Hall as [|? y ? k Hx Hk]; subst.
      rewrite Hx. simpl. apply IH in Hk. rewrite Hk. reflexivity.
Qed.

Lemma mapM_app (f : A -> result R) xs ys :
  mapM f (xs ++ ys)
  = k1 ← mapM f xs; k2 ← mapM f ys; Ok (k1 ++ k2).
Proof.
  induction xs as [|x xs IH]; simpl.
  - destruct (mapM f ys); reflexivity.
  - destruct (f x); simpl; [|reflexivity].
    rewrite IH. destruct (mapM f xs); simpl; [|reflexivity].
    destruct (mapM f ys); reflexivity.
Qed.

End LoopProperties.

Section AppendingLoops.
Context {A : Type}.

(** A loop whose body appends one row per element. *)
Lemma for_each_append (f : A -> result row) (xs : list A) (acc : list row) :
  for_each xs (fun x => Schema.append (f x)) acc
  = new_rows ← mapM f xs; Ok (acc ++ new_rows).
Proof.
  revert acc. induction xs as [|x xs IH]; intros acc; simpl.
  - rewrite app_nil_r. reflexivity.
  - unfold Schema.append at 1. destruct (f x) as [r|]; simpl; [|reflexivity].
    rewrite IH. destruct (mapM f xs); simpl; [|reflexivity].
    rewrite <- app_assoc. reflexivity.
Qed.

(** A loop whose body appends the rows [emit] yields for the element. *)
Lemma for_each_emit (emit : A -> result (list row))
    (body : A -> list row -> result (list row)) :
  (forall x rows, body x rows = new_rows ← emit x; Ok (rows ++ new_rows)) ->
  forall xs acc,
    for_each xs body acc = rss ← mapM emit xs; Ok (acc ++ concat rss).
Proof.
  intros Hbody xs. induction xs as [|x xs IH]; intros acc; simpl.
  - rewrite app_nil_r. reflexivity.
  - rewrite Hbody. destruct (emit x) as [rs|]; simpl; [|reflexivity].
    rewrite IH. destruct (mapM emit xs); simpl; [|reflexivity].
    rewrite app_assoc. reflexivity.
Qed.

End AppendingLoops.

(** ** The rows of the tables *)

Section RowProperties.
Context {RT : PyRuntime}.

Lemma nested_rows_unfold (p : parent) (n : nested) (doc : pyval) :
  nested_rows p n doc
  = xs ← elements doc (parent_key p);
    rss ← mapM (rows_of_parent p n) xs;
    Ok (concat rss).
Proof.
  assert (Hgen : forall xs,
    for_each xs (fun x rows =>
      id ← py_getitem x "id";
      ys ← py_get x (nested_key n) (PList []) ≫= py_iter;
      for_each ys (fun y => Schema.append (nested_row p n id y)) rows) []
    = rss ← mapM (rows_of_parent p n) xs; Ok (concat rss)).
  { intros xs. apply (for_each_emit (rows_of_parent p n)).
    intros x rows. unfold rows_of_parent, nested_elements.
    destruct (py_getitem x "id"); simpl; [|reflexivity].
    destruct (py_get x (nested_key n) (PList []) ≫= py_iter); simpl; [|reflexivity].
    apply for_each_append. }
  unfold elements.
  destruct p, n; simpl; unfold Schema.object_attributes_rows,
    Schema.object_relationships_rows, Schema.event_attributes_rows,
    Schema.event_object_relationships_rows;
    (destruct (_ ≫= py_iter); simpl; [apply Hgen | reflexivity]).
Qed.

Lemma types_rows_unfold (p : parent) (doc : pyval) :
  types_rows p doc
  = xs ← elements doc (types_key p);
    rss ← mapM (rows_of_type p) xs;
    Ok (concat rss).
Proof.
  assert (Hgen : forall xs,
    for_each xs (fun x rows =>
      type_name ← py_getitem x "name";
      ys ← py_getitem x "attributes" ≫= py_iter;
      for_each ys (fun y => Schema.append (type_row p type_name y)) rows) []
    = rss ← mapM (rows_of_type p) xs; Ok (concat rss)).
  { intros xs. apply (for_each_emit (rows_of_type p)).
    intros x rows. unfold rows_of_type.
    destruct (py_getitem x "name"); simpl; [|reflexivity].
    destruct (py_getitem x "attributes" ≫= py_iter); simpl; [|reflexivity].
    apply for_each_append. }
  unfold elements.
  destruct p; simpl; unfold Schema.object_types_rows, Schema.event_types_rows;
    (destruct (_ ≫= py_iter); simpl; [apply Hgen | reflexivity]).
Qed.

Lemma objects_rows_unfold (doc : pyval) :
  Schema.objects_rows doc = xs ← elements doc "objects"; mapM Schema.object_row xs.
Proof.
  unfold Schema.objects_rows, elements.
  destruct (_ ≫= py_iter); simpl; [|reflexivity].
  rewrite for_each_append. destruct (mapM _ _); reflexivity.
Qed.

End RowProperties.

Section NestedRows.
Context {RT : PyRuntime}.

(** What a nested table holds: the rows of each object or event, in the
    order of the document. *)
Lemma nested_rows_Ok (p : parent) (n : nested) (doc : pyval) (rows : list row) :
  nested_rows p n doc = Ok rows ->
  exists xs rss,
    elements doc (parent_key p) = Ok xs
    /\ rows = concat rss
    /\ Forall2 (fun x rs =>
         exists id ys,
           py_getitem x "id" = Ok id
           /\ nested_elements x (nested_key n) = Ok ys
           /\ Forall2 (fun y r => nested_row p n id y = Ok r) ys rs) xs rss.
Proof.
  rewrite nested_rows_unfold.
  destruct (elements doc (parent_key p)) as [xs|]; simpl; [|discriminate].
  destruct (mapM (rows_of_parent p n) xs) as [rss|] eqn:Hrss; simpl; [|discriminate].
  intros [= <-]. exists xs, rss. split; [reflexivity|]. split; [reflexivity|].
  apply mapM_Ok in Hrss.
  eapply Forall2_impl; [exact Hrss|].
  intros x rs. unfold rows_of_parent.
  destruct (py_getitem x "id") as [id|]; simpl; [|discriminate].
  destruct (nested_elements x (nested_key n)) as [ys|]; simpl; [|discriminate].
  intros Hys. exists id, ys. repeat split. apply mapM_Ok. exact Hys.
Qed.

(** Row by row: the [i]-th row comes from the [i]-th nested element of
    the document, with the identifier of its parent. *)
Lemma nested_rows_pointwise (p : parent) (n : nested) (doc : pyval)
    (rows : list row) :
  nested_rows p n doc = Ok rows ->
  exists xs,
    elements doc (parent_key p) = Ok xs
    /\ Forall2 (fun y r =>
         exists x id,
           x ∈ xs /\ py_getitem x "id" = Ok id /\ nested_row p n id y = Ok r)
         (all_nested n xs) rows.
Proof.
  intros Hrows. apply nested_rows_Ok in Hrows as (xs & rss & Hxs & -> & Hall).
  exists xs. split; [exact Hxs|]. clear Hxs.
  enough (Hgen : forall all : list pyval,
    (forall x, x ∈ xs -> x ∈ all) ->
    Forall2 (fun y r =>
      exists x id,
        x ∈ all /\ py_getitem x "id" = Ok id /\ nested_row p n id y = Ok r)
      (all_nested n xs) (concat rss)) by (apply Hgen; auto).
  intros all.
  induction Hall as [|x rs xs' rss' (id & ys & Hid & Hys & Hrow) _ IH];
    intros Hsub; [constructor|].
  unfold all_nested. rewrite bind_cons. simpl.
  apply Forall2_app.
  - rewrite Hys. simpl.
    eapply Forall2_impl; [exact Hrow|].
    intros y r Hr. exists x, id. repeat split; try assumption.
    apply Hsub. left.
  - apply IH. intros x' Hx'. apply Hsub. right. exact Hx'.
Qed.

Lemma nested_rows_length (doc : pyval) (rows : list row) (xs : list pyval) :
  nested_rows Object Attributes doc = Ok rows ->
  elements doc "objects" = Ok xs ->
  length rows = sum_list (n_attributes <$> xs).
Proof.
  intros Hrows Hxs.
  apply nested_rows_Ok in Hrows as (xs' & rss & Hxs' & -> & Hall).
  simpl in Hxs'. rewrite Hxs in Hxs'. injection Hxs' as <-. clear Hxs.
  induction Hall as [|x rs xs' rss' (id & ys & Hid & Hys & Hrow) _ IH];
    [reflexivity|].
  simpl. rewrite length_app, IH. f_equal.
  unfold n_attributes. simpl in Hys. rewrite Hys. simpl.
  symmetry. eapply Forall2_length. exact Hrow.
Qed.

End NestedRows.

(** ** The methods that save a table *)

Section MethodProperties.
Context {RT : PyRuntime} {WS : Workspace}.

Lemma createDataFrame_rows (rows : list row) (df : DataFrame) :
  createDataFrame rows = Ok df -> df_rows df = rows.
Proof.
  unfold createDataFrame. destruct rows as [|r rows]; [discriminate|].
  destruct (infer_schema (r :: rows)); simpl; [|discriminate].
  intros [= <-]. reflexivity.
Qed.

Lemma dataframe_or_empty_rows (rows : list row) (columns : list string)
    (df : DataFrame) :
  Schema.dataframe_or_empty rows columns = Ok df -> df_rows df = rows.
Proof.
  unfold Schema.dataframe_or_empty. destruct rows as [|r rows].
  - intros [= <-]. reflexivity.
  - apply createDataFrame_rows.
Qed.

Lemma build_and_save_Ok (self : Schema.OCELUCSchema) (table : string)
    (rows : result (list row)) (build : list row -> result DataFrame)
    (st st' : metastore) :
  Schema.build_and_save self table rows build st = (st', Ok ()) ->
  exists rs df,
    rows = Ok rs /\ build rs = Ok df /\ st' = <[table_name self table := df]> st.
Proof.
  unfold Schema.build_and_save, saveAsTable, table_name.
  destruct rows as [rs|]; simpl; [|discriminate].
  destruct (build rs) as [df|] eqn:Hdf; simpl; [|discriminate].
  destruct (save_allowed _ df st); [|discriminate].
  intros [= <-]. exists rs, df. split; [reflexivity|]. split; [exact Hdf|reflexivity].
Qed.

Lemma build_and_save_Raise (self : Schema.OCELUCSchema) (table : string)
    (rows : result (list row)) (build : list row -> result DataFrame)
    (st st' : metastore) (e : exn) :
  Schema.build_and_save self table rows build st = (st', Raise e) -> st' = st.
Proof.
  unfold Schema.build_and_save, saveAsTable.
  destruct (rows ≫= build) as [df|]; [|congruence].
  destruct (save_allowed _ df st); congruence.
Qed.

Lemma nested_method_Ok (p : parent) (n : nested) (self : Schema.OCELUCSchema)
    (doc : pyval) (st st' : metastore) :
  nested_method p n self doc st = (st', Ok ()) ->
  exists df,
    nested_rows p n doc = Ok (df_rows df)
    /\ st' = <[table_name self (nested_table p n) := df]> st.
Proof.
  intros Hrun.
  destruct p, n; simpl in *;
    apply build_and_save_Ok in Hrun as (rs & df & Hrs & Hdf & ->);
    exists df; (split; [|reflexivity]); rewrite Hrs; f_equal; symmetry;
    first [ eapply dataframe_or_empty_rows; exact Hdf
          | eapply createDataFrame_rows; exact Hdf ].
Qed.

Lemma objects_table_Ok (self : Schema.OCELUCSchema) (doc : pyval)
    (st st' : metastore) :
  Schema.create_and_load_objects_table self doc st = (st', Ok ()) ->
  exists df,
    Schema.objects_rows doc = Ok (df_rows df)
    /\ st' = <[table_name self "objects" := df]> st.
Proof.
  intros Hrun.
  apply build_and_save_Ok in Hrun as (rs & df & Hrs & Hdf & ->).
  exists df. split; [|reflexivity].
  rewrite Hrs. f_equal. symmetry. eapply createDataFrame_rows. exact Hdf.
Qed.

(** The row of a relationship without the key ['qualifier']. *)
Lemma nested_row_qualifier (p : parent) (id rel : pyval) (r : row) :
  nested_row p Relationships id rel = Ok r ->
  has_key "qualifier" rel = false ->
  dict_lookup "qualifier" r = Some (PStr "").
Proof.
  destruct rel as [| | | | | |items];
    try (destruct p; discriminate).
  simpl. intros Hrow Hkey.
  assert (Hq : dict_lookup "qualifier" items = None).
  { destruct (dict_lookup "qualifier" items) eqn:E; [|reflexivity].
    rewrite bool_decide_eq_false in Hkey. contradiction Hkey. eauto. }
  destruct p; simpl in Hrow;
    unfold Schema.object_relationship_row, Schema.event_object_relationship_row in Hrow;
    simpl in Hrow; rewrite Hq in Hrow;
    (destruct (dict_lookup "objectId" items); simpl in Hrow; [|discriminate]);
    injection Hrow as <-; reflexivity.
Qed.

(** The row of an attribute carries the identifier of its parent and the
    [str] of the value. *)
Lemma nested_row_attribute (p : parent) (id attr : pyval) (r : row) :
  nested_row p Attributes id attr = Ok r ->
  dict_lookup (parent_column p Attributes) r = Some id
  /\ exists v, py_getitem attr "value" = Ok v
       /\ dict_lookup "attribute_value" r = Some (PStr (py_str v)).
Proof.
  destruct p; simpl;
    unfold Schema.object_attribute_row, Schema.event_attribute_row;
    (destruct (py_getitem attr "name"); simpl; [|discriminate]);
    (destruct (py_getitem attr "value") as [v|]; simpl; [|discriminate]).
  - destruct (py_get attr "time" PNone); simpl; [|discriminate].
    intros [= <-]. split; [reflexivity|]. exists v. split; reflexivity.
  - intros [= <-]. split; [reflexivity|]. exists v. split; reflexivity.
Qed.

End MethodProperties.

(** ** The nested tables *)

Section NestedTables.
Context {RT : PyRuntime} {WS : Workspace}.

Lemma Forall2_elem_of_r {A B} (P : A -> B -> Prop) (l : list A) (k : list B) (y : B) :
  Forall2 P l k -> y ∈ k -> exists x, x ∈ l /\ P x y.
Proof.
  intros Hall Hy. apply list_elem_of_lookup in Hy as [i Hi].
  destruct (Forall2_lookup_r _ _ _ _ _ Hall Hi) as (x & Hx & HP).
  exists x. split; [|exact HP]. eapply list_elem_of_lookup_2. exact Hx.
Qed.

Lemma Forall2_elem_of_l {A B} (P : A -> B -> Prop) (l : list A) (k : list B) (x : A) :
  Forall2 P l k -> x ∈ l -> exists y, y ∈ k /\ P x y.
Proof.
  intros Hall Hx. apply list_elem_of_lookup in Hx as [i Hi].
  destruct (Forall2_lookup_l _ _ _ _ _ Hall Hi) as (y & Hy & HP).
  exists y. split; [|exact HP]. eapply list_elem_of_lookup_2. exact Hy.
Qed.

(** A method of a nested table that has rows saves them, with the schema
    Spark infers, whenever the schema is inferred and the save allowed. *)
Lemma nested_method_saves (p : parent) (n : nested) (self : Schema.OCELUCSchema)
    (doc : pyval) (st : metastore) (rows : list row) (schema : StructType) :
  nested_rows p n doc = Ok rows ->
  rows ≠ [] ->
  infer_schema rows = Ok schema ->
  save_allowed (table_name self (nested_table p n))
    {| df_schema := schema; df_rows := rows |} st = Ok () ->
  nested_method p n self doc st
  = (<[table_name self (nested_table p n)
       := {| df_schema := schema; df_rows := rows |}]> st, Ok ()).
Proof.
  intros Hrows Hne Hschema Hsave.
  destruct rows as [|r rows]; [contradiction|].
  destruct p, n; simpl in *;
    unfold Schema._create_and_load_attributes_table,
      Schema._create_and_load_object_relationships_table,
      Schema._create_and_load_event_attributes_table,
      Schema._create_and_load_event_object_relationships_table,
      Schema.build_and_save, saveAsTable, table_name in *;
    rewrite Hrows; simpl; rewrite Hschema; simpl; rewrite Hsave; reflexivity.
Qed.

(** C3. The row of a relationship element without a qualifier has the
    empty string as its qualifier, in the object_relationships and in the
    event_object_relationships table: the row itself, every such row of a
    table a method saves, and the method saves the rows it has. *)
Theorem relationship_without_qualifier (p : parent)
    (self : Schema.OCELUCSchema) (doc : pyval) (st : metastore) :
  (forall (id target : pyval) (items : list (string * pyval)),
      dict_lookup "objectId" items = Some target ->
      dict_lookup "qualifier" items = None ->
      nested_row p Relationships id (PDict items)
      = Ok [ (parent_column p Relationships, id); (target_column p, target);
             ("qualifier", PStr "") ])
  /\ (forall st' : metastore,
        nested_method p Relationships self doc st = (st', Ok ()) ->
        exists df xs,
          st' !! table_name self (nested_table p Relationships) = Some df
          /\ elements doc (parent_key p) = Ok xs
          /\ Forall2 (fun rel r =>
               has_key "qualifier" rel = false ->
               dict_lookup "qualifier" r = Some (PStr ""))
             (all_nested Relationships xs) (df_rows df))
  /\ (forall (rows : list row) (schema : StructType),
        nested_rows p Relationships doc = Ok rows ->
        rows ≠ [] ->
        infer_schema rows = Ok schema ->
        save_allowed (table_name self (nested_table p Relationships))
          {| df_schema := schema; df_rows := rows |} st = Ok () ->
        nested_method p Relationships self doc st
        = (<[table_name self (nested_table p Relationships)
             := {| df_schema := schema; df_rows := rows |}]> st, Ok ())).
Proof.
  split; [|split].
  - intros id target items Htarget Hnone.
    destruct p; simpl;
      unfold Schema.object_relationship_row, Schema.event_object_relationship_row;
      simpl; rewrite Htarget, Hnone; reflexivity.
  - intros st' Hrun. apply nested_method_Ok in Hrun as (df & Hrows & ->).
    apply nested_rows_pointwise in Hrows as (xs & Hxs & Hall).
    exists df, xs. split; [apply lookup_insert_eq|]. split; [exact Hxs|].
    eapply Forall2_impl; [exact Hall|].
    intros rel r (x & id & _ & _ & Hrow) Hkey.
    eapply nested_row_qualifier; eassumption.
  - intros rows schema. apply nested_method_saves.
Qed.

(** C4. The object_attributes table has as many rows as the objects have
    attributes together, an object counting the elements of its list
    ['attributes'] and none without the key; the object_id of each row is
    the object_id of a row of the objects table of the same document; and
    the method saves the rows it has, or the empty table. *)
Theorem object_attributes_table (self : Schema.OCELUCSchema) (doc : pyval)
    (st : metastore) :
  (forall (items : list (string * pyval)) (attrs : list pyval),
      dict_lookup "attributes" items = Some (PList attrs) ->
      n_attributes (PDict items) = length attrs)
  /\ (forall items : list (string * pyval),
        dict_lookup "attributes" items = None -> n_attributes (PDict items) = 0)
  /\ (forall st' : metastore,
        Schema._create_and_load_attributes_table self doc st = (st', Ok ()) ->
        exists attributes_df xs,
          st' !! table_name self "object_attributes" = Some attributes_df
          /\ elements doc "objects" = Ok xs
          /\ length (df_rows attributes_df) = sum_list (n_attributes <$> xs)
          /\ forall st0 st1 : metastore,
               Schema.create_and_load_objects_table self doc st0 = (st1, Ok ()) ->
               exists objects_df,
                 st1 !! table_name self "objects" = Some objects_df
                 /\ length (df_rows objects_df) = length xs
                 /\ forall r, r ∈ df_rows attributes_df ->
                      exists o, o ∈ df_rows objects_df
                        /\ is_Some (dict_lookup "object_id" r)
                        /\ dict_lookup "object_id" o = dict_lookup "object_id" r)
  /\ (forall (rows : list row) (schema : StructType),
        Schema.object_attributes_rows doc = Ok rows ->
        rows ≠ [] ->
        infer_schema rows = Ok schema ->
        save_allowed (table_name self "object_attributes")
          {| df_schema := schema; df_rows := rows |} st = Ok () ->
        Schema._create_and_load_attributes_table self doc st
        = (<[table_name self "object_attributes"
             := {| df_schema := schema; df_rows := rows |}]> st, Ok ()))
  /\ (Schema.object_attributes_rows doc = Ok [] ->
      save_allowed (table_name self "object_attributes")
        (createDataFrame_schema
           (string_field <$> ["object_id"; "attribute_name"; "attribute_value";
                              "attribute_time"])) st = Ok () ->
      Schema._create_and_load_attributes_table self doc st
      = (<[table_name self "object_attributes"
           := createDataFrame_schema
                (string_field <$> ["object_id"; "attribute_name";
                                   "attribute_value"; "attribute_time"])]> st,
         Ok ())).
Proof.
  split; [|split; [|split; [|split]]].
  - intros items attrs Hattrs. unfold n_attributes, nested_elements. simpl.
    rewrite Hattrs. reflexivity.
  - intros items Hnone. unfold n_attributes, nested_elements. simpl.
    rewrite Hnone. reflexivity.
  - intros st' Hattributes.
    apply (nested_method_Ok Object Attributes) in Hattributes as (adf & Harows & ->).
    pose proof Harows as Hpoint.
    apply nested_rows_pointwise in Hpoint as (xs & Hxs & Hall). simpl in Hxs.
    exists adf, xs.
    split; [apply lookup_insert_eq|]. split; [exact Hxs|].
    split; [eapply nested_rows_length; eassumption|].
    intros st0 st1 Hobjects.
    apply objects_table_Ok in Hobjects as (odf & Horows & ->).
    rewrite objects_rows_unfold, Hxs in Horows. simpl in Horows.
    apply mapM_Ok in Horows.
    exists odf. split; [apply lookup_insert_eq|].
    split; [symmetry; eapply Forall2_length; exact Horows|].
    intros r Hr.
    destruct (Forall2_elem_of_r _ _ _ _ Hall Hr)
      as (attr & _ & x & id & Hx & Hid & Hrow).
    apply nested_row_attribute in Hrow as [Hcol _]. simpl in Hcol.
    destruct (Forall2_elem_of_l _ _ _ _ Horows Hx) as (o & Ho & Hobj).
    exists o. split; [exact Ho|]. rewrite Hcol. split; [eauto|].
    unfold Schema.object_row in Hobj. rewrite Hid in Hobj. simpl in Hobj.
    destruct (py_getitem x "type"); simpl in Hobj; [|discriminate].
    injection Hobj as <-. reflexivity.
  - intros rows schema. apply (nested_method_saves Object Attributes).
  - intros Hrows Hsave.
    unfold Schema._create_and_load_attributes_table, Schema.build_and_save,
      saveAsTable, table_name in *.
    rewrite Hrows. simpl in Hsave |- *. rewrite Hsave. reflexivity.
Qed.

(** The decimal digits [str] gives an integer are read back as the
    integer. *)
Lemma digits_value_pretty_N_go (x : N) :
  forall s : string,
    digits_value (pretty_N_go x s) 0 = digits_value s (Z.of_N x).
Proof.
  induction (N.lt_wf_0 x) as [x _ IH]. intros s.
  destruct (decide (x = 0)%N) as [->|Hpos]; [rewrite pretty_N_go_0; reflexivity|].
  rewrite pretty_N_go_step by lia.
  rewrite IH by (apply N.div_lt; lia).
  cbn [digits_value].
  assert (Hlt : (x `mod` 10 < 10)%N) by (apply N.mod_lt; discriminate).
  assert (Hx : Z.of_N x = (10 * Z.of_N (x `div` 10) + Z.of_N (x `mod` 10))%Z).
  { rewrite (N.div_mod x 10) at 1 by discriminate. lia. }
  rewrite Hx. generalize dependent (x `mod` 10)%N. intros d Hlt _.
  assert (Hdigit : (Z.of_N (N_of_ascii (pretty_N_char d)) - 48 = Z.of_N d)%Z).
  { assert (Hcases : (d = 0 \/ d = 1 \/ d = 2 \/ d = 3 \/ d = 4 \/ d = 5
                      \/ d = 6 \/ d = 7 \/ d = 8 \/ d = 9)%N) by lia.
    destruct Hcases as [H|[H|[H|[H|[H|[H|[H|[H|[H|H]]]]]]]]];
      rewrite H; reflexivity. }
  rewrite Hdigit. rewrite decide_True by lia. reflexivity.
Qed.

Lemma digits_value_pretty (z : Z) :
  (0 <= z)%Z -> digits_value (pretty z) 0 = Ok z.
Proof.
  destruct z as [|q|q]; [reflexivity| |lia]. intros _.
  change (pretty (Z.pos q)) with (pretty (N.pos q)).
  unfold pretty, pretty_N. rewrite decide_False by discriminate.
  rewrite digits_value_pretty_N_go. reflexivity.
Qed.

(** C6. The text stored for an attribute value is its [str]: a string
    itself, a boolean as [True] or [False], an integer in decimal digits
    with a minus sign when negative, a float as its [repr]; [str] of that
    text is the text again.  The row of an attribute carries this text,
    so does every row of the object_attributes and of the
    event_attributes table a method saves, and the method saves the rows
    it has. *)
Theorem attribute_values_are_stringified :
  ((forall s : string, py_str (PStr s) = s)
   /\ py_str (PBool true) = "True"
   /\ py_str (PBool false) = "False"
   /\ (forall z : Z, py_str (PInt z) = pretty z)
   /\ (forall z : Z, (0 <= z)%Z -> digits_value (py_str (PInt z)) 0 = Ok z)
   /\ (forall z : Z, (0 < z)%Z -> py_str (PInt (- z)) = "-" +:+ py_str (PInt z))
   /\ (forall f : spec_float, py_str (PFloat f) = py_repr (PFloat f)))
  /\ (forall v : pyval, py_str (PStr (py_str v)) = py_str v)
  /\ (forall (p : parent) (id name v : pyval) (items : list (string * pyval)),
        dict_lookup "name" items = Some name ->
        dict_lookup "value" items = Some v ->
        exists r,
          nested_row p Attributes id (PDict items) = Ok r
          /\ dict_lookup (parent_column p Attributes) r = Some id
          /\ dict_lookup "attribute_name" r = Some name
          /\ dict_lookup "attribute_value" r = Some (PStr (py_str v)))
  /\ (forall (p : parent) (self : Schema.OCELUCSchema) (doc : pyval)
        (st st' : metastore),
        nested_method p Attributes self doc st = (st', Ok ()) ->
        exists df xs,
          st' !! table_name self (nested_table p Attributes) = Some df
          /\ elements doc (parent_key p) = Ok xs
          /\ Forall2 (fun attr r =>
               exists v, py_getitem attr "value" = Ok v
                 /\ dict_lookup "attribute_value" r = Some (PStr (py_str v)))
             (all_nested Attributes xs) (df_rows df))
  /\ (forall (p : parent) (self : Schema.OCELUCSchema) (doc : pyval)
        (st : metastore) (rows : list row) (schema : StructType),
        nested_rows p Attributes doc = Ok rows ->
        rows ≠ [] ->
        infer_schema rows = Ok schema ->
        save_allowed (table_name self (nested_table p Attributes))
          {| df_schema := schema; df_rows := rows |} st = Ok () ->
        nested_method p Attributes self doc st
        = (<[table_name self (nested_table p Attributes)
             := {| df_schema := schema; df_rows := rows |}]> st, Ok ())).
Proof.
  split; [|split; [|split; [|split]]].
  - split; [reflexivity|]. split; [reflexivity|]. split; [reflexivity|].
    split; [reflexivity|]. split; [|split; [|reflexivity]].
    + intros z Hz. apply digits_value_pretty. exact Hz.
    + intros z Hz. destruct z as [|q|q]; try lia. reflexivity.
  - reflexivity.
  - intros p id name v items Hname Hvalue.
    destruct p; simpl;
      unfold Schema.object_attribute_row, Schema.event_attribute_row; simpl;
      rewrite Hname, Hvalue; simpl.
    + destruct (dict_lookup "time" items); simpl; eexists;
        (split; [reflexivity|]); repeat split.
    + eexists. split; [reflexivity|]. repeat split.
  - intros p self doc st st' Hrun.
    apply nested_method_Ok in Hrun as (df & Hrows & ->).
    apply nested_rows_pointwise in Hrows as (xs & Hxs & Hall).
    exists df, xs. split; [apply lookup_insert_eq|]. split; [exact Hxs|].
    eapply Forall2_impl; [exact Hall|].
    intros attr r (x & id & _ & _ & Hrow).
    apply nested_row_attribute in Hrow as [_ Hvalue]. exact Hvalue.
  - intros p self doc st rows schema. apply nested_method_saves.
Qed.

End NestedTables.

(** ** The order document, run through the methods *)

Section OrderExamples.

Lemma relationship_without_qualifier_witness :
  @nested_row plain_runtime Object Relationships (PStr "o1")
    (PDict [ ("objectId", PStr "o2") ])
  = Ok [ ("source_object_id", PStr "o1"); ("target_object_id", PStr "o2");
         ("qualifier", PStr "") ]
  /\ @nested_row plain_runtime Event Relationships (PStr "e1")
       (PDict [ ("objectId", PStr "o1") ])
     = Ok [ ("event_id", PStr "e1"); ("object_id", PStr "o1");
            ("qualifier", PStr "") ]
  /\ order_run Object Relationships
     = (<[table_name main_logistics "object_relationships"
          := {| df_schema := string_field
                  <$> ["qualifier"; "source_object_id"; "target_object_id"];
                df_rows := order_object_relationship_rows |}]> ∅, Ok ())
  /\ order_run Event Relationships
     = (<[table_name main_logistics "event_object_relationships"
          := {| df_schema := string_field <$> ["event_id"; "object_id"; "qualifier"];
                df_rows := order_event_relationship_rows |}]> ∅, Ok ())
  /\ exists df xs,
       (order_run Event Relationships).1
         !! table_name main_logistics (nested_table Event Relationships) = Some df
       /\ elements order_document (parent_key Event) = Ok xs
       /\ Forall2 (fun rel r =>
            has_key "qualifier" rel = false ->
            dict_lookup "qualifier" r = Some (PStr ""))
          (all_nested Relationships xs) (df_rows df).
Proof.
  destruct (@relationship_without_qualifier plain_runtime
              (workspace_holding order_document) Object main_logistics
              order_document ∅) as (Hrow_o & _ & Hsave_o).
  destruct (@relationship_without_qualifier plain_runtime
              (workspace_holding order_document) Event main_logistics
              order_document ∅) as (Hrow_e & Htable_e & Hsave_e).
  assert (Hrun : order_run Event Relationships
                 = ((order_run Event Relationships).1, Ok ()))
    by (vm_compute; reflexivity).
  split; [apply Hrow_o; reflexivity|].
  split; [apply Hrow_e; reflexivity|].
  split.
  { apply (Hsave_o order_object_relationship_rows);
      [reflexivity|discriminate|reflexivity|reflexivity]. }
  split.
  { apply (Hsave_e order_event_relationship_rows);
      [reflexivity|discriminate|reflexivity|reflexivity]. }
  exact (Htable_e _ Hrun).
Defined.

Lemma object_attributes_table_witness :
  n_attributes object_o1 = 1
  /\ n_attributes (PDict o2_items) = 2
  /\ n_attributes event_e1 = 0
  /\ length order_attribute_rows = 3
  /\ order_run Object Attributes
     = (<[table_name main_logistics "object_attributes"
          := {| df_schema := string_field
                  <$> ["attribute_name"; "attribute_time"; "attribute_value";
                       "object_id"];
                df_rows := order_attribute_rows |}]> ∅, Ok ())
  /\ @Schema._create_and_load_attributes_table plain_runtime
       (workspace_holding minimal_document) main_logistics minimal_document ∅
     = (<[table_name main_logistics "object_attributes"
          := empty_table ["object_id"; "attribute_name"; "attribute_value";
                          "attribute_time"]]> ∅, Ok ())
  /\ order_run_objects = (order_run_objects.1, Ok ())
  /\ exists attributes_df objects_df xs,
       (order_run Object Attributes).1
         !! table_name main_logistics "object_attributes" = Some attributes_df
       /\ order_run_objects.1 !! table_name main_logistics "objects"
          = Some objects_df
       /\ elements order_document "objects" = Ok xs
       /\ length (df_rows attributes_df) = sum_list (n_attributes <$> xs)
       /\ length (df_rows objects_df) = length xs
       /\ forall r, r ∈ df_rows attributes_df ->
            exists o, o ∈ df_rows objects_df
              /\ is_Some (dict_lookup "object_id" r)
              /\ dict_lookup "object_id" o = dict_lookup "object_id" r.
Proof.
  destruct (@object_attributes_table plain_runtime
              (workspace_holding order_document) main_logistics order_document ∅)
    as (Hcount & Hnone & Htable & Hsave & _).
  destruct (@object_attributes_table plain_runtime
              (workspace_holding minimal_document) main_logistics
              minimal_document ∅)
    as (_ & _ & _ & _ & Hempty).
  assert (Hattributes :
    order_run Object Attributes = ((order_run Object Attributes).1, Ok ()))
    by (vm_compute; reflexivity).
  assert (Hobjects : order_run_objects = (order_run_objects.1, Ok ()))
    by (vm_compute; reflexivity).
  split; [unfold object_o1; erewrite Hcount by reflexivity; reflexivity|].
  split; [erewrite Hcount by reflexivity; reflexivity|].
  split; [unfold event_e1; apply Hnone; reflexivity|].
  split; [reflexivity|].
  split.
  { apply (Hsave order_attribute_rows);
      [reflexivity|discriminate|reflexivity|reflexivity]. }
  split; [apply Hempty; reflexivity|].
  split; [exact Hobjects|].
  destruct (Htable _ Hattributes)
    as (attributes_df & xs & Hsaved & Hxs & Hlength & Hreference).
  destruct (Hreference ∅ _ Hobjects) as (objects_df & Hosaved & Hlen & Href).
  exists attributes_df, objects_df, xs.
  repeat (split; [assumption|]). exact Href.
Defined.

Lemma attribute_values_are_stringified_witness :
  @py_str plain_runtime (PInt 12) = "12"
  /\ @py_str plain_runtime (PInt (-7)) = "-7"
  /\ digits_value (@py_str plain_runtime (PInt 12)) 0 = Ok 12%Z
  /\ (exists r,
        @nested_row plain_runtime Object Attributes (PStr "o1")
          (PDict [ ("name", PStr "paid"); ("value", PBool true) ]) = Ok r
        /\ dict_lookup (parent_column Object Attributes) r = Some (PStr "o1")
        /\ dict_lookup "attribute_name" r = Some (PStr "paid")
        /\ dict_lookup "attribute_value" r = Some (PStr "True"))
  /\ values_run Object
     = (<[table_name main_logistics "object_attributes"
          := {| df_schema := string_field
                  <$> ["attribute_name"; "attribute_time"; "attribute_value";
                       "object_id"];
                df_rows := values_object_rows |}]> ∅, Ok ())
  /\ values_run Event
     = (<[table_name main_logistics "event_attributes"
          := {| df_schema := string_field
                  <$> ["attribute_name"; "attribute_value"; "event_id"];
                df_rows := values_event_rows |}]> ∅, Ok ())
  /\ exists df xs,
       (values_run Object).1
         !! table_name main_logistics (nested_table Object Attributes) = Some df
       /\ elements values_document (parent_key Object) = Ok xs
       /\ Forall2 (fun attr r =>
            exists v, py_getitem attr "value" = Ok v
              /\ dict_lookup "attribute_value" r
                 = Some (PStr (@py_str plain_runtime v)))
          (all_nested Attributes xs) (df_rows df).
Proof.
  destruct (@attribute_values_are_stringified plain_runtime
              (workspace_holding values_document))
    as ((_ & _ & _ & Hint & Hdigits & Hminus & _) & _ & Hrow & Htable & Hsave).
  assert (Hrun : values_run Object = ((values_run Object).1, Ok ()))
    by (vm_compute; reflexivity).
  split; [rewrite Hint; reflexivity|].
  split.
  { assert (Hpos : (0 < 7)%Z) by lia.
    etrans; [exact (Hminus 7%Z Hpos)|]. rewrite Hint. reflexivity. }
  split; [apply Hdigits; lia|].
  split.
  { apply (Hrow Object (PStr "o1") (PStr "paid") (PBool true)); reflexivity. }
  split.
  { apply (Hsave Object main_logistics values_document ∅ values_object_rows);
      [reflexivity|discriminate|reflexivity|reflexivity]. }
  split.
  { apply (Hsave Event main_logistics values_document ∅ values_event_rows);
      [reflexivity|discriminate|reflexivity|reflexivity]. }
  exact (Htable Object main_logistics values_document ∅ _ Hrun).
Defined.

(** What the three tables hold. *)
Example order_document_rows :
  @Schema.object_attributes_rows plain_runtime order_document
  = Ok [ [ ("object_id", PStr "o1"); ("attribute_name", PStr "price");
           ("attribute_value", PStr "12");
           ("attribute_time", PStr "2024-01-01T00:00:00Z") ];
         [ ("object_id", PStr "o2"); ("attribute_name", PStr "price");
           ("attribute_value", PStr "7");
           ("attribute_time", PStr "2024-01-01T00:00:00Z") ];
         [ ("object_id", PStr "o2"); ("attribute_name", PStr "paid");
           ("attribute_value", PStr "True");
           ("attribute_time", PStr "2024-01-02T00:00:00Z") ] ]
  /\ Schema.object_relationships_rows order_document
     = Ok [ [ ("source_object_id", PStr "o1"); ("target_object_id", PStr "o2");
              ("qualifier", PStr "") ] ]
  /\ Schema.event_object_relationships_rows order_document
     = Ok [ [ ("event_id", PStr "e1"); ("object_id", PStr "o1");
              ("qualifier", PStr "") ];
            [ ("event_id", PStr "e1"); ("object_id", PStr "o2");
              ("qualifier", PStr "with") ] ].
Proof. repeat split. Qed.

End OrderExamples.

(** ** Nested lists that are absent *)

Section AbsentLists.
Context {RT : PyRuntime}.

Lemma rows_of_parent_absent (p : parent) (n : nested) (items : list (string * pyval)) :
  is_Some (dict_lookup "id" items) ->
  dict_lookup (nested_key n) items = None ->
  rows_of_parent p n (PDict items) = Ok [].
Proof.
  intros [id Hid] Hnone. unfold rows_of_parent, nested_elements. simpl.
  rewrite Hid, Hnone. reflexivity.
Qed.

Lemma rows_of_type_absent (p : parent) (items : list (string * pyval)) :
  is_Some (dict_lookup "name" items) ->
  dict_lookup "attributes" items = None ->
  rows_of_type p (PDict items) = Raise (KeyError "attributes").
Proof.
  intros [name Hname] Hnone. unfold rows_of_type. simpl.
  rewrite Hname, Hnone. reflexivity.
Qed.

(** C2, as the code has it.  An object or an event without the key of a
    nested list adds no row to the table of that list and raises nothing:
    the rows are those of the document without the element.  A type
    declaration without the key ['attributes'] raises [KeyError] once the
    declarations in front of it are through. *)
Theorem absent_nested_list :
  (forall (p : parent) (n : nested) (doc doc' : pyval)
      (before after : list pyval) (items : list (string * pyval)),
      elements doc (parent_key p) = Ok (before ++ PDict items :: after) ->
      elements doc' (parent_key p) = Ok (before ++ after) ->
      is_Some (dict_lookup "id" items) ->
      dict_lookup (nested_key n) items = None ->
      nested_rows p n doc = nested_rows p n doc')
  /\ (forall (p : parent) (doc doc' : pyval) (before after : list pyval)
        (items : list (string * pyval)) (rows : list row),
        elements doc (types_key p) = Ok (before ++ PDict items :: after) ->
        elements doc' (types_key p) = Ok before ->
        types_rows p doc' = Ok rows ->
        is_Some (dict_lookup "name" items) ->
        dict_lookup "attributes" items = None ->
        types_rows p doc = Raise (KeyError "attributes")).
Proof.
  split.
  - intros p n doc doc' before after items Hdoc Hdoc' Hid Hnone.
    rewrite !nested_rows_unfold, Hdoc, Hdoc'. simpl.
    rewrite !mapM_app. simpl.
    rewrite (rows_of_parent_absent p n items Hid Hnone). simpl.
    destruct (mapM (rows_of_parent p n) before) as [rss1|]; simpl; [|reflexivity].
    destruct (mapM (rows_of_parent p n) after) as [rss2|]; simpl; [|reflexivity].
    rewrite !concat_app. reflexivity.
  - intros p doc doc' before after items rows Hdoc Hdoc' Hrows Hname Hnone.
    rewrite types_rows_unfold, Hdoc' in Hrows. simpl in Hrows.
    rewrite types_rows_unfold, Hdoc. simpl.
    rewrite mapM_app. simpl.
    destruct (mapM (rows_of_type p) before) as [rss1|]; simpl; [|discriminate].
    rewrite (rows_of_type_absent p items Hname Hnone). reflexivity.
Qed.

End AbsentLists.

Lemma absent_nested_list_witness :
  (elements order_document (parent_key Object)
     = Ok ([object_o1] ++ PDict o2_items :: [])
   /\ elements order_document_o1 (parent_key Object) = Ok ([object_o1] ++ [])
   /\ is_Some (dict_lookup "id" o2_items)
   /\ dict_lookup (nested_key Relationships) o2_items = None
   /\ @nested_rows plain_runtime Object Relationships order_document
      = @nested_rows plain_runtime Object Relationships order_document_o1)
  /\ (elements untyped_attributes_document (types_key Event)
        = Ok ([] ++ PDict [("name", PStr "place")] :: [])
      /\ elements no_types_document (types_key Event) = Ok []
      /\ types_rows Event no_types_document = Ok []
      /\ is_Some (dict_lookup "name" [("name", PStr "place")])
      /\ dict_lookup "attributes" [("name", PStr "place")] = None
      /\ types_rows Event untyped_attributes_document
         = Raise (KeyError "attributes")).
Proof.
  assert (Hid : is_Some (dict_lookup "id" o2_items)) by (eexists; reflexivity).
  assert (Hname : is_Some (dict_lookup "name" [("name", PStr "place")]))
    by (eexists; reflexivity).
  split.
  - split; [reflexivity|]. split; [reflexivity|]. split; [exact Hid|].
    split; [reflexivity|].
    exact (proj1 (@absent_nested_list plain_runtime) Object Relationships
             order_document order_document_o1 [object_o1] [] o2_items
             eq_refl eq_refl Hid eq_refl).
  - split; [reflexivity|]. split; [reflexivity|]. split; [reflexivity|].
    split; [exact Hname|]. split; [reflexivity|].
    exact (proj2 (@absent_nested_list plain_runtime) Event
             untyped_attributes_document no_types_document [] []
             [("name", PStr "place")] [] eq_refl eq_refl eq_refl Hname eq_refl).
Defined.

(** C2, as it is stated, fails on a document whose type declarations have
    no key ['attributes']: both type methods raise [KeyError] and save no
    table. *)
Lemma absent_type_attributes_raise :
  @Schema._create_and_load_object_types_table
     (workspace_holding untyped_attributes_document)
     main_logistics untyped_attributes_document ∅
  = (∅, Raise (KeyError "attributes"))
  /\ @Schema._create_and_load_event_types_table
       (workspace_holding untyped_attributes_document)
       main_logistics untyped_attributes_document ∅
     = (∅, Raise (KeyError "attributes")).
Proof. split; reflexivity. Qed.

(** ** Calls in sequence *)

Section CallSequences.
Context {RT : PyRuntime} {WS : Workspace}.

Ltac method_cases Hlookup :=
  unfold Schema.class_methods in Hlookup; cbn [dict_lookup] in Hlookup;
  repeat match type of Hlookup with
    | (if String.eqb ?a ?b then _ else _) = _ =>
        destruct (String.eqb_spec a b) as [->|_];
          [injection Hlookup as <-|]
    end;
  [..|discriminate Hlookup].

(** A call that raises leaves the metastore as it was. *)
Lemma call_method_Raise (self : Schema.OCELUCSchema) (name : string)
    (doc : pyval) (st st' : metastore) (e : exn) :
  Schema.call_method self name doc st = (st', Raise e) -> st' = st.
Proof.
  unfold Schema.call_method.
  destruct (dict_lookup name Schema.class_methods) as [method|] eqn:Hlookup;
    [|destruct (existsb _ _); congruence].
  method_cases Hlookup; apply build_and_save_Raise.
Qed.

(** A call that returns has saved one table, the one of the method, and
    what it saved depends on the document only. *)
Lemma call_method_Ok (self : Schema.OCELUCSchema) (name : string)
    (doc : pyval) (st st' : metastore) :
  Schema.call_method self name doc st = (st', Ok ()) ->
  exists table df,
    written_table name = Some table
    /\ st' = <[table_name self table := df]> st
    /\ forall st0 st0',
         Schema.call_method self name doc st0 = (st0', Ok ()) ->
         st0' = <[table_name self table := df]> st0.
Proof.
  unfold Schema.call_method.
  destruct (dict_lookup name Schema.class_methods) as [method|] eqn:Hlookup;
    [|destruct (existsb _ _); discriminate].
  method_cases Hlookup; intros Hrun;
    apply build_and_save_Ok in Hrun as (rs & df & Hrs & Hdf & ->);
    eexists _, df; (split; [reflexivity|]); (split; [reflexivity|]);
    intros st0 st0' Hrun0;
    apply build_and_save_Ok in Hrun0 as (rs0 & df0 & Hrs0 & Hdf0 & ->);
    rewrite Hrs in Hrs0; injection Hrs0 as <-;
    rewrite Hdf in Hdf0; injection Hdf0 as <-; reflexivity.
Qed.

Lemma written_table_inj (name1 name2 table : string) :
  written_table name1 = Some table ->
  written_table name2 = Some table ->
  name1 = name2.
Proof.
  unfold written_table. cbn [dict_lookup]. intros H1 H2.
  repeat match type of H1 with
    | (if String.eqb ?a ?b then _ else _) = _ =>
        destruct (String.eqb_spec a b) as [->|_]; [injection H1 as <-|]
    end; try discriminate H1.
  all: repeat match type of H2 with
    | (if String.eqb ?a ?b then _ else _) = _ =>
        destruct (String.eqb_spec a b) as [Heq|_]; [rewrite Heq; clear Heq|]
    end; try discriminate H2; reflexivity.
Qed.

Lemma table_name_inj (self : Schema.OCELUCSchema) (table1 table2 : string) :
  table_name self table1 = table_name self table2 -> table1 = table2.
Proof.
  unfold table_name. intros Heq.
  apply (inj (String.app _)) in Heq. apply (inj (String.app _)) in Heq.
  exact Heq.
Qed.

Lemma call_in_order_app (self : Schema.OCELUCSchema) (doc : pyval)
    (names1 names2 : list string) (st : metastore) :
  call_in_order self (names1 ++ names2) doc st
  = match call_in_order self names1 doc st with
    | (st1, Ok _) => call_in_order self names2 doc st1
    | (st1, Raise e) => (st1, Raise e)
    end.
Proof.
  revert st. induction names1 as [|name names1 IH]; intros st; [reflexivity|].
  simpl. unfold and_then.
  destruct (Schema.call_method self name doc st) as [st1 [[]|e]]; [apply IH|reflexivity].
Qed.

(** The calls stop at the first that raises, in the state the calls
    before it have built. *)
Lemma call_in_order_Raise (self : Schema.OCELUCSchema) (doc : pyval)
    (names : list string) (st st' : metastore) (e : exn) :
  call_in_order self names doc st = (st', Raise e) ->
  exists done failing rest,
    names = done ++ failing :: rest
    /\ call_in_order self done doc st = (st', Ok ())
    /\ Schema.call_method self failing doc st' = (st', Raise e).
Proof.
  revert st. induction names as [|name names IH]; intros st; [discriminate|].
  simpl. unfold and_then.
  destruct (Schema.call_method self name doc st) as [st1 [[]|e1]] eqn:Hcall.
  - intros Hrest. apply IH in Hrest as (done & failing & rest & -> & Hdone & Hfail).
    exists (name :: done), failing, rest. split; [reflexivity|].
    split; [|exact Hfail]. simpl. unfold and_then. rewrite Hcall. exact Hdone.
  - intros [= <- <-]. pose proof (call_method_Raise _ _ _ _ _ _ Hcall) as ->.
    exists [], name, names. split; [reflexivity|]. split; [reflexivity|exact Hcall].
Qed.

(** The calls that follow keep what a call has saved. *)
Lemma call_in_order_keeps (self : Schema.OCELUCSchema) (doc : pyval)
    (name table : string) (df : DataFrame) (names : list string) :
  written_table name = Some table ->
  (forall st0 st0',
     Schema.call_method self name doc st0 = (st0', Ok ()) ->
     st0' = <[table_name self table := df]> st0) ->
  forall st st' : metastore,
    call_in_order self names doc st = (st', Ok ()) ->
    st !! table_name self table = Some df ->
    st' !! table_name self table = Some df.
Proof.
  intros Htable Hsame. induction names as [|name' names IH]; intros st st'.
  - intros [= <-]. auto.
  - simpl. unfold and_then.
    destruct (Schema.call_method self name' doc st) as [st1 [[]|e1]] eqn:Hcall;
      [|discriminate].
    intros Hrest Hst. apply (IH _ _ Hrest).
    destruct (call_method_Ok _ _ _ _ _ Hcall) as (table' & df' & Htable' & Hst1 & _).
    destruct (decide (table' = table)) as [->|Hne].
    + pose proof (written_table_inj _ _ _ Htable' Htable) as ->.
      rewrite (Hsame _ _ Hcall). apply lookup_insert_eq.
    + rewrite Hst1, lookup_insert_ne; [exact Hst|].
      intros Heq. apply Hne. eapply table_name_inj. exact Heq.
Qed.

(** Best effort, for any sequence of calls: when a call raises, every
    table a call before it has saved is in the final state with the
    contents that call gave it. *)
Lemma calls_are_best_effort (self : Schema.OCELUCSchema) (doc : pyval)
    (names : list string) (st st' : metastore) (e : exn) :
  call_in_order self names doc st = (st', Raise e) ->
  exists done failing rest,
    names = done ++ failing :: rest
    /\ call_in_order self done doc st = (st', Ok ())
    /\ Schema.call_method self failing doc st' = (st', Raise e)
    /\ forall before name after st1 st2,
         done = before ++ name :: after ->
         call_in_order self before doc st = (st1, Ok ()) ->
         Schema.call_method self name doc st1 = (st2, Ok ()) ->
         exists table df,
           written_table name = Some table
           /\ st2 = <[table_name self table := df]> st1
           /\ st' !! table_name self table = Some df.
Proof.
  intros Hrun.
  apply call_in_order_Raise in Hrun as (done & failing & rest & -> & Hdone & Hfail).
  exists done, failing, rest. split; [reflexivity|]. split; [exact Hdone|].
  split; [exact Hfail|].
  intros before name after st1 st2 -> Hbefore Hcall.
  destruct (call_method_Ok _ _ _ _ _ Hcall) as (table & df & Htable & Hst2 & Hsame).
  exists table, df. split; [exact Htable|]. split; [exact Hst2|].
  rewrite call_in_order_app, Hbefore in Hdone. simpl in Hdone.
  unfold and_then in Hdone. rewrite Hcall in Hdone.
  eapply call_in_order_keeps; [exact Htable|exact Hsame|exact Hdone|].
  rewrite Hst2. apply lookup_insert_eq.
Qed.

(** The conversion is its eight calls in order. *)
Lemma write_ocel_json_to_schema_calls (self : Schema.OCELUCSchema)
    (json_path : string) (st : metastore) :
  Schema.write_ocel_json_to_schema self json_path st
  = match read_json json_path with
    | Ok doc => call_in_order self conversion_calls doc st
    | Raise e => (st, Raise e)
    end.
Proof.
  unfold Schema.write_ocel_json_to_schema, Schema._load_ocel_json.
  destruct (read_json json_path) as [doc|]; [|reflexivity].
  unfold conversion_calls. cbn [call_in_order]. unfold and_then.
  repeat match goal with
    | |- context [Schema.call_method ?s ?n ?d ?m] =>
        destruct (Schema.call_method s n d m) as [? [[]|?]]
    end; reflexivity.
Qed.

(** The class has no method of the name of the third call. *)
Lemma objects_call_raises (self : Schema.OCELUCSchema) (doc : pyval)
    (st : metastore) :
  Schema.call_method self "_create_and_load_objects_table" doc st
  = (st, Raise (AttributeError "_create_and_load_objects_table")).
Proof. reflexivity. Qed.

(** So the conversion never returns. *)
Lemma write_ocel_json_to_schema_raises (self : Schema.OCELUCSchema)
    (json_path : string) (st : metastore) :
  (Schema.write_ocel_json_to_schema self json_path st).2 ≠ Ok ().
Proof.
  unfold Schema.write_ocel_json_to_schema.
  destruct (Schema._load_ocel_json json_path) as [doc|]; [|discriminate].
  unfold and_then.
  destruct (Schema.call_method self "_create_and_load_object_types_table" doc st)
    as [st1 [[]|e1]]; [|discriminate].
  destruct (Schema.call_method self "_create_and_load_event_types_table" doc st1)
    as [st2 [[]|e2]]; [|discriminate].
  rewrite objects_call_raises. discriminate.
Qed.

(** Without a relationship in any event, the last method raises: it has
    no schema to fall back on. *)
Lemma event_object_relationships_without_rows (self : Schema.OCELUCSchema)
    (doc : pyval) (st : metastore) :
  Schema.event_object_relationships_rows doc = Ok [] ->
  Schema._create_and_load_event_object_relationships_table self doc st
  = (st, Raise ValueError).
Proof.
  intros Hrows. unfold Schema._create_and_load_event_object_relationships_table,
    Schema.build_and_save. rewrite Hrows. reflexivity.
Qed.

(** C7. The conversion is best effort: when it raises on a document, the
    calls before the failing one have returned, the failing call has
    changed nothing, and every table an earlier call has saved is in the
    final metastore with the contents that call gave it. *)
Theorem conversion_is_best_effort (self : Schema.OCELUCSchema)
    (json_path : string) (doc : pyval) (st st' : metastore) (e : exn) :
  read_json json_path = Ok doc ->
  Schema.write_ocel_json_to_schema self json_path st = (st', Raise e) ->
  exists done failing rest,
    conversion_calls = done ++ failing :: rest
    /\ call_in_order self done doc st = (st', Ok ())
    /\ Schema.call_method self failing doc st' = (st', Raise e)
    /\ forall before name after st1 st2,
         done = before ++ name :: after ->
         call_in_order self before doc st = (st1, Ok ()) ->
         Schema.call_method self name doc st1 = (st2, Ok ()) ->
         exists table df,
           written_table name = Some table
           /\ st2 = <[table_name self table := df]> st1
           /\ st' !! table_name self table = Some df.
Proof.
  intros Hread Hrun.
  rewrite write_ocel_json_to_schema_calls, Hread in Hrun.
  apply calls_are_best_effort. exact Hrun.
Qed.

End CallSequences.

(** ** The conversion on concrete documents *)

Lemma conversion_is_best_effort_witness :
  @read_json (workspace_holding late_failure_document) ocel_path
  = Ok late_failure_document
  /\ @Schema.write_ocel_json_to_schema plain_runtime (workspace_holding late_failure_document)
       main_logistics ocel_path ∅
     = ({[ "main.logistics.object_types" :=
             empty_table ["object_type_name"; "attribute_name"; "attribute_type"] ]},
        Raise (KeyError "attributes"))
  /\ exists done failing rest,
       conversion_calls = done ++ failing :: rest
       /\ @call_in_order plain_runtime (workspace_holding late_failure_document)
            main_logistics done late_failure_document ∅
          = ({[ "main.logistics.object_types" :=
                  empty_table ["object_type_name"; "attribute_name"; "attribute_type"] ]},
             Ok ())
       /\ @Schema.call_method plain_runtime (workspace_holding late_failure_document)
            main_logistics failing late_failure_document
            {[ "main.logistics.object_types" :=
                 empty_table ["object_type_name"; "attribute_name"; "attribute_type"] ]}
          = ({[ "main.logistics.object_types" :=
                  empty_table ["object_type_name"; "attribute_name"; "attribute_type"] ]},
             Raise (KeyError "attributes"))
       /\ forall before name after st1 st2,
            done = before ++ name :: after ->
            @call_in_order plain_runtime (workspace_holding late_failure_document)
              main_logistics before late_failure_document ∅ = (st1, Ok ()) ->
            @Schema.call_method plain_runtime (workspace_holding late_failure_document)
              main_logistics name late_failure_document st1 = (st2, Ok ()) ->
            exists table df,
              written_table name = Some table
              /\ st2 = <[table_name main_logistics table := df]> st1
              /\ ({[ "main.logistics.object_types" :=
                       empty_table ["object_type_name"; "attribute_name"; "attribute_type"] ]}
                    : metastore)
                   !! table_name main_logistics table = Some df.
Proof.
  assert (Hrun :
    @Schema.write_ocel_json_to_schema plain_runtime (workspace_holding late_failure_document)
      main_logistics ocel_path ∅
    = ({[ "main.logistics.object_types" :=
            empty_table ["object_type_name"; "attribute_name"; "attribute_type"] ]},
       Raise (KeyError "attributes"))) by (vm_compute; reflexivity).
  split; [reflexivity|]. split; [exact Hrun|].
  exact (@conversion_is_best_effort plain_runtime
           (workspace_holding late_failure_document) main_logistics ocel_path
           late_failure_document ∅ _ _ eq_refl Hrun).
Defined.

(** C1, on the code.  The conversion of the minimal document saves the
    two type tables, without rows, and raises [AttributeError] at its
    third call: the objects table and the five tables after it are not
    saved.  Called under the names the class defines, the methods save
    the objects table with the row (o1, order), the events table with the
    row (e1, place, 2024-01-01T00:00:00Z) and five tables without rows,
    and the last raises [ValueError]: no event_object_relationships table
    is saved. *)
Theorem minimal_document_conversion :
  @Schema.write_ocel_json_to_schema plain_runtime (workspace_holding minimal_document)
    main_logistics ocel_path ∅
  = ( <[ "main.logistics.event_types" :=
           empty_table ["event_type_name"; "attribute_name"; "attribute_type"] ]>
      {[ "main.logistics.object_types" :=
           empty_table ["object_type_name"; "attribute_name"; "attribute_type"] ]},
      Raise (AttributeError "_create_and_load_objects_table") )
  /\ minimal_run.2 = Raise ValueError
  /\ df_rows <$> minimal_run.1 !! "main.logistics.objects"
     = Some [ [ ("object_id", PStr "o1"); ("object_type", PStr "order") ] ]
  /\ df_rows <$> minimal_run.1 !! "main.logistics.events"
     = Some [ [ ("event_id", PStr "e1"); ("event_type", PStr "place");
                ("event_time", PStr "2024-01-01T00:00:00Z") ] ]
  /\ df_rows <$> minimal_run.1 !! "main.logistics.object_types" = Some []
  /\ df_rows <$> minimal_run.1 !! "main.logistics.event_types" = Some []
  /\ df_rows <$> minimal_run.1 !! "main.logistics.object_attributes" = Some []
  /\ df_rows <$> minimal_run.1 !! "main.logistics.object_relationships" = Some []
  /\ df_rows <$> minimal_run.1 !! "main.logistics.event_attributes" = Some []
  /\ minimal_run.1 !! "main.logistics.event_object_relationships" = None.
Proof.
  split; [vm_compute; reflexivity|].
  split; [vm_compute; reflexivity|].
  split; [vm_compute; reflexivity|].
  split; [vm_compute; reflexivity|].
  split; [vm_compute; reflexivity|].
  split; [vm_compute; reflexivity|].
  split; [vm_compute; reflexivity|].
  split; [vm_compute; reflexivity|].
  split; vm_compute; reflexivity.
Qed.

(** ** Downloads *)

Section Downloads.
Context {RT : PyRuntime} {HS : Host}.

(** The loop keeps [downloaded] equal to the size of the file. *)
Lemma write_chunks_Ok (file_path : string) (chunks : list (result bytes)) :
  forall (downloaded : Z) (fs fs' : filesystem) (data : bytes) (count : Z),
    fs !! file_path = Some data ->
    downloaded = Z.of_nat (length data) ->
    write_chunks file_path chunks downloaded fs = (fs', Ok count) ->
    exists data', fs' !! file_path = Some data'
      /\ count = Z.of_nat (length data').
Proof.
  induction chunks as [|[chunk|e] chunks IH];
    intros downloaded fs fs' data count Hdata Hcount; cbn [write_chunks].
  - intros [= <- <-]. eauto.
  - destruct chunk as [|b chunk]; [apply (IH _ _ _ _ _ Hdata Hcount)|].
    apply IH with (data := data ++ b :: chunk).
    + rewrite Hdata. cbn [default from_option]. apply lookup_insert_eq.
    + rewrite length_app, Hcount. lia.
  - discriminate.
Qed.

(** A download that succeeds has written the file, and its count is the
    size of the file. *)
Lemma download_to_Ok (url file_path : string) (fs fs' : filesystem) (count : Z) :
  download_to url file_path fs = (fs', Ok count) ->
  exists data, fs' !! file_path = Some data /\ count = Z.of_nat (length data).
Proof.
  unfold download_to.
  destruct (requests_get url) as [response|]; [|discriminate].
  destruct (raise_for_status response); [|discriminate].
  destruct (total_size_of response); [|discriminate].
  destruct (open_wb file_path fs); [|discriminate].
  apply write_chunks_Ok with (data := []); [apply lookup_insert_eq|reflexivity].
Qed.

Lemma write_chunks_prefix (file_path : string) (chunks : list bytes)
    (tail : list (result bytes)) :
  forall (downloaded : Z) (fs : filesystem) (data : bytes),
    fs !! file_path = Some data ->
    write_chunks file_path ((Ok <$> chunks) ++ tail) downloaded fs
    = write_chunks file_path tail
        (downloaded + Z.of_nat (length (concat chunks)))
        (<[file_path := data ++ concat chunks]> fs).
Proof.
  induction chunks as [|chunk chunks IH]; intros downloaded fs data Hdata.
  - simpl. rewrite app_nil_r, Z.add_0_r, (insert_id _ _ _ Hdata). reflexivity.
  - cbn [fmap list_fmap app write_chunks]. destruct chunk as [|b chunk].
    + rewrite (IH _ _ _ Hdata). reflexivity.
    + rewrite Hdata. cbn [default from_option].
      rewrite (IH _ _ (data ++ b :: chunk)) by apply lookup_insert_eq.
      rewrite insert_insert_eq. cbn [concat].
      rewrite !length_app, <- !app_assoc. f_equal. cbn [length]. lia.
Qed.

Lemma write_chunks_Ok_inv (file_path : string) (items : list (result bytes)) :
  forall (downloaded count : Z) (fs fs' : filesystem),
    write_chunks file_path items downloaded fs = (fs', Ok count) ->
    exists chunks, items = Ok <$> chunks.
Proof.
  induction items as [|[chunk|e] items IH]; intros downloaded count fs fs';
    cbn [write_chunks].
  - intros _. exists []. reflexivity.
  - destruct chunk as [|b chunk]; intros Hrun;
      apply IH in Hrun as [chunks ->];
      [exists ([] :: chunks)|exists ((b :: chunk) :: chunks)]; reflexivity.
  - discriminate.
Qed.

(** A download that succeeds has written the chunks of the answer, and
    only them. *)
Lemma download_to_holds (url file_path : string) (fs fs' : filesystem)
    (count : Z) :
  download_to url file_path fs = (fs', Ok count) ->
  holds_download url file_path fs fs'.
Proof.
  unfold download_to.
  destruct (requests_get url) as [response|] eqn:Hget; [|discriminate].
  destruct (raise_for_status response); [|discriminate].
  destruct (total_size_of response); [|discriminate].
  destruct (open_wb file_path fs); [|discriminate].
  intros Hrun. pose proof Hrun as Hinv.
  apply write_chunks_Ok_inv in Hinv as [chunks Hitems].
  rewrite Hitems, <- (app_nil_r (Ok <$> chunks)) in Hrun.
  rewrite (write_chunks_prefix _ _ _ _ _ []) in Hrun by apply lookup_insert_eq.
  cbn [write_chunks app] in Hrun. injection Hrun as <- _.
  exists response, chunks. split; [exact Hget|]. split; [exact Hitems|].
  apply insert_insert_eq.
Qed.

(** C8, as the code has it.  A download that succeeds returns the path of
    the file it has written, and nothing else, from the function of
    [ingest] and from the method of [OCEL2JSONUCImporter]; the method of
    [OCEL2UCImporter] returns [None].  The count of the loop is the size
    of the file at that path, which holds the chunks of the answer; the
    count is not part of what is returned. *)
Theorem download_file_returns_path :
  (forall (url folder_path file_name : string) (fs fs' : filesystem) (v : retval),
      Ingest.download_file url folder_path file_name fs = (fs', Ok v) ->
      v = RetStr (os_path_join folder_path file_name)
      /\ exists (count : Z) (data : bytes),
           download_to url (os_path_join folder_path file_name) fs
           = (fs', Ok count)
           /\ fs' !! os_path_join folder_path file_name = Some data
           /\ count = Z.of_nat (length data)
           /\ holds_download url (os_path_join folder_path file_name) fs fs')
  /\ (forall (self : Download.OCEL2JSONUCImporter) (file_name : string)
        (fs fs' : filesystem) (v : retval),
        Download.download_file self file_name fs = (fs', Ok v) ->
        exists (u c s vol : string) (count : Z) (data : bytes),
          Download.url self = Some u
          /\ Download.catalog self = Some c
          /\ Download.schema self = Some s
          /\ Download.volume self = Some vol
          /\ v = RetStr (os_path_join
                  ("/Volumes/" +:+ c +:+ "/" +:+ s +:+ "/" +:+ vol) file_name)
          /\ download_to u
               (os_path_join ("/Volumes/" +:+ c +:+ "/" +:+ s +:+ "/" +:+ vol)
                  file_name) fs
             = (fs', Ok count)
          /\ fs' !! os_path_join
                  ("/Volumes/" +:+ c +:+ "/" +:+ s +:+ "/" +:+ vol) file_name
             = Some data
          /\ count = Z.of_nat (length data)
          /\ holds_download u
               (os_path_join ("/Volumes/" +:+ c +:+ "/" +:+ s +:+ "/" +:+ vol)
                  file_name) fs fs')
  /\ (forall (self : Importer.OCEL2UCImporter) (url file_path : option string)
        (fs fs' : filesystem) (v : retval),
        Importer.download_file self url file_path fs = (fs', Ok v) ->
        v = RetNone
        /\ exists (u dest : string) (count : Z) (data : bytes),
             url = Some u
             /\ (file_path = Some dest
                 \/ file_path = None /\ Importer.file_path self = Some dest)
             /\ download_to u dest fs = (fs', Ok count)
             /\ fs' !! dest = Some data
             /\ count = Z.of_nat (length data)
             /\ holds_download u dest fs fs').
Proof.
  split; [|split].
  - intros url folder_path file_name fs fs' v. unfold Ingest.download_file.
    destruct (path_mkdir folder_path fs); [|discriminate].
    destruct (download_to url _ fs) as [fs1 [count|e]] eqn:Hdl; [|discriminate].
    intros [= <- <-]. split; [reflexivity|].
    destruct (download_to_Ok _ _ _ _ _ Hdl) as (data & Hdata & Hcount).
    exists count, data. split; [reflexivity|]. split; [exact Hdata|].
    split; [exact Hcount|]. eapply download_to_holds. exact Hdl.
  - intros self file_name fs fs' v. unfold Download.download_file.
    destruct (Download.url self) as [u|]; [|discriminate].
    destruct (Download.catalog self) as [c|]; [|discriminate].
    destruct (Download.schema self) as [s|]; [|discriminate].
    destruct (Download.volume self) as [vol|]; [|discriminate].
    destruct (path_mkdir _ fs); [|discriminate].
    destruct (download_to u _ fs) as [fs1 [count|e]] eqn:Hdl; [|discriminate].
    intros [= <- <-].
    destruct (download_to_Ok _ _ _ _ _ Hdl) as (data & Hdata & Hcount).
    exists u, c, s, vol, count, data. repeat (split; [reflexivity|]).
    split; [exact Hdl|]. split; [exact Hdata|]. split; [exact Hcount|].
    eapply download_to_holds. exact Hdl.
  - intros self url file_path fs fs' v. unfold Importer.download_file.
    destruct url as [u|]; [|discriminate].
    destruct file_path as [path|]; [|destruct (Importer.file_path self) as [path|]];
      try discriminate;
      (destruct (download_to u path fs) as [fs1 [count|e]] eqn:Hdl; [|discriminate]);
      intros [= <- <-]; (split; [reflexivity|]);
      destruct (download_to_Ok _ _ _ _ _ Hdl) as (data & Hdata & Hcount);
      exists u, path, count, data; (split; [reflexivity|]);
      (split; [auto|]); (split; [exact Hdl|]); (split; [exact Hdata|]);
      (split; [exact Hcount|]); eapply download_to_holds; exact Hdl.
Qed.

End Downloads.

(** C8, as it is stated, fails on a download of two chunks: it succeeds,
    and what is returned is the path alone, or [None]. *)
Lemma download_file_returns_no_count :
  @Ingest.download_file plain_runtime (host_serving two_chunks)
    example_url "/Volumes/main/logistics/raw" "ocel.json" ∅
  = ({[ ocel_path := [Byte.x7b; Byte.x7d] ]}, Ok (RetStr ocel_path))
  /\ ~ is_path_and_count (RetStr ocel_path)
  /\ @Download.download_file plain_runtime (host_serving two_chunks)
       (Download.__init__ (Some example_url) (Some "main") (Some "logistics")
          (Some "raw"))
       "ocel.json" ∅
     = ({[ ocel_path := [Byte.x7b; Byte.x7d] ]}, Ok (RetStr ocel_path))
  /\ @Importer.download_file plain_runtime (host_serving two_chunks)
       Importer.__init__ (Some example_url) (Some ocel_path) ∅
     = ({[ ocel_path := [Byte.x7b; Byte.x7d] ]}, Ok RetNone)
  /\ ~ is_path_and_count RetNone.
Proof.
  split; [vm_compute; reflexivity|].
  split; [intros (path & count & Heq); discriminate Heq|].
  split; [vm_compute; reflexivity|].
  split; [vm_compute; reflexivity|].
  intros (path & count & Heq); discriminate Heq.
Qed.

Lemma download_file_returns_path_witness :
  (@Ingest.download_file plain_runtime (host_serving two_chunks)
     example_url "/Volumes/main/logistics/raw" "ocel.json" ∅
   = ({[ ocel_path := [Byte.x7b; Byte.x7d] ]}, Ok (RetStr ocel_path))
   /\ RetStr ocel_path
      = RetStr (os_path_join "/Volumes/main/logistics/raw" "ocel.json")
   /\ @download_to plain_runtime (host_serving two_chunks) example_url
        (os_path_join "/Volumes/main/logistics/raw" "ocel.json") ∅
      = ({[ ocel_path := [Byte.x7b; Byte.x7d] ]}, Ok 2%Z)
   /\ exists data : bytes,
        ({[ ocel_path := [Byte.x7b; Byte.x7d] ]} : filesystem)
          !! os_path_join "/Volumes/main/logistics/raw" "ocel.json" = Some data
        /\ 2%Z = Z.of_nat (length data))
  /\ (@Importer.download_file plain_runtime (host_serving two_chunks)
        Importer.__init__ (Some example_url) (Some ocel_path) ∅
      = ({[ ocel_path := [Byte.x7b; Byte.x7d] ]}, Ok RetNone)
      /\ RetNone = RetNone)
  /\ (@Download.download_file plain_runtime (host_serving two_chunks)
        (Download.__init__ (Some example_url) (Some "main") (Some "logistics")
           (Some "raw"))
        "ocel.json" ∅
      = ({[ ocel_path := [Byte.x7b; Byte.x7d] ]}, Ok (RetStr ocel_path))
      /\ exists c s vol : string,
           RetStr ocel_path
           = RetStr (os_path_join
               ("/Volumes/" +:+ c +:+ "/" +:+ s +:+ "/" +:+ vol) "ocel.json")).
Proof.
  assert (Hdownload :
    @Download.download_file plain_runtime (host_serving two_chunks)
      (Download.__init__ (Some example_url) (Some "main") (Some "logistics")
         (Some "raw"))
      "ocel.json" ∅
    = ({[ ocel_path := [Byte.x7b; Byte.x7d] ]}, Ok (RetStr ocel_path)))
    by (vm_compute; reflexivity).
  assert (Hingest :
    @Ingest.download_file plain_runtime (host_serving two_chunks)
      example_url "/Volumes/main/logistics/raw" "ocel.json" ∅
    = ({[ ocel_path := [Byte.x7b; Byte.x7d] ]}, Ok (RetStr ocel_path)))
    by (vm_compute; reflexivity).
  assert (Himporter :
    @Importer.download_file plain_runtime (host_serving two_chunks)
      Importer.__init__ (Some example_url) (Some ocel_path) ∅
    = ({[ ocel_path := [Byte.x7b; Byte.x7d] ]}, Ok RetNone))
    by (vm_compute; reflexivity).
  assert (Hcounted :
    @download_to plain_runtime (host_serving two_chunks) example_url
      (os_path_join "/Volumes/main/logistics/raw" "ocel.json") ∅
    = ({[ ocel_path := [Byte.x7b; Byte.x7d] ]}, Ok 2%Z))
    by (vm_compute; reflexivity).
  split; [|split].
  - split; [exact Hingest|].
    destruct (proj1 (@download_file_returns_path plain_runtime
                       (host_serving two_chunks)) _ _ _ _ _ _ Hingest)
      as (Hv & count & data & Hdl & Hdata & Hcount & _).
    split; [exact Hv|]. split; [exact Hcounted|].
    exists data. split; [exact Hdata|].
    rewrite Hcounted in Hdl. injection Hdl as Htwo.
    rewrite Htwo. exact Hcount.
  - split; [exact Himporter|].
    exact (proj1 (proj2 (proj2 (@download_file_returns_path plain_runtime
                                  (host_serving two_chunks)))
                    _ _ _ _ _ _ Himporter)).
  - split; [exact Hdownload|].
    destruct (proj1 (proj2 (@download_file_returns_path plain_runtime
                              (host_serving two_chunks)))
                _ _ _ _ _ Hdownload)
      as (u & c & s & vol & count & data & _ & _ & _ & _ & Hv & _).
    exists c, s, vol. exact Hv.
Defined.

(** ** Splitting and joining *)

Section SplitJoin.
Variable sep : ascii.

Lemma str_split_cons (s : string) : exists w ws, str_split sep s = w :: ws.
Proof.
  destruct s as [|c rest]; simpl; [eauto|].
  destruct (Ascii.eqb c sep); [eauto|].
  destruct (str_split sep rest); eauto.
Qed.

Lemma str_split_count (s : string) :
  length (str_split sep s) = S (str_count sep s).
Proof.
  induction s as [|c rest IH]; [reflexivity|]. simpl.
  destruct (Ascii.eqb c sep); simpl; [rewrite IH; reflexivity|].
  destruct (str_split sep rest); simpl in *; congruence.
Qed.

Lemma str_join_String (c : ascii) (w : string) (ws : list string) :
  str_join sep (String c w :: ws) = String c (str_join sep (w :: ws)).
Proof. destruct ws; reflexivity. Qed.

Lemma str_join_split (s : string) : str_join sep (str_split sep s) = s.
Proof.
  induction s as [|c rest IH]; [reflexivity|]. simpl.
  destruct (str_split_cons rest) as (w & ws & Hsplit). rewrite Hsplit in *.
  destruct (Ascii.eqb_spec c sep) as [->|_].
  - transitivity (String sep (str_join sep (w :: ws))); [reflexivity|].
    rewrite IH. reflexivity.
  - rewrite str_join_String, IH. reflexivity.
Qed.

Lemma str_split_no_sep (w : string) :
  str_count sep w = 0 -> str_split sep w = [w].
Proof.
  induction w as [|c rest IH]; [reflexivity|]. simpl.
  destruct (Ascii.eqb c sep); [discriminate|]. simpl.
  intros Hrest. rewrite (IH Hrest). reflexivity.
Qed.

Lemma str_split_app (w rest : string) :
  str_count sep w = 0 ->
  str_split sep (w +:+ String sep rest) = w :: str_split sep rest.
Proof.
  induction w as [|c w IH]; simpl.
  - rewrite Ascii.eqb_refl. reflexivity.
  - destruct (Ascii.eqb c sep); [discriminate|]. simpl.
    intros Hw. rewrite (IH Hw). reflexivity.
Qed.

Lemma str_count_app (a b : string) :
  str_count sep (a +:+ b) = str_count sep a + str_count sep b.
Proof. induction a as [|c a IH]; simpl; [reflexivity|]. rewrite IH. lia. Qed.

Lemma str_split_components (s : string) :
  Forall (fun w => str_count sep w = 0) (str_split sep s).
Proof.
  induction s as [|c rest IH]; simpl; [repeat constructor|].
  destruct (Ascii.eqb c sep) eqn:Hc; [constructor; [reflexivity|exact IH]|].
  destruct (str_split sep rest) as [|w ws]; [repeat constructor; simpl; rewrite Hc; reflexivity|].
  inversion IH as [|? ? Hw Hws]; subst.
  constructor; [|exact Hws]. simpl. rewrite Hc. exact Hw.
Qed.

End SplitJoin.

(** ** More on paths *)

Section MorePaths.

Lemma parse_uc_file_path_cases (file_path : string) :
  (exists a b c s v f,
     str_split "/" file_path = [a; b; c; s; v; f]
     /\ Importer.parse_uc_file_path file_path = Ok (path_elements c s v f))
  \/ (length (str_split "/" file_path) ≠ 6
      /\ Importer.parse_uc_file_path file_path = Raise ValueError).
Proof.
  unfold Importer.parse_uc_file_path.
  destruct (str_split "/" file_path) as [|a [|b [|c [|s [|v [|f [|x rest]]]]]]];
    simpl; try (right; split; [discriminate|reflexivity]).
  left. exists a, b, c, s, v, f. split; reflexivity.
Qed.

Lemma parse_uc_file_path_Ok_iff (file_path : string) :
  (exists elements, Importer.parse_uc_file_path file_path = Ok elements)
  <-> str_count "/" file_path = 5.
Proof.
  pose proof (str_split_count "/" file_path) as Hcount.
  destruct (parse_uc_file_path_cases file_path)
    as [(a & b & c & s & v & f & Hsplit & Hparse)|[Hlen Hparse]].
  - rewrite Hsplit in Hcount. simpl in Hcount. split; [lia|eauto].
  - split.
    + intros [elements Hok]. congruence.
    + intros Hfive. rewrite Hfive in Hcount. contradiction.
Qed.

(** X1. [parse_uc_file_path] succeeds on exactly the paths that contain
    five slashes, with the four strings after the second slash as the
    components; on every other string it raises [ValueError]. *)
Theorem parse_uc_file_path_five_slashes (file_path : string) :
  ((exists elements, Importer.parse_uc_file_path file_path = Ok elements)
   <-> str_count "/" file_path = 5)
  /\ (str_count "/" file_path = 5 ->
      exists a b c s v f,
        str_split "/" file_path = [a; b; c; s; v; f]
        /\ Importer.parse_uc_file_path file_path
           = Ok [ ("catalog", c); ("schema", s); ("volume", v);
                  ("file_name", f) ])
  /\ (str_count "/" file_path ≠ 5 ->
      Importer.parse_uc_file_path file_path = Raise ValueError).
Proof.
  pose proof (parse_uc_file_path_Ok_iff file_path) as Hiff.
  split; [exact Hiff|].
  destruct (parse_uc_file_path_cases file_path)
    as [(a & b & c & s & v & f & Hsplit & Hparse)|[Hlen Hparse]].
  - split.
    + intros _. exists a, b, c, s, v, f. split; [exact Hsplit|exact Hparse].
    + intros Hnot. exfalso. apply Hnot, Hiff. eauto.
  - split.
    + intros Hfive. apply Hiff in Hfive as [elements Hok]. congruence.
    + intros _. exact Hparse.
Qed.

(** X2. The components [parse_uc_file_path] returns contain no slash, and
    joined with slashes behind the first two components of the path they
    give the path back. *)
Theorem parse_uc_file_path_rebuilds (file_path c s v f : string) :
  Importer.parse_uc_file_path file_path = Ok (path_elements c s v f) ->
  str_count "/" c = 0 /\ str_count "/" s = 0
  /\ str_count "/" v = 0 /\ str_count "/" f = 0
  /\ exists a b,
       str_count "/" a = 0 /\ str_count "/" b = 0
       /\ file_path = str_join "/" [a; b; c; s; v; f].
Proof.
  intros Hparse.
  destruct (parse_uc_file_path_cases file_path)
    as [(a & b & c' & s' & v' & f' & Hsplit & Hparse')|[_ Hparse']];
    [|congruence].
  rewrite Hparse in Hparse'. injection Hparse' as <- <- <- <-.
  pose proof (str_split_components "/" file_path) as Hall.
  rewrite Hsplit in Hall.
  repeat match goal with
    | H : Forall _ (_ :: _) |- _ => inversion H; clear H; subst
    end.
  repeat (split; [assumption|]).
  exists a, b. repeat (split; [assumption|]).
  rewrite <- Hsplit. symmetry. apply str_join_split.
Qed.

Lemma parse_uc_file_path_rebuilds_witness :
  Importer.parse_uc_file_path ocel_path
  = Ok (path_elements "main" "logistics" "raw" "ocel.json")
  /\ str_count "/" "main" = 0 /\ str_count "/" "logistics" = 0
  /\ str_count "/" "raw" = 0 /\ str_count "/" "ocel.json" = 0
  /\ exists a b,
       str_count "/" a = 0 /\ str_count "/" b = 0
       /\ ocel_path = str_join "/" [a; b; "main"; "logistics"; "raw"; "ocel.json"].
Proof.
  split; [reflexivity|].
  exact (parse_uc_file_path_rebuilds ocel_path "main" "logistics" "raw"
           "ocel.json" eq_refl).
Defined.

Lemma volume_file_path_split (c s v f : string) :
  str_count "/" c = 0 -> str_count "/" s = 0 -> str_count "/" v = 0 ->
  str_count "/" f = 0 ->
  str_split "/" (volume_file_path c s v f) = [""; "Volumes"; c; s; v; f].
Proof.
  intros Hc Hs Hv Hf. unfold volume_file_path.
  change ("/Volumes/" +:+ c +:+ "/" +:+ s +:+ "/" +:+ v +:+ "/" +:+ f)
    with ("" +:+ String "/" ("Volumes" +:+ String "/"
            (c +:+ String "/" (s +:+ String "/" (v +:+ String "/" f))))).
  rewrite !str_split_app by (assumption || reflexivity).
  rewrite (str_split_no_sep "/" f Hf). reflexivity.
Qed.

Lemma volume_file_path_count (c s v f : string) :
  str_count "/" (volume_file_path c s v f)
  = 5 + str_count "/" c + str_count "/" s + str_count "/" v + str_count "/" f.
Proof.
  unfold volume_file_path. rewrite !str_count_app. simpl. lia.
Qed.

(** X3. The path built from four components parses back to these
    components exactly when none of them contains a slash; with a slash in
    a component the path does not parse. *)
Theorem volume_file_path_round_trip (c s v f : string) :
  (Importer.parse_uc_file_path (volume_file_path c s v f)
   = Ok (path_elements c s v f)
   <-> str_count "/" c = 0 /\ str_count "/" s = 0
       /\ str_count "/" v = 0 /\ str_count "/" f = 0)
  /\ (str_count "/" c + str_count "/" s + str_count "/" v + str_count "/" f ≠ 0
      -> Importer.parse_uc_file_path (volume_file_path c s v f)
         = Raise ValueError).
Proof.
  pose proof (volume_file_path_count c s v f) as Hcount.
  pose proof (parse_uc_file_path_Ok_iff (volume_file_path c s v f)) as Hfive.
  split; [split|].
  - intros Hparse. assert (str_count "/" (volume_file_path c s v f) = 5)
      by (apply Hfive; eauto). lia.
  - intros (Hc & Hs & Hv & Hf).
    unfold Importer.parse_uc_file_path.
    rewrite (volume_file_path_split c s v f Hc Hs Hv Hf). reflexivity.
  - intros Hslash.
    destruct (parse_uc_file_path_cases (volume_file_path c s v f))
      as [(a & b & c' & s' & v' & f' & Hsplit & Hparse)|[_ Hparse]];
      [|exact Hparse].
    assert (str_count "/" (volume_file_path c s v f) = 5)
      by (apply Hfive; eauto). lia.
Qed.

Lemma volume_file_path_round_trip_witness :
  (str_count "/" "main" + str_count "/" "logistics" + str_count "/" "raw"
   + str_count "/" "logs/ocel.json" ≠ 0
   /\ Importer.parse_uc_file_path
        (volume_file_path "main" "logistics" "raw" "logs/ocel.json")
      = Raise ValueError)
  /\ ((str_count "/" "main" = 0 /\ str_count "/" "logistics" = 0
       /\ str_count "/" "raw" = 0 /\ str_count "/" "ocel.json" = 0)
      /\ Importer.parse_uc_file_path
           (volume_file_path "main" "logistics" "raw" "ocel.json")
         = Ok (path_elements "main" "logistics" "raw" "ocel.json")).
Proof.
  assert (Hslash : str_count "/" "main" + str_count "/" "logistics"
                   + str_count "/" "raw" + str_count "/" "logs/ocel.json" ≠ 0)
    by (vm_compute; lia).
  assert (Hnone : str_count "/" "main" = 0 /\ str_count "/" "logistics" = 0
                  /\ str_count "/" "raw" = 0 /\ str_count "/" "ocel.json" = 0)
    by (repeat split).
  split.
  - split; [exact Hslash|].
    exact (proj2 (volume_file_path_round_trip "main" "logistics" "raw"
                    "logs/ocel.json") Hslash).
  - split; [exact Hnone|].
    exact (proj2 (proj1 (volume_file_path_round_trip "main" "logistics" "raw"
                           "ocel.json")) Hnone).
Defined.

(** X4. [set_uc_file_path] returns exactly when it is given the four
    components and no [file_path]; it then stores them with the path
    built from them.  Every other call raises, and leaves the instance as
    it was. *)
Theorem set_uc_file_path_outcomes {RT : PyRuntime}
    (self : Importer.OCEL2UCImporter)
    (file_path catalog schema volume file_name : option string) :
  ((Importer.set_uc_file_path self file_path catalog schema volume file_name).2
   = Ok ()
   <-> file_path = None /\ is_Some catalog /\ is_Some schema
       /\ is_Some volume /\ is_Some file_name)
  /\ ((Importer.set_uc_file_path self file_path catalog schema volume file_name).2
      ≠ Ok ()
      -> (Importer.set_uc_file_path self file_path catalog schema volume
            file_name).1 = self)
  /\ (forall c s v f,
        catalog = Some c -> schema = Some s -> volume = Some v ->
        file_name = Some f -> file_path = None ->
        (Importer.set_uc_file_path self file_path catalog schema volume
           file_name).1
        = {| Importer.catalog := Some c; Importer.schema := Some s;
             Importer.volume := Some v; Importer.file_name := Some f;
             Importer.file_path := Some (volume_file_path c s v f) |}).
Proof.
  split; [|split].
  - destruct file_path, catalog, schema, volume, file_name; simpl; split;
      first [ discriminate
            | intros (Hnone & Hc & Hs & Hv & Hf);
              first [ discriminate Hnone
                    | destruct Hc as [? Hc]; discriminate Hc
                    | destruct Hs as [? Hs]; discriminate Hs
                    | destruct Hv as [? Hv]; discriminate Hv
                    | destruct Hf as [? Hf]; discriminate Hf ]
            | intros _; repeat split; eauto
            | reflexivity ].
  - destruct file_path, catalog, schema, volume, file_name; simpl;
      first [ reflexivity | intros Hne; contradiction Hne; reflexivity ].
  - intros c s v f -> -> -> -> ->. reflexivity.
Qed.

Lemma set_uc_file_path_outcomes_witness :
  Some "main" = Some "main" /\ Some "logistics" = Some "logistics"
  /\ Some "raw" = Some "raw" /\ Some "ocel.json" = Some "ocel.json"
  /\ (None : option string) = None
  /\ (@Importer.set_uc_file_path plain_runtime Importer.__init__ None
        (Some "main") (Some "logistics") (Some "raw") (Some "ocel.json")).1
     = {| Importer.catalog := Some "main"; Importer.schema := Some "logistics";
          Importer.volume := Some "raw"; Importer.file_name := Some "ocel.json";
          Importer.file_path := Some ocel_path |}.
Proof.
  repeat (split; [reflexivity|]).
  exact (proj2 (proj2 (@set_uc_file_path_outcomes plain_runtime
                         Importer.__init__ None (Some "main")
                         (Some "logistics") (Some "raw") (Some "ocel.json")))
           "main" "logistics" "raw" "ocel.json"
           eq_refl eq_refl eq_refl eq_refl eq_refl).
Defined.

End MorePaths.

(** ** More on downloads *)

Section MoreDownloads.
Context {RT : PyRuntime} {HS : Host}.

(** The streaming block, when the answer can be streamed and the file
    opened: the file is truncated and the stream written up to its end or
    to its first failure. *)
Lemma download_to_stream (url file_path : string) (response : Response)
    (fs : filesystem) :
  requests_get url = Ok response ->
  streamable response ->
  open_wb file_path fs = Ok () ->
  download_to url file_path fs
  = write_chunks file_path (iter_content response) 0
      (<[file_path := []]> fs).
Proof.
  intros Hget [Hstatus [total_size Htotal]] Hopen. unfold download_to.
  rewrite Hget. unfold raise_for_status.
  rewrite decide_False by exact Hstatus.
  rewrite Htotal, Hopen. reflexivity.
Qed.

(** X5. After a download that succeeds, the destination holds exactly the
    chunks of the answer, in order, whatever it held before, and no other
    file has changed. *)
Theorem download_file_writes_the_stream :
  (forall (url folder_path file_name : string) (fs fs' : filesystem) (v : retval),
      Ingest.download_file url folder_path file_name fs = (fs', Ok v) ->
      holds_download url (os_path_join folder_path file_name) fs fs')
  /\ (forall (self : Download.OCEL2JSONUCImporter) (file_name : string)
        (fs fs' : filesystem) (v : retval),
        Download.download_file self file_name fs = (fs', Ok v) ->
        exists url c s vol,
          Download.url self = Some url
          /\ Download.catalog self = Some c
          /\ Download.schema self = Some s
          /\ Download.volume self = Some vol
          /\ holds_download url
               (os_path_join ("/Volumes/" +:+ c +:+ "/" +:+ s +:+ "/" +:+ vol)
                  file_name) fs fs')
  /\ (forall (self : Importer.OCEL2UCImporter) (url : string)
        (file_path : option string) (fs fs' : filesystem) (v : retval),
        Importer.download_file self (Some url) file_path fs = (fs', Ok v) ->
        exists dest,
          (file_path = Some dest
           \/ file_path = None /\ Importer.file_path self = Some dest)
          /\ holds_download url dest fs fs').
Proof.
  split; [|split].
  - intros url folder_path file_name fs fs' v. unfold Ingest.download_file.
    destruct (path_mkdir folder_path fs); [|discriminate].
    destruct (download_to url _ fs) as [fs1 [count|e]] eqn:Hdl; [|discriminate].
    intros [= <- <-]. eapply download_to_holds. exact Hdl.
  - intros self file_name fs fs' v. unfold Download.download_file.
    destruct (Download.url self) as [u|]; [|discriminate].
    destruct (Download.catalog self) as [c|]; [|discriminate].
    destruct (Download.schema self) as [s|]; [|discriminate].
    destruct (Download.volume self) as [vol|]; [|discriminate].
    destruct (path_mkdir _ fs); [|discriminate].
    destruct (download_to u _ fs) as [fs1 [count|e]] eqn:Hdl; [|discriminate].
    intros [= <- <-]. exists u, c, s, vol. repeat (split; [reflexivity|]).
    eapply download_to_holds. exact Hdl.
  - intros self url file_path fs fs' v. unfold Importer.download_file.
    destruct file_path as [path|]; [|destruct (Importer.file_path self) as [path|]];
      try discriminate;
      (destruct (download_to url path fs) as [fs1 [count|e]] eqn:Hdl; [|discriminate]);
      intros [= <- <-]; exists path;
      (split; [auto|eapply download_to_holds; exact Hdl]).
Qed.

End MoreDownloads.

Lemma download_file_writes_the_stream_witness :
  @Ingest.download_file plain_runtime (host_serving two_chunks)
    example_url raw_folder "ocel.json" stale_filesystem
  = ({[ ocel_path := [Byte.x7b; Byte.x7d] ]}, Ok (RetStr ocel_path))
  /\ @holds_download (host_serving two_chunks) example_url
       (os_path_join raw_folder "ocel.json") stale_filesystem
       {[ ocel_path := [Byte.x7b; Byte.x7d] ]}.
Proof.
  assert (Hrun :
    @Ingest.download_file plain_runtime (host_serving two_chunks)
      example_url raw_folder "ocel.json" stale_filesystem
    = ({[ ocel_path := [Byte.x7b; Byte.x7d] ]}, Ok (RetStr ocel_path)))
    by (vm_compute; reflexivity).
  split; [exact Hrun|].
  exact (proj1 (@download_file_writes_the_stream plain_runtime
                  (host_serving two_chunks)) _ _ _ _ _ _ Hrun).
Defined.

Section BrokenDownloads.
Context {RT : PyRuntime} {HS : Host}.

(** X6. A transfer that breaks is not undone: when the stream raises
    after some chunks, the download raises the same exception and leaves
    at the destination a file with the chunks received so far. *)
Theorem download_file_leaves_partial_file (url : string) (response : Response)
    (chunks : list bytes) (e : exn) (rest : list (result bytes)) :
  requests_get url = Ok response ->
  streamable response ->
  iter_content response = (Ok <$> chunks) ++ Raise e :: rest ->
  (forall (folder_path file_name : string) (fs : filesystem),
      path_mkdir folder_path fs = Ok () ->
      open_wb (os_path_join folder_path file_name) fs = Ok () ->
      Ingest.download_file url folder_path file_name fs
      = (<[os_path_join folder_path file_name := concat chunks]> fs, Raise e))
  /\ (forall (self : Importer.OCEL2UCImporter) (dest : string) (fs : filesystem),
        open_wb dest fs = Ok () ->
        Importer.download_file self (Some url) (Some dest) fs
        = (<[dest := concat chunks]> fs, Raise e)).
Proof.
  intros Hget Hstream Hitems.
  assert (Hto : forall dest fs, open_wb dest fs = Ok () ->
    download_to url dest fs = (<[dest := concat chunks]> fs, Raise e)).
  { intros dest fs Hopen.
    rewrite (download_to_stream _ _ _ _ Hget Hstream Hopen), Hitems.
    rewrite (write_chunks_prefix _ _ _ _ _ []) by apply lookup_insert_eq.
    cbn [write_chunks app]. rewrite insert_insert_eq. reflexivity. }
  split.
  - intros folder_path file_name fs Hmkdir Hopen. unfold Ingest.download_file.
    rewrite Hmkdir, (Hto _ _ Hopen). reflexivity.
  - intros self dest fs Hopen. unfold Importer.download_file.
    rewrite (Hto _ _ Hopen). reflexivity.
Qed.

(** X7. A request that is refused, by an exception or by an error status,
    raises and leaves every file as it was: the destination is neither
    created nor truncated.  (The folder [mkdir] makes before the request
    stays; directories are not among the files of [filesystem].) *)
Theorem download_file_refused (url : string) (e : exn) :
  refused url e ->
  (forall (folder_path file_name : string) (fs : filesystem),
      path_mkdir folder_path fs = Ok () ->
      Ingest.download_file url folder_path file_name fs = (fs, Raise e))
  /\ (forall (self : Importer.OCEL2UCImporter) (dest : string) (fs : filesystem),
        Importer.download_file self (Some url) (Some dest) fs = (fs, Raise e)).
Proof.
  intros Hrefused.
  assert (Hto : forall dest fs, download_to url dest fs = (fs, Raise e)).
  { intros dest fs. unfold download_to.
    destruct Hrefused as [Hget|(response & Hget & Hstatus & ->)]; rewrite Hget;
      [reflexivity|].
    unfold raise_for_status. rewrite decide_True by exact Hstatus. reflexivity. }
  split.
  - intros folder_path file_name fs Hmkdir. unfold Ingest.download_file.
    rewrite Hmkdir, Hto. reflexivity.
  - intros self dest fs. unfold Importer.download_file. rewrite Hto. reflexivity.
Qed.

(** X8. [OCEL2JSONUCImporter.download_file] is the function of [ingest]
    applied to the folder of the volume: same file system, same result. *)
Theorem download_file_of_volume (url c s vol file_name : string)
    (fs : filesystem) :
  Download.download_file
    (Download.__init__ (Some url) (Some c) (Some s) (Some vol)) file_name fs
  = Ingest.download_file url
      ("/Volumes/" +:+ c +:+ "/" +:+ s +:+ "/" +:+ vol) file_name fs.
Proof. reflexivity. Qed.

Lemma download_to_streamable (url file_path : string) (fs fs' : filesystem)
    (count : Z) :
  download_to url file_path fs = (fs', Ok count) ->
  exists response, requests_get url = Ok response /\ streamable response.
Proof.
  unfold download_to, streamable, raise_for_status.
  destruct (requests_get url) as [response|]; [|discriminate].
  destruct (decide _) as [|Hstatus]; [discriminate|].
  destruct (total_size_of response) as [total_size|] eqn:Htotal; [|discriminate].
  intros _. exists response. split; [reflexivity|].
  split; [exact Hstatus|]. exists total_size. exact Htotal.
Qed.

End BrokenDownloads.

Section RepeatedDownloads.
Context {RT : PyRuntime} (HS1 HS2 : Host).

(** X9. A download run again, on a host where the directory and the file
    can still be written: when the server gives the answer of the first
    run, the second run returns the same path and leaves the file system
    of the first run; whatever streamable answer it gives, the second run
    returns the same path and the file holds the chunks of that answer. *)
Theorem download_file_again (url folder_path file_name : string)
    (fs fs' : filesystem) (v : retval) :
  @Ingest.download_file RT HS1 url folder_path file_name fs = (fs', Ok v) ->
  @path_mkdir HS2 folder_path fs' = Ok () ->
  @open_wb HS2 (os_path_join folder_path file_name) fs' = Ok () ->
  (@requests_get HS2 url = @requests_get HS1 url ->
   @Ingest.download_file RT HS2 url folder_path file_name fs' = (fs', Ok v))
  /\ (forall (response : Response) (chunks : list bytes),
        @requests_get HS2 url = Ok response ->
        streamable response ->
        iter_content response = Ok <$> chunks ->
        @Ingest.download_file RT HS2 url folder_path file_name fs'
        = (<[os_path_join folder_path file_name := concat chunks]> fs', Ok v)).
Proof.
  intros Hrun Hmkdir Hopen.
  assert (Hnew : forall (response : Response) (chunks : list bytes),
    @requests_get HS2 url = Ok response ->
    streamable response ->
    iter_content response = Ok <$> chunks ->
    @Ingest.download_file RT HS2 url folder_path file_name fs'
    = (<[os_path_join folder_path file_name := concat chunks]> fs',
       Ok (RetStr (os_path_join folder_path file_name)))).
  { intros response chunks Hget Hstream Hitems. unfold Ingest.download_file.
    rewrite Hmkdir.
    rewrite (download_to_stream (HS := HS2) _ _ _ _ Hget Hstream Hopen), Hitems.
    rewrite <- (app_nil_r (Ok <$> chunks)).
    rewrite (write_chunks_prefix _ _ _ _ _ []) by apply lookup_insert_eq.
    cbn [write_chunks app]. rewrite insert_insert_eq. reflexivity. }
  unfold Ingest.download_file in Hrun.
  destruct (@path_mkdir HS1 folder_path fs); [|discriminate].
  destruct (@download_to RT HS1 url _ fs) as [fs1 [count|e]] eqn:Hdl;
    [|discriminate].
  injection Hrun as <- <-.
  split; [|exact Hnew].
  intros Hsame.
  destruct (download_to_streamable (HS := HS1) _ _ _ _ _ Hdl)
    as (response & Hget & Hstream).
  destruct (download_to_holds (HS := HS1) _ _ _ _ _ Hdl)
    as (response' & chunks & Hget' & Hitems & Hfs).
  rewrite Hget in Hget'. injection Hget' as <-.
  rewrite <- Hsame in Hget.
  rewrite (Hnew response chunks Hget Hstream Hitems), Hfs, insert_insert_eq.
  reflexivity.
Qed.

End RepeatedDownloads.

Lemma download_file_leaves_partial_file_witness :
  ((@requests_get (host_answering 200 broken_stream) example_url
    = Ok {| status_code := 200; content_length := None;
            iter_content := broken_stream |}
    /\ @streamable plain_runtime
         {| status_code := 200; content_length := None;
            iter_content := broken_stream |}
    /\ broken_stream
       = (Ok <$> [[Byte.x7b]]) ++ Raise RequestException :: [Ok [Byte.x7d]])
   /\ @path_mkdir (host_answering 200 broken_stream) raw_folder stale_filesystem
      = Ok ()
   /\ @open_wb (host_answering 200 broken_stream)
        (os_path_join raw_folder "ocel.json") stale_filesystem = Ok ())
  /\ @Ingest.download_file plain_runtime (host_answering 200 broken_stream)
       example_url raw_folder "ocel.json" stale_filesystem
     = (<[os_path_join raw_folder "ocel.json" := concat [[Byte.x7b]]]>
          stale_filesystem,
        Raise RequestException).
Proof.
  assert (Hstream : @streamable plain_runtime
            {| status_code := 200; content_length := None;
               iter_content := broken_stream |}).
  { split; [simpl; lia|]. exists 0%Z. reflexivity. }
  split.
  - split; [|split; reflexivity].
    split; [reflexivity|]. split; [exact Hstream|reflexivity].
  - exact (proj1 (@download_file_leaves_partial_file plain_runtime
                    (host_answering 200 broken_stream) example_url _
                    [[Byte.x7b]] RequestException [Ok [Byte.x7d]]
                    eq_refl Hstream eq_refl)
             raw_folder "ocel.json" stale_filesystem eq_refl eq_refl).
Defined.

Lemma download_file_refused_witness :
  @refused (host_answering 404 []) example_url RequestException
  /\ @path_mkdir (host_answering 404 []) raw_folder stale_filesystem = Ok ()
  /\ @Ingest.download_file plain_runtime (host_answering 404 [])
       example_url raw_folder "ocel.json" stale_filesystem
     = (stale_filesystem, Raise RequestException).
Proof.
  assert (Hrefused : @refused (host_answering 404 []) example_url RequestException).
  { right. eexists. split; [reflexivity|]. split; [simpl; lia|reflexivity]. }
  split; [exact Hrefused|]. split; [reflexivity|].
  exact (proj1 (@download_file_refused plain_runtime (host_answering 404 [])
                  example_url RequestException Hrefused)
           raw_folder "ocel.json" stale_filesystem eq_refl).
Defined.

Lemma download_file_again_witness :
  @Ingest.download_file plain_runtime (host_serving two_chunks)
    example_url raw_folder "ocel.json" stale_filesystem
  = ({[ ocel_path := [Byte.x7b; Byte.x7d] ]}, Ok (RetStr ocel_path))
  /\ @requests_get (host_answering 200 [Ok [Byte.x7b]; Ok [Byte.x7d]]) example_url
     = @requests_get (host_serving two_chunks) example_url
  /\ @Ingest.download_file plain_runtime
       (host_answering 200 [Ok [Byte.x7b]; Ok [Byte.x7d]])
       example_url raw_folder "ocel.json" {[ ocel_path := [Byte.x7b; Byte.x7d] ]}
     = ({[ ocel_path := [Byte.x7b; Byte.x7d] ]}, Ok (RetStr ocel_path))
  /\ @Ingest.download_file plain_runtime (host_serving one_chunk)
       example_url raw_folder "ocel.json" {[ ocel_path := [Byte.x7b; Byte.x7d] ]}
     = (<[os_path_join raw_folder "ocel.json" := [Byte.x5b; Byte.x5d]]>
          {[ ocel_path := [Byte.x7b; Byte.x7d] ]}, Ok (RetStr ocel_path)).
Proof.
  assert (Hrun :
    @Ingest.download_file plain_runtime (host_serving two_chunks)
      example_url raw_folder "ocel.json" stale_filesystem
    = ({[ ocel_path := [Byte.x7b; Byte.x7d] ]}, Ok (RetStr ocel_path)))
    by (vm_compute; reflexivity).
  split; [exact Hrun|]. split; [reflexivity|]. split.
  - exact (proj1 (@download_file_again plain_runtime (host_serving two_chunks)
                    (host_answering 200 [Ok [Byte.x7b]; Ok [Byte.x7d]])
                    example_url raw_folder "ocel.json" stale_filesystem _ _
                    Hrun eq_refl eq_refl) eq_refl).
  - apply (proj2 (@download_file_again plain_runtime (host_serving two_chunks)
                    (host_serving one_chunk)
                    example_url raw_folder "ocel.json" stale_filesystem _ _
                    Hrun eq_refl eq_refl)
             {| status_code := 200; content_length := None;
                iter_content := Ok <$> one_chunk |} one_chunk).
    + reflexivity.
    + split; [simpl; lia|]. exists 0%Z. reflexivity.
    + reflexivity.
Defined.

(** ** More on the rows of the tables *)

Section MoreRows.
Context {RT : PyRuntime}.

Lemma parent_rows_unfold (p : parent) (doc : pyval) :
  parent_rows p doc = xs ← elements doc (parent_key p); mapM (parent_row p) xs.
Proof.
  destruct p; simpl; [apply objects_rows_unfold|].
  unfold Schema.events_rows, elements.
  destruct (_ ≫= py_iter); simpl; [|reflexivity].
  rewrite for_each_append. destruct (mapM _ _); reflexivity.
Qed.

Lemma parent_row_id (p : parent) (x : pyval) (o : row) :
  parent_row p x = Ok o ->
  exists id, py_getitem x "id" = Ok id /\ dict_lookup (id_column p) o = Some id.
Proof.
  destruct p; simpl; unfold Schema.object_row, Schema.event_row;
    (destruct (py_getitem x "id") as [id|]; simpl; [|discriminate]);
    (destruct (py_getitem x "type"); simpl; [|discriminate]).
  - intros [= <-]. eauto.
  - destruct (py_getitem x "time"); simpl; [|discriminate].
    intros [= <-]. eauto.
Qed.

Lemma nested_row_parent_column (p : parent) (n : nested) (id y : pyval) (r : row) :
  nested_row p n id y = Ok r ->
  dict_lookup (parent_column p n) r = Some id.
Proof.
  destruct n; [intros Hrow; apply nested_row_attribute in Hrow as [Hcol _]; exact Hcol|].
  destruct p; simpl;
    unfold Schema.object_relationship_row, Schema.event_object_relationship_row;
    (destruct (py_getitem y "objectId"); simpl; [|discriminate]);
    (destruct (py_get y "qualifier" (PStr "")); simpl; [|discriminate]);
    intros [= <-]; reflexivity.
Qed.

(** The row of a relationship: its target is the ['objectId'] of the
    element, its qualifier the value of the key when there is one. *)
Lemma nested_row_relationship (p : parent) (id rel : pyval) (r : row) :
  nested_row p Relationships id rel = Ok r ->
  exists target,
    py_getitem rel "objectId" = Ok target
    /\ dict_lookup (target_column p) r = Some target
    /\ forall q, py_getitem rel "qualifier" = Ok q ->
         dict_lookup "qualifier" r = Some q.
Proof.
  destruct rel as [| | | | | |items]; try (destruct p; discriminate).
  destruct p; simpl;
    unfold Schema.object_relationship_row, Schema.event_object_relationship_row;
    simpl;
    (destruct (dict_lookup "objectId" items) as [target|]; simpl; [|discriminate]);
    (destruct (dict_lookup "qualifier" items) as [q'|]; simpl);
    intros [= <-]; exists target; (split; [reflexivity|]);
    (split; [reflexivity|]); intros q [= <-]; reflexivity.
Qed.

Lemma nested_row_columns (p : parent) (n : nested) (id y : pyval) (r : row) :
  nested_row p n id y = Ok r -> r.*1 = table_columns (nested_table p n).
Proof.
  destruct p, n; simpl;
    unfold Schema.object_attribute_row, Schema.object_relationship_row,
      Schema.event_attribute_row, Schema.event_object_relationship_row;
    repeat match goal with
      | |- context [mbind _ ?m] =>
          lazymatch m with
          | Ok _ => fail
          | _ => destruct m; simpl; [|discriminate]
          end
      end;
    intros [= <-]; reflexivity.
Qed.

Lemma parent_row_columns (p : parent) (x : pyval) (o : row) :
  parent_row p x = Ok o -> o.*1 = table_columns (parent_table p).
Proof.
  destruct p; simpl; unfold Schema.object_row, Schema.event_row;
    repeat match goal with
      | |- context [mbind _ ?m] =>
          lazymatch m with
          | Ok _ => fail
          | _ => destruct m; simpl; [|discriminate]
          end
      end;
    intros [= <-]; reflexivity.
Qed.

Lemma type_row_columns (p : parent) (name y : pyval) (r : row) :
  type_row p name y = Ok r ->
  r.*1 = table_columns (type_table p)
  /\ dict_lookup (type_name_column p) r = Some name.
Proof.
  destruct p; simpl; unfold Schema.object_type_row, Schema.event_type_row;
    (destruct (py_getitem y "name"); simpl; [|discriminate]);
    (destruct (py_getitem y "type"); simpl; [|discriminate]);
    intros [= <-]; split; reflexivity.
Qed.

Lemma Forall2_with_elem_of {A B} (P : A -> B -> Prop) (l : list A) (k : list B) :
  Forall2 P l k -> Forall2 (fun x y => x ∈ l /\ P x y) l k.
Proof.
  intros Hall.
  enough (Hgen : forall all : list A, (forall x, x ∈ l -> x ∈ all) ->
    Forall2 (fun x y => x ∈ all /\ P x y) l k) by (apply Hgen; auto).
  intros all. induction Hall as [|x y l' k' Hxy _ IH]; intros Hsub;
    constructor.
  - split; [apply Hsub; left|exact Hxy].
  - apply IH. intros x' Hx'. apply Hsub. right. exact Hx'.
Qed.

(** The rows of a type table, row by row. *)
Lemma types_rows_pointwise (p : parent) (doc : pyval) (rows : list row) :
  types_rows p doc = Ok rows ->
  exists xs,
    elements doc (types_key p) = Ok xs
    /\ Forall2 (fun y r =>
         exists x name,
           x ∈ xs /\ py_getitem x "name" = Ok name
           /\ y ∈ or_nil (type_attributes x)
           /\ type_row p name y = Ok r)
         (all_type_attributes xs) rows.
Proof.
  rewrite types_rows_unfold.
  destruct (elements doc (types_key p)) as [xs|]; simpl; [|discriminate].
  destruct (mapM (rows_of_type p) xs) as [rss|] eqn:Hrss; simpl; [|discriminate].
  intros [= <-]. exists xs. split; [reflexivity|].
  apply mapM_Ok in Hrss.
  enough (Hgen : forall all : list pyval,
    (forall x, x ∈ xs -> x ∈ all) ->
    Forall2 (fun y r =>
      exists x name,
        x ∈ all /\ py_getitem x "name" = Ok name
        /\ y ∈ or_nil (type_attributes x)
        /\ type_row p name y = Ok r)
      (all_type_attributes xs) (concat rss)) by (apply Hgen; auto).
  intros all.
  induction Hrss as [|x rs xs' rss' Hx _ IH]; intros Hsub; [constructor|].
  unfold all_type_attributes. rewrite bind_cons. simpl.
  apply Forall2_app; [|apply IH; intros x' Hx'; apply Hsub; right; exact Hx'].
  unfold rows_of_type in Hx.
  destruct (py_getitem x "name") as [name|] eqn:Hname; simpl in Hx; [|discriminate].
  destruct (py_getitem x "attributes" ≫= py_iter) as [ys|] eqn:Hys;
    simpl in Hx; [|discriminate].
  apply mapM_Ok in Hx.
  replace (or_nil (type_attributes x)) with ys
    by (unfold type_attributes; rewrite Hys; reflexivity).
  eapply Forall2_impl; [apply Forall2_with_elem_of; exact Hx|].
  intros y r [Hy Hr]. exists x, name. split; [apply Hsub; left|].
  split; [exact Hname|]. split; [|exact Hr].
  unfold type_attributes. rewrite Hys. exact Hy.
Qed.

End MoreRows.

(** ** More on the tables *)

Section MoreTables.
Context {RT : PyRuntime} {WS : Workspace}.

Lemma parent_method_Ok (p : parent) (self : Schema.OCELUCSchema) (doc : pyval)
    (st st' : metastore) :
  parent_method p self doc st = (st', Ok ()) ->
  exists df,
    parent_rows p doc = Ok (df_rows df)
    /\ df_rows df ≠ []
    /\ st' = <[table_name self (parent_table p) := df]> st.
Proof.
  intros Hrun.
  destruct p; simpl in *;
    apply build_and_save_Ok in Hrun as (rs & df & Hrs & Hdf & ->);
    exists df; rewrite (createDataFrame_rows _ _ Hdf);
    (split; [exact Hrs|]); (split; [|reflexivity]);
    intros ->; discriminate Hdf.
Qed.


(** X10. Each of the four nested tables has one row per nested element of
    the document, and the parent identifier of each row is the identifier
    of a row of the objects table, or of the events table, of the same
    document. *)
Theorem nested_table_references (p : parent) (n : nested)
    (self : Schema.OCELUCSchema) (doc : pyval) (st st' : metastore) :
  nested_method p n self doc st = (st', Ok ()) ->
  exists df xs,
    st' !! table_name self (nested_table p n) = Some df
    /\ elements doc (parent_key p) = Ok xs
    /\ length (df_rows df) = length (all_nested n xs)
    /\ forall st0 st1 : metastore,
         parent_method p self doc st0 = (st1, Ok ()) ->
         exists parent_df,
           st1 !! table_name self (parent_table p) = Some parent_df
           /\ length (df_rows parent_df) = length xs
           /\ forall r, r ∈ df_rows df ->
                exists o, o ∈ df_rows parent_df
                  /\ is_Some (dict_lookup (parent_column p n) r)
                  /\ dict_lookup (id_column p) o
                     = dict_lookup (parent_column p n) r.
Proof.
  intros Hrun. apply nested_method_Ok in Hrun as (df & Hrows & ->).
  apply nested_rows_pointwise in Hrows as (xs & Hxs & Hall).
  exists df, xs. split; [apply lookup_insert_eq|]. split; [exact Hxs|].
  split; [symmetry; eapply Forall2_length; exact Hall|].
  intros st0 st1 Hparent.
  apply parent_method_Ok in Hparent as (pdf & Hprows & _ & ->).
  rewrite parent_rows_unfold, Hxs in Hprows. simpl in Hprows.
  apply mapM_Ok in Hprows.
  exists pdf. split; [apply lookup_insert_eq|].
  split; [symmetry; eapply Forall2_length; exact Hprows|].
  intros r Hr.
  destruct (Forall2_elem_of_r _ _ _ _ Hall Hr) as (y & _ & x & id & Hx & Hid & Hrow).
  apply nested_row_parent_column in Hrow.
  destruct (Forall2_elem_of_l _ _ _ _ Hprows Hx) as (o & Ho & Hobj).
  apply parent_row_id in Hobj as (id' & Hid' & Hcol).
  exists o. split; [exact Ho|]. rewrite Hrow. split; [eauto|].
  rewrite Hcol. congruence.
Qed.

(** X11. A relationship row names the object the element names under
    ['objectId'], and a qualifier that is present is stored as it is, a
    [null] included: only an absent qualifier becomes the empty string. *)
Theorem relationship_rows (p : parent) (self : Schema.OCELUCSchema)
    (doc : pyval) (st st' : metastore) :
  nested_method p Relationships self doc st = (st', Ok ()) ->
  exists df xs,
    st' !! table_name self (nested_table p Relationships) = Some df
    /\ elements doc (parent_key p) = Ok xs
    /\ Forall2 (fun rel r =>
         exists target,
           py_getitem rel "objectId" = Ok target
           /\ dict_lookup (target_column p) r = Some target
           /\ forall q, py_getitem rel "qualifier" = Ok q ->
                dict_lookup "qualifier" r = Some q)
       (all_nested Relationships xs) (df_rows df).
Proof.
  intros Hrun. apply nested_method_Ok in Hrun as (df & Hrows & ->).
  apply nested_rows_pointwise in Hrows as (xs & Hxs & Hall).
  exists df, xs. split; [apply lookup_insert_eq|]. split; [exact Hxs|].
  eapply Forall2_impl; [exact Hall|].
  intros rel r (x & id & _ & _ & Hrow).
  eapply nested_row_relationship. exact Hrow.
Qed.


(** X13. The objects table and the events table have one row per object
    or event, in the order of the document, each built from the keys of
    its element; a table that is saved is never empty. *)
Theorem parent_table_rows (p : parent) (self : Schema.OCELUCSchema)
    (doc : pyval) (st st' : metastore) :
  parent_method p self doc st = (st', Ok ()) ->
  exists df xs,
    st' !! table_name self (parent_table p) = Some df
    /\ elements doc (parent_key p) = Ok xs
    /\ xs ≠ []
    /\ Forall2 (fun x o => parent_row p x = Ok o) xs (df_rows df).
Proof.
  intros Hrun. apply parent_method_Ok in Hrun as (df & Hrows & Hne & ->).
  rewrite parent_rows_unfold in Hrows.
  destruct (elements doc (parent_key p)) as [xs|]; simpl in Hrows; [|discriminate].
  apply mapM_Ok in Hrows.
  exists df, xs. split; [apply lookup_insert_eq|]. split; [reflexivity|].
  split; [|exact Hrows].
  intros ->. apply Hne. inversion Hrows. reflexivity.
Qed.

(** X14. The three methods without a schema to fall back on raise
    [ValueError] and save nothing when they have no row: the objects
    table for a document without objects, the events table for one
    without events, the event_object_relationships table when no event
    has a relationship. *)
Theorem no_rows_no_table (self : Schema.OCELUCSchema) (doc : pyval)
    (st : metastore) :
  (forall p, elements doc (parent_key p) = Ok [] ->
     parent_method p self doc st = (st, Raise ValueError))
  /\ (forall xs,
        elements doc "events" = Ok xs ->
        Forall (fun x => is_ok_id x /\ nested_elements x "relationships" = Ok []) xs ->
        Schema._create_and_load_event_object_relationships_table self doc st
        = (st, Raise ValueError)).
Proof.
  split.
  - intros p Hxs.
    assert (Hrows : parent_rows p doc = Ok [])
      by (rewrite parent_rows_unfold, Hxs; reflexivity).
    destruct p; simpl in *; unfold Schema.create_and_load_objects_table,
      Schema._create_and_load_events_table, Schema.build_and_save;
      rewrite Hrows; reflexivity.
  - intros xs Hxs Hall.
    apply event_object_relationships_without_rows.
    change (nested_rows Event Relationships doc = Ok []).
    rewrite nested_rows_unfold. simpl. rewrite Hxs. simpl.
    assert (Hrss : mapM (rows_of_parent Event Relationships) xs
                   = Ok (replicate (length xs) [])).
    { apply mapM_Ok. clear Hxs. induction Hall as [|x xs' [[id Hid] Hnone] _ IH];
        [constructor|]. constructor; [|exact IH].
      unfold rows_of_parent. simpl. rewrite Hid, Hnone. reflexivity. }
    rewrite Hrss. simpl. f_equal.
    clear. induction (length xs) as [|k IH]; [reflexivity|exact IH].
Qed.

(** X15. An event without the key ['time'] stops the events table: the
    method raises [KeyError] for that key and saves nothing, however many
    well-formed events come before or after it. *)
Theorem event_without_time (self : Schema.OCELUCSchema) (doc : pyval)
    (before after : list pyval) (items : list (string * pyval))
    (rows : list row) (st : metastore) :
  elements doc "events" = Ok (before ++ PDict items :: after) ->
  mapM Schema.event_row before = Ok rows ->
  is_Some (dict_lookup "id" items) ->
  is_Some (dict_lookup "type" items) ->
  dict_lookup "time" items = None ->
  Schema._create_and_load_events_table self doc st
  = (st, Raise (KeyError "time")).
Proof.
  intros Hxs Hbefore [id Hid] [ty Hty] Htime.
  assert (Hrows : Schema.events_rows doc = Raise (KeyError "time")).
  { assert (Hrow : Schema.event_row (PDict items) = Raise (KeyError "time"))
      by (unfold Schema.event_row; simpl; rewrite Hid, Hty, Htime; reflexivity).
    change (parent_rows Event doc = Raise (KeyError "time")).
    rewrite parent_rows_unfold. simpl parent_key. rewrite Hxs.
    change (mapM (parent_row Event) (before ++ PDict items :: after)
            = Raise (KeyError "time")).
    rewrite mapM_app. simpl parent_row. rewrite Hbefore.
    change (mapM Schema.event_row (PDict items :: after))
      with (y ← Schema.event_row (PDict items);
            k ← mapM Schema.event_row after; Ok (y :: k)).
    rewrite Hrow. reflexivity. }
  unfold Schema._create_and_load_events_table, Schema.build_and_save.
  rewrite Hrows. reflexivity.
Qed.

End MoreTables.

Lemma nested_table_references_witness :
  order_run Event Relationships = ((order_run Event Relationships).1, Ok ())
  /\ order_parent_run Event = ((order_parent_run Event).1, Ok ())
  /\ exists df parent_df xs,
       (order_run Event Relationships).1
         !! table_name main_logistics (nested_table Event Relationships) = Some df
       /\ (order_parent_run Event).1
            !! table_name main_logistics (parent_table Event) = Some parent_df
       /\ elements order_document (parent_key Event) = Ok xs
       /\ length (df_rows df) = length (all_nested Relationships xs)
       /\ forall r, r ∈ df_rows df ->
            exists o, o ∈ df_rows parent_df
              /\ is_Some (dict_lookup (parent_column Event Relationships) r)
              /\ dict_lookup (id_column Event) o
                 = dict_lookup (parent_column Event Relationships) r.
Proof.
  assert (Hrun : order_run Event Relationships
                 = ((order_run Event Relationships).1, Ok ()))
    by (vm_compute; reflexivity).
  assert (Hparent : order_parent_run Event = ((order_parent_run Event).1, Ok ()))
    by (vm_compute; reflexivity).
  split; [exact Hrun|]. split; [exact Hparent|].
  destruct (@nested_table_references plain_runtime
              (workspace_holding order_document) Event Relationships
              main_logistics order_document ∅ _ Hrun)
    as (df & xs & Hsaved & Hxs & Hcount & Hreference).
  destruct (Hreference ∅ _ Hparent) as (parent_df & Hpsaved & _ & Href).
  exists df, parent_df, xs. repeat (split; [assumption|]). exact Href.
Defined.

Lemma relationship_rows_witness :
  null_qualifier_run
  = (<[table_name main_logistics "object_relationships"
       := {| df_schema := string_field
               <$> ["qualifier"; "source_object_id"; "target_object_id"];
             df_rows := null_qualifier_rows |}]> ∅, Ok ())
  /\ exists df xs,
       null_qualifier_run.1
         !! table_name main_logistics (nested_table Object Relationships) = Some df
       /\ elements null_qualifier_document (parent_key Object) = Ok xs
       /\ Forall2 (fun rel r =>
            exists target,
              py_getitem rel "objectId" = Ok target
              /\ dict_lookup (target_column Object) r = Some target
              /\ forall q, py_getitem rel "qualifier" = Ok q ->
                   dict_lookup "qualifier" r = Some q)
          (all_nested Relationships xs) (df_rows df).
Proof.
  assert (Hrun : null_qualifier_run = (null_qualifier_run.1, Ok ()))
    by (vm_compute; reflexivity).
  split; [vm_compute; reflexivity|].
  exact (@relationship_rows plain_runtime
           (workspace_holding null_qualifier_document) Object main_logistics
           null_qualifier_document ∅ _ Hrun).
Defined.

(** The qualifier that is [null] in the document is [None] in the row. *)
Example null_qualifier_row :
  Schema.object_relationships_rows null_qualifier_document
  = Ok null_qualifier_rows.
Proof. reflexivity. Qed.

(** When every qualifier of the table is [null], Spark has no type for
    the column and the method raises. *)
Example null_qualifiers_only_raise :
  @nested_method plain_runtime (workspace_holding null_qualifiers_only_document)
    Object Relationships main_logistics null_qualifiers_only_document ∅
  = (∅, Raise ValueError).
Proof. vm_compute. reflexivity. Qed.


Lemma parent_table_rows_witness :
  order_parent_run Event = ((order_parent_run Event).1, Ok ())
  /\ exists df xs,
       (order_parent_run Event).1
         !! table_name main_logistics (parent_table Event) = Some df
       /\ elements order_document (parent_key Event) = Ok xs
       /\ xs ≠ []
       /\ Forall2 (fun x o => parent_row Event x = Ok o) xs (df_rows df).
Proof.
  assert (Hrun : order_parent_run Event = ((order_parent_run Event).1, Ok ()))
    by (vm_compute; reflexivity).
  split; [exact Hrun|].
  exact (@parent_table_rows (workspace_holding order_document) Event
           main_logistics order_document ∅ _ Hrun).
Defined.

Lemma no_rows_no_table_witness :
  (elements empty_log_document (parent_key Object) = Ok []
   /\ @parent_method (workspace_holding empty_log_document) Object
        main_logistics empty_log_document ∅
      = (∅, Raise ValueError))
  /\ (elements minimal_document "events"
      = Ok [ PDict [ ("id", PStr "e1"); ("type", PStr "place");
                     ("time", PStr "2024-01-01T00:00:00Z") ] ]
      /\ Forall (fun x => is_ok_id x /\ nested_elements x "relationships" = Ok [])
           [ PDict [ ("id", PStr "e1"); ("type", PStr "place");
                     ("time", PStr "2024-01-01T00:00:00Z") ] ]
      /\ @Schema._create_and_load_event_object_relationships_table
           (workspace_holding minimal_document)
           main_logistics minimal_document ∅
         = (∅, Raise ValueError)).
Proof.
  assert (Hall :
    Forall (fun x => is_ok_id x /\ nested_elements x "relationships" = Ok [])
      [ PDict [ ("id", PStr "e1"); ("type", PStr "place");
                ("time", PStr "2024-01-01T00:00:00Z") ] ]).
  { repeat constructor. eexists. reflexivity. }
  split.
  - split; [reflexivity|].
    exact (proj1 (@no_rows_no_table plain_runtime
                    (workspace_holding empty_log_document) main_logistics
                    empty_log_document ∅) Object eq_refl).
  - split; [reflexivity|]. split; [exact Hall|].
    exact (proj2 (@no_rows_no_table plain_runtime
                    (workspace_holding minimal_document) main_logistics
                    minimal_document ∅) _ eq_refl Hall).
Defined.

Lemma event_without_time_witness :
  elements timeless_document "events" = Ok ([event_e1] ++ PDict timeless_items :: [])
  /\ mapM Schema.event_row [event_e1]
     = Ok [ [ ("event_id", PStr "e1"); ("event_type", PStr "place");
              ("event_time", PStr "2024-01-01T00:00:00Z") ] ]
  /\ is_Some (dict_lookup "id" timeless_items)
  /\ is_Some (dict_lookup "type" timeless_items)
  /\ dict_lookup "time" timeless_items = None
  /\ @Schema._create_and_load_events_table (workspace_holding timeless_document)
       main_logistics timeless_document ∅
     = (∅, Raise (KeyError "time")).
Proof.
  assert (Hid : is_Some (dict_lookup "id" timeless_items)) by (eexists; reflexivity).
  assert (Hty : is_Some (dict_lookup "type" timeless_items)) by (eexists; reflexivity).
  split; [reflexivity|]. split; [reflexivity|]. split; [exact Hid|].
  split; [exact Hty|]. split; [reflexivity|].
  exact (@event_without_time (workspace_holding timeless_document) main_logistics
           timeless_document [event_e1] [] timeless_items _ ∅
           eq_refl eq_refl Hid Hty eq_refl).
Defined.

(** ** More on calls *)

Section MoreCalls.
Context {RT : PyRuntime} {WS : Workspace}.

Lemma nested_rows_columns (p : parent) (n : nested) (doc : pyval)
    (rows : list row) :
  nested_rows p n doc = Ok rows ->
  Forall (fun r => r.*1 = table_columns (nested_table p n)) rows.
Proof.
  intros Hrows. apply nested_rows_pointwise in Hrows as (xs & _ & Hall).
  induction Hall as [|y r ys rs (x & id & _ & _ & Hrow) _ IH]; constructor;
    [eapply nested_row_columns; exact Hrow|exact IH].
Qed.

Lemma types_rows_columns (p : parent) (doc : pyval) (rows : list row) :
  types_rows p doc = Ok rows ->
  Forall (fun r => r.*1 = table_columns (type_table p)) rows.
Proof.
  intros Hrows. apply types_rows_pointwise in Hrows as (xs & _ & Hall).
  induction Hall as [|y r ys rs (x & name & _ & _ & _ & Hrow) _ IH]; constructor;
    [apply type_row_columns in Hrow as [Hcols _]; exact Hcols|exact IH].
Qed.

Lemma parent_rows_columns (p : parent) (doc : pyval) (rows : list row) :
  parent_rows p doc = Ok rows ->
  Forall (fun r => r.*1 = table_columns (parent_table p)) rows.
Proof.
  rewrite parent_rows_unfold.
  destruct (elements doc (parent_key p)) as [xs|]; simpl; [|discriminate].
  intros Hrows. apply mapM_Ok in Hrows.
  induction Hrows as [|x o xs' rows' Hrow _ IH]; constructor;
    [eapply parent_row_columns; exact Hrow|exact IH].
Qed.

Lemma dataframe_or_empty_schema (rows : list row) (columns : list string)
    (df : DataFrame) :
  Schema.dataframe_or_empty rows columns = Ok df ->
  df_rows df = [] ->
  field_name <$> df_schema df = columns.
Proof.
  unfold Schema.dataframe_or_empty. destruct rows as [|r rows].
  - intros [= <-] _. simpl. rewrite <- list_fmap_compose.
    induction columns as [|c columns IH]; [reflexivity|].
    simpl. f_equal. exact IH.
  - intros Hdf Hnil. apply createDataFrame_rows in Hdf. congruence.
Qed.

Lemma createDataFrame_not_empty (rows : list row) (df : DataFrame) :
  createDataFrame rows = Ok df -> df_rows df ≠ [].
Proof.
  intros Hdf Hnil. pose proof (createDataFrame_rows _ _ Hdf) as Hrows.
  rewrite Hnil in Hrows. subst rows. discriminate Hdf.
Qed.

Ltac defined_method Hlookup :=
  unfold Schema.class_methods in Hlookup; cbn [dict_lookup] in Hlookup;
  repeat match type of Hlookup with
    | (if String.eqb ?a ?b then _ else _) = _ =>
        destruct (String.eqb_spec a b) as [->|_];
          [injection Hlookup as <-|]
    end;
  [..|discriminate Hlookup].

Lemma createDataFrame_inferred (rows : list row) (df : DataFrame) :
  createDataFrame rows = Ok df -> infer_schema (df_rows df) = Ok (df_schema df).
Proof.
  unfold createDataFrame. destruct rows as [|r rows]; [discriminate|].
  destruct (infer_schema (r :: rows)) as [schema|] eqn:Hschema; [|discriminate].
  intros [= <-]. exact Hschema.
Qed.

Lemma dataframe_or_empty_inferred (rows : list row) (columns : list string)
    (df : DataFrame) :
  Schema.dataframe_or_empty rows columns = Ok df ->
  df_rows df ≠ [] ->
  infer_schema (df_rows df) = Ok (df_schema df).
Proof.
  unfold Schema.dataframe_or_empty. destruct rows as [|r rows].
  - intros [= <-] Hne. contradiction.
  - intros Hdf _. eapply createDataFrame_inferred. exact Hdf.
Qed.

Lemma typed_fields_names (keys : list string) :
  forall (types : list (option DataType)) (schema : StructType),
    length types = length keys ->
    typed_fields keys types = Ok schema ->
    field_name <$> schema = keys.
Proof.
  induction keys as [|k keys IH]; intros types schema Hlen.
  - destruct types; [|discriminate]. intros [= <-]. reflexivity.
  - destruct types as [|[t|] types]; [discriminate| |discriminate].
    cbn [typed_fields].
    destruct (typed_fields keys types) as [fields|] eqn:Hfields; [|discriminate].
    intros [= <-]. simpl. f_equal. eapply IH; [|exact Hfields].
    simpl in Hlen. congruence.
Qed.

(** The columns of the schema inferred in the way of PySpark are the keys
    of the rows, sorted. *)
Lemma infer_like_pyspark_names (rows : list row) (columns : list string)
    (schema : StructType) :
  rows ≠ [] ->
  Forall (fun r => r.*1 = columns) rows ->
  infer_like_pyspark rows = Ok schema ->
  field_name <$> schema = inferred_columns columns.
Proof.
  intros Hne Hcols. destruct rows as [|r rows]; [contradiction|].
  apply Forall_cons_1 in Hcols as [Hr _].
  unfold infer_like_pyspark, inferred_columns.
  change (default [] (head (r :: rows))) with r. unfold sorted_keys. cbv zeta.
  rewrite Hr.
  destruct (mapM _ (foldr insert_key [] columns)) as [types|] eqn:Htypes;
    [|discriminate].
  apply mapM_Ok, Forall2_length in Htypes. cbn [mbind result_bind].
  apply typed_fields_names. symmetry. exact Htypes.
Qed.

(** X16. The rows a method of the class hands to Spark are dicts with
    exactly the keys of its table, in the order the method writes them.
    A table saved without rows has these names, in this order, as its
    columns; a table saved with rows has the schema Spark infers from
    them, whose columns, with the inference of PySpark, are these names
    sorted. *)
Theorem saved_rows_have_the_columns (self : Schema.OCELUCSchema)
    (name : string) (doc : pyval) (st st' : metastore) :
  name ∈ defined_calls ->
  Schema.call_method self name doc st = (st', Ok ()) ->
  exists table df,
    written_table name = Some table
    /\ st' !! table_name self table = Some df
    /\ Forall (fun r => r.*1 = table_columns table) (df_rows df)
    /\ (df_rows df = [] -> field_name <$> df_schema df = table_columns table)
    /\ (df_rows df ≠ [] -> infer_schema (df_rows df) = Ok (df_schema df))
    /\ ((forall rows, infer_schema rows = infer_like_pyspark rows) ->
        df_rows df ≠ [] ->
        field_name <$> df_schema df = inferred_columns (table_columns table)).
Proof.
  intros _ Hcall.
  enough (Hmain : exists table df,
    written_table name = Some table
    /\ st' !! table_name self table = Some df
    /\ Forall (fun r => r.*1 = table_columns table) (df_rows df)
    /\ (df_rows df = [] -> field_name <$> df_schema df = table_columns table)
    /\ (df_rows df ≠ [] -> infer_schema (df_rows df) = Ok (df_schema df))).
  { destruct Hmain as (table & df & Htable & Hsaved & Hcols & Hempty & Hinferred).
    exists table, df. repeat (split; [assumption|]).
    intros Hlike Hne. eapply infer_like_pyspark_names; [exact Hne|exact Hcols|].
    rewrite <- Hlike. apply Hinferred. exact Hne. }
  revert Hcall. unfold Schema.call_method.
  destruct (dict_lookup name Schema.class_methods) as [method|] eqn:Hlookup;
    [|destruct (existsb _ _); discriminate].
  defined_method Hlookup; intros Hrun;
    apply build_and_save_Ok in Hrun as (rs & df & Hrs & Hdf & ->);
    eexists _, df; (split; [reflexivity|]); (split; [apply lookup_insert_eq|]);
    (split;
     [ first [ rewrite (dataframe_or_empty_rows _ _ _ Hdf)
             | rewrite (createDataFrame_rows _ _ Hdf) ];
       first [ exact (types_rows_columns Object _ _ Hrs)
             | exact (types_rows_columns Event _ _ Hrs)
             | exact (parent_rows_columns Object _ _ Hrs)
             | exact (parent_rows_columns Event _ _ Hrs)
             | exact (nested_rows_columns Object Attributes _ _ Hrs)
             | exact (nested_rows_columns Object Relationships _ _ Hrs)
             | exact (nested_rows_columns Event Attributes _ _ Hrs)
             | exact (nested_rows_columns Event Relationships _ _ Hrs) ]
     | split;
       [ first [ exact (dataframe_or_empty_schema _ _ _ Hdf)
               | intros Hnil; destruct (createDataFrame_not_empty _ _ Hdf Hnil) ]
       | first [ exact (dataframe_or_empty_inferred _ _ _ Hdf)
               | intros _; exact (createDataFrame_inferred _ _ Hdf) ] ] ]).
Qed.

(** X17. The conversion never completes: whatever the path and the
    document, it raises, and the only tables it can have changed are the
    two type tables. *)
Theorem conversion_never_completes (self : Schema.OCELUCSchema)
    (json_path : string) (st : metastore) :
  exists e,
    (Schema.write_ocel_json_to_schema self json_path st).2 = Raise e
    /\ forall t : string,
         t ≠ table_name self "object_types" ->
         t ≠ table_name self "event_types" ->
         (Schema.write_ocel_json_to_schema self json_path st).1 !! t = st !! t.
Proof.
  unfold Schema.write_ocel_json_to_schema.
  destruct (Schema._load_ocel_json json_path) as [doc|e]; [|exists e; auto].
  unfold and_then.
  destruct (Schema.call_method self "_create_and_load_object_types_table" doc st)
    as [st1 [[]|e1]] eqn:Hcall1.
  - destruct (call_method_Ok _ _ _ _ _ Hcall1) as (t1 & df1 & Ht1 & -> & _).
    injection Ht1 as <-.
    destruct (Schema.call_method self "_create_and_load_event_types_table" doc _)
      as [st2 [[]|e2]] eqn:Hcall2.
    + destruct (call_method_Ok _ _ _ _ _ Hcall2) as (t2 & df2 & Ht2 & -> & _).
      injection Ht2 as <-. rewrite objects_call_raises. eexists.
      split; [reflexivity|]. intros t Hne1 Hne2. simpl.
      rewrite !lookup_insert_ne by congruence. reflexivity.
    + apply call_method_Raise in Hcall2 as ->. exists e2.
      split; [reflexivity|]. intros t Hne1 Hne2. simpl.
      rewrite lookup_insert_ne by congruence. reflexivity.
  - apply call_method_Raise in Hcall1 as ->. exists e1. auto.
Qed.

(** X18. A call of a method of the class that returns has replaced one
    table, the one of its method, and no other; what the table holds afterwards depends on the
    document only, not on what the metastore held. *)
Theorem call_replaces_one_table (self : Schema.OCELUCSchema) (name : string)
    (doc : pyval) (st st' : metastore) :
  name ∈ defined_calls ->
  Schema.call_method self name doc st = (st', Ok ()) ->
  exists table df,
    written_table name = Some table
    /\ st' !! table_name self table = Some df
    /\ (forall t, t ≠ table_name self table -> st' !! t = st !! t)
    /\ forall st0 st0' : metastore,
         Schema.call_method self name doc st0 = (st0', Ok ()) ->
         st0' !! table_name self table = Some df.
Proof.
  intros _ Hcall.
  destruct (call_method_Ok _ _ _ _ _ Hcall) as (table & df & Htable & -> & Hsame).
  exists table, df. split; [exact Htable|]. split; [apply lookup_insert_eq|].
  split.
  - intros t Hne. apply lookup_insert_ne. congruence.
  - intros st0 st0' Hcall0. rewrite (Hsame _ _ Hcall0). apply lookup_insert_eq.
Qed.

(** X19. Two calls of methods of the class can be swapped: when both
    orders return, they leave the same metastore. *)
Theorem calls_commute (self : Schema.OCELUCSchema) (name1 name2 : string)
    (doc : pyval) (st st12 st21 : metastore) :
  name1 ∈ defined_calls ->
  name2 ∈ defined_calls ->
  call_in_order self [name1; name2] doc st = (st12, Ok ()) ->
  call_in_order self [name2; name1] doc st = (st21, Ok ()) ->
  st12 = st21.
Proof.
  intros _ _. simpl. unfold and_then.
  destruct (Schema.call_method self name1 doc st) as [sa [[]|?]] eqn:H1;
    [|discriminate].
  destruct (Schema.call_method self name2 doc sa) as [sb [[]|?]] eqn:H2;
    [|discriminate].
  intros [= <-].
  destruct (Schema.call_method self name2 doc st) as [sc [[]|?]] eqn:H3;
    [|discriminate].
  destruct (Schema.call_method self name1 doc sc) as [sd [[]|?]] eqn:H4;
    [|discriminate].
  intros [= <-].
  destruct (call_method_Ok _ _ _ _ _ H1) as (t1 & df1 & Ht1 & -> & Hsame1).
  destruct (call_method_Ok _ _ _ _ _ H3) as (t2 & df2 & Ht2 & -> & Hsame2).
  rewrite (Hsame2 _ _ H2), (Hsame1 _ _ H4).
  destruct (decide (t1 = t2)) as [->|Hne].
  - pose proof (written_table_inj _ _ _ Ht1 Ht2) as ->.
    assert (df1 = df2) as ->.
    { pose proof (Hsame2 _ _ H1) as Heq.
      apply (f_equal (fun m : metastore => m !! table_name self t2)) in Heq.
      rewrite !lookup_insert_eq in Heq. congruence. }
    reflexivity.
  - apply insert_insert_ne. intros Heq. apply Hne.
    eapply table_name_inj. symmetry. exact Heq.
Qed.

Lemma call_in_order_saves (self : Schema.OCELUCSchema) (doc : pyval)
    (names : list string) :
  forall st st' : metastore,
    call_in_order self names doc st = (st', Ok ()) ->
    forall name, name ∈ names ->
      exists table df,
        written_table name = Some table
        /\ st' !! table_name self table = Some df.
Proof.
  induction names as [|name' names IH]; intros st st' Hrun name Hin;
    [inversion Hin|].
  simpl in Hrun. unfold and_then in Hrun.
  destruct (Schema.call_method self name' doc st) as [st1 [[]|?]] eqn:Hcall;
    [|discriminate].
  apply elem_of_cons in Hin as [->|Hin]; [|exact (IH _ _ Hrun _ Hin)].
  destruct (call_method_Ok _ _ _ _ _ Hcall) as (table & df & Htable & -> & Hsame).
  exists table, df. split; [exact Htable|].
  eapply call_in_order_keeps; [exact Htable|exact Hsame|exact Hrun|].
  apply lookup_insert_eq.
Qed.

(** X20. When the eight methods the class defines are called one after
    the other and all return, the eight tables are in the metastore. *)
Theorem all_tables_saved (self : Schema.OCELUCSchema) (doc : pyval)
    (st st' : metastore) :
  call_in_order self defined_calls doc st = (st', Ok ()) ->
  Forall (fun table => is_Some (st' !! table_name self table)) all_tables.
Proof.
  intros Hrun.
  assert (Hsaved : forall name table,
    name ∈ defined_calls -> written_table name = Some table ->
    is_Some (st' !! table_name self table)).
  { intros name table Hin Htable.
    destruct (call_in_order_saves _ _ _ _ _ Hrun name Hin)
      as (table' & df & Htable' & Hlookup).
    rewrite Htable in Htable'. injection Htable' as <-. eauto. }
  assert (Hin : forall name, In name defined_calls -> name ∈ defined_calls)
    by (intros name; apply list_elem_of_In).
  unfold all_tables. repeat apply Forall_cons_2; [..|apply Forall_nil_2].
  - apply (Hsaved "_create_and_load_object_types_table");
      [apply Hin; simpl; tauto|reflexivity].
  - apply (Hsaved "_create_and_load_event_types_table");
      [apply Hin; simpl; tauto|reflexivity].
  - apply (Hsaved "create_and_load_objects_table");
      [apply Hin; simpl; tauto|reflexivity].
  - apply (Hsaved "_create_and_load_attributes_table");
      [apply Hin; simpl; tauto|reflexivity].
  - apply (Hsaved "_create_and_load_object_relationships_table");
      [apply Hin; simpl; tauto|reflexivity].
  - apply (Hsaved "_create_and_load_events_table");
      [apply Hin; simpl; tauto|reflexivity].
  - apply (Hsaved "_create_and_load_event_attributes_table");
      [apply Hin; simpl; tauto|reflexivity].
  - apply (Hsaved "_create_and_load_event_object_relationships_table");
      [apply Hin; simpl; tauto|reflexivity].
Qed.

End MoreCalls.

Lemma parse_uc_file_path_five_slashes_witness :
  (str_count "/" ocel_path = 5
   /\ exists a b c s v f,
        str_split "/" ocel_path = [a; b; c; s; v; f]
        /\ Importer.parse_uc_file_path ocel_path
           = Ok [ ("catalog", c); ("schema", s); ("volume", v);
                  ("file_name", f) ])
  /\ (str_count "/" "/Volumes/main/raw/ocel.json" ≠ 5
      /\ Importer.parse_uc_file_path "/Volumes/main/raw/ocel.json"
         = Raise ValueError)
  /\ (str_count "/" "/Volumes/main/logistics/raw/2024/ocel.json" ≠ 5
      /\ Importer.parse_uc_file_path "/Volumes/main/logistics/raw/2024/ocel.json"
         = Raise ValueError).
Proof.
  assert (Hfour : str_count "/" "/Volumes/main/raw/ocel.json" ≠ 5)
    by (vm_compute; lia).
  assert (Hsix : str_count "/" "/Volumes/main/logistics/raw/2024/ocel.json" ≠ 5)
    by (vm_compute; lia).
  split; [|split].
  - split; [reflexivity|].
    exact (proj1 (proj2 (parse_uc_file_path_five_slashes ocel_path)) eq_refl).
  - split; [exact Hfour|].
    exact (proj2 (proj2 (parse_uc_file_path_five_slashes _)) Hfour).
  - split; [exact Hsix|].
    exact (proj2 (proj2 (parse_uc_file_path_five_slashes _)) Hsix).
Defined.

Lemma saved_rows_have_the_columns_witness :
  "_create_and_load_attributes_table" ∈ defined_calls
  /\ order_call "_create_and_load_attributes_table" ∅
     = (<[table_name main_logistics "object_attributes"
          := {| df_schema := string_field
                  <$> ["attribute_name"; "attribute_time"; "attribute_value";
                       "object_id"];
                df_rows := order_attribute_rows |}]> ∅, Ok ())
  /\ inferred_columns (table_columns "object_attributes")
     = ["attribute_name"; "attribute_time"; "attribute_value"; "object_id"]
  /\ inferred_columns (table_columns "events")
     = ["event_id"; "event_time"; "event_type"]
  /\ exists table df,
       written_table "_create_and_load_attributes_table" = Some table
       /\ (order_call "_create_and_load_attributes_table" ∅).1
            !! table_name main_logistics table = Some df
       /\ Forall (fun r => r.*1 = table_columns table) (df_rows df)
       /\ (df_rows df = [] -> field_name <$> df_schema df = table_columns table)
       /\ (df_rows df ≠ [] ->
           @infer_schema (workspace_holding order_document) (df_rows df)
           = Ok (df_schema df))
       /\ (df_rows df ≠ [] ->
           field_name <$> df_schema df = inferred_columns (table_columns table)).
Proof.
  assert (Hrun : order_call "_create_and_load_attributes_table" ∅
                 = ((order_call "_create_and_load_attributes_table" ∅).1, Ok ()))
    by (vm_compute; reflexivity).
  assert (Hin : "_create_and_load_attributes_table" ∈ defined_calls)
    by (apply list_elem_of_In; simpl; tauto).
  split; [exact Hin|]. split; [vm_compute; reflexivity|].
  split; [reflexivity|]. split; [reflexivity|].
  destruct (@saved_rows_have_the_columns plain_runtime
              (workspace_holding order_document) main_logistics
              "_create_and_load_attributes_table" order_document ∅ _ Hin Hrun)
    as (table & df & Htable & Hsaved & Hcols & Hempty & Hinferred & Hsorted).
  exists table, df. repeat (split; [assumption|]).
  apply Hsorted. intros rows. reflexivity.
Defined.

Lemma conversion_never_completes_witness :
  "main.logistics.objects" ≠ table_name main_logistics "object_types"
  /\ "main.logistics.objects" ≠ table_name main_logistics "event_types"
  /\ (@Schema.write_ocel_json_to_schema plain_runtime
        (workspace_holding minimal_document) main_logistics ocel_path ∅).1
       !! "main.logistics.objects"
     = (∅ : metastore) !! "main.logistics.objects".
Proof.
  assert (Hne1 : "main.logistics.objects" ≠ table_name main_logistics "object_types")
    by discriminate.
  assert (Hne2 : "main.logistics.objects" ≠ table_name main_logistics "event_types")
    by discriminate.
  split; [exact Hne1|]. split; [exact Hne2|].
  destruct (@conversion_never_completes plain_runtime
              (workspace_holding minimal_document) main_logistics ocel_path ∅)
    as (e & _ & Hother).
  exact (Hother _ Hne1 Hne2).
Defined.

Lemma call_replaces_one_table_witness :
  "create_and_load_objects_table" ∈ defined_calls
  /\ order_call "create_and_load_objects_table" stale_tables
     = ((order_call "create_and_load_objects_table" stale_tables).1, Ok ())
  /\ exists table df,
       written_table "create_and_load_objects_table" = Some table
       /\ (order_call "create_and_load_objects_table" stale_tables).1
            !! table_name main_logistics table = Some df
       /\ (forall t, t ≠ table_name main_logistics table ->
             (order_call "create_and_load_objects_table" stale_tables).1 !! t
             = stale_tables !! t)
       /\ forall st0 st0' : metastore,
            order_call "create_and_load_objects_table" st0 = (st0', Ok ()) ->
            st0' !! table_name main_logistics table = Some df.
Proof.
  assert (Hrun : order_call "create_and_load_objects_table" stale_tables
                 = ((order_call "create_and_load_objects_table" stale_tables).1,
                    Ok ()))
    by (vm_compute; reflexivity).
  assert (Hin : "create_and_load_objects_table" ∈ defined_calls)
    by (apply list_elem_of_In; simpl; tauto).
  split; [exact Hin|]. split; [exact Hrun|].
  exact (@call_replaces_one_table plain_runtime
           (workspace_holding order_document) main_logistics
           "create_and_load_objects_table" order_document stale_tables _ Hin Hrun).
Defined.

Lemma calls_commute_witness :
  "_create_and_load_events_table" ∈ defined_calls
  /\ "create_and_load_objects_table" ∈ defined_calls
  /\ order_calls [ "_create_and_load_events_table"; "create_and_load_objects_table" ]
     = ((order_calls [ "_create_and_load_events_table";
                       "create_and_load_objects_table" ]).1, Ok ())
  /\ order_calls [ "create_and_load_objects_table"; "_create_and_load_events_table" ]
     = ((order_calls [ "create_and_load_objects_table";
                       "_create_and_load_events_table" ]).1, Ok ())
  /\ (order_calls [ "_create_and_load_events_table";
                    "create_and_load_objects_table" ]).1
     = (order_calls [ "create_and_load_objects_table";
                      "_create_and_load_events_table" ]).1.
Proof.
  assert (H12 :
    order_calls [ "_create_and_load_events_table"; "create_and_load_objects_table" ]
    = ((order_calls [ "_create_and_load_events_table";
                      "create_and_load_objects_table" ]).1, Ok ()))
    by (vm_compute; reflexivity).
  assert (H21 :
    order_calls [ "create_and_load_objects_table"; "_create_and_load_events_table" ]
    = ((order_calls [ "create_and_load_objects_table";
                      "_create_and_load_events_table" ]).1, Ok ()))
    by (vm_compute; reflexivity).
  assert (Hin1 : "_create_and_load_events_table" ∈ defined_calls)
    by (apply list_elem_of_In; simpl; tauto).
  assert (Hin2 : "create_and_load_objects_table" ∈ defined_calls)
    by (apply list_elem_of_In; simpl; tauto).
  split; [exact Hin1|]. split; [exact Hin2|].
  split; [exact H12|]. split; [exact H21|].
  exact (@calls_commute plain_runtime (workspace_holding order_document)
           main_logistics _ _ order_document ∅ _ _ Hin1 Hin2 H12 H21).
Defined.

Lemma all_tables_saved_witness :
  order_full_run = (order_full_run.1, Ok ())
  /\ Forall (fun table => is_Some (order_full_run.1 !! table_name main_logistics table))
       all_tables.
Proof.
  assert (Hrun : order_full_run = (order_full_run.1, Ok ()))
    by (vm_compute; reflexivity).
  split; [exact Hrun|].
  exact (@all_tables_saved plain_runtime (workspace_holding order_document)
           main_logistics order_document ∅ _ Hrun).
Defined.
